(** * Xray-core configuration compiler: infra/conf/xray.go

    A shallow embedding of the inbound and outbound compilers, the
    override merger, the transport overlay and the top-level compiler of
    [infra/conf/xray.go], with the properties checked against it.

    Conventions.
    - A Go pointer [*T] that the code tests against [nil] is [option T].
    - A Go function returning [(T, error)] returns [result T]; a run-time
      panic (nil dereference, index out of range) is the outcome [Panic].
    - [uint32] and [int] values are [Z]; the wrap-around of each
      arithmetic operation is written out ([int] is taken to be 64 bits
      wide, as on the platforms the program is released for).
    - A Go string is a [string] of bytes. [strings.ToLower] is embedded
      as the library has it: a string of ASCII bytes is lower-cased byte
      by byte; on any other string the library maps [unicode.ToLower]
      over the runes, and that result, which depends on the Unicode
      tables of the Go release, is the parameter [Go.Unicode], of which
      nothing is assumed.
    - Code of the repository that is not part of [xray.go] is taken as a
      parameter: the settings types the file only passes around are the
      class [Opaque], the builders and loaders the two compilers call are
      the class [Collaborators], and the post-processing stage and the
      builders of the runtime modules are the class [ModuleBuilders]. *)

From Stdlib Require Import ZArith String Ascii List Lia Bool.
From stdpp Require Import base option list strings.

Local Open Scope Z_scope.
Local Open Scope string_scope.

(** ** Go library functions used by the file *)

Module Go.

(** [strings.ToLower] first scans the bytes of its argument:
    [isASCII] is its test that every byte is below [utf8.RuneSelf]
    (0x80). *)
Fixpoint isASCII (s : string) : bool :=
  match s with
  | EmptyString => true
  | String c r => (nat_of_ascii c <? 128)%nat && isASCII r
  end.

(** The branch of [strings.ToLower] for a string of ASCII bytes: a byte
    in ['A'..'Z'] is moved to ['a'..'z'] ([c += 'a' - 'A']), any other
    byte is kept. *)
Definition lowerByte (c : ascii) : ascii :=
  let n := nat_of_ascii c in
  if (65 <=? n)%nat && (n <=? 90)%nat then ascii_of_nat (n + 32) else c.

Fixpoint lowerASCII (s : string) : string :=
  match s with
  | EmptyString => EmptyString
  | String c r => String (lowerByte c) (lowerASCII r)
  end.

(** The other branch, [strings.Map(unicode.ToLower, s)]: the runes of
    [s] are decoded, each is mapped through the case tables of the
    [unicode] package and the result is encoded again. The tables are
    those of the Go release the program is built with; the result of
    this branch is a parameter. *)
Class Unicode : Type := {
  MapToLower : string -> string
}.

(** [strings.ToLower] *)
Definition ToLower `{Unicode} (s : string) : string :=
  if isASCII s then lowerASCII s else MapToLower s.

(** [strings.Contains s substr]. *)
Fixpoint Contains (s substr : string) : bool :=
  String.prefix substr s ||
  match s with
  | EmptyString => false
  | String _ r => Contains r substr
  end.

(** [len(s) > 0] for a string. *)
Definition nonEmpty (s : string) : bool :=
  match s with EmptyString => false | String _ _ => true end.

(** Wrap-around of the fixed-width integer types. *)
Definition uint32 (x : Z) : Z := x mod 2 ^ 32.
Definition int (x : Z) : Z := (x + 2 ^ 63) mod 2 ^ 64 - 2 ^ 63.

End Go.

(** ** Addresses (package [conf], file [common.go]) *)

(** Modelled from the spec: the type [Address], declared outside
  [xray.go], with its methods [Family] and [Domain]. An address is an
  IPv4 address, an IPv6 address (their bytes) or a domain name; the path
  of a domain socket is held as a domain name. *)
Inductive Address : Type :=
  | IPv4Address (ip : list Z)
  | IPv6Address (ip : list Z)
  | DomainAddress (d : string).

(** ** Errors and results *)

(** The errors built with [newError] in the file, one constructor per
  call site (the message of the source is quoted at each use), and the
  wrapping [newError(ctx).Base(cause)]. [ErrCollaborator] is an error
  returned by code outside the file. *)
Inductive error : Type :=
  | ErrUnknownProtocol (p : string)
  | ErrSniffingUnknownProtocol (p : string)
  | ErrUnknownXudpProxyUDP443 (v : string)
  | ErrUnknownAllocationStrategy (s : string)
  | ErrAnyIPNoPort
  | ErrSpecificIPNoPort
  | ErrListenOnDomain (d : string)
  | ErrNotEnoughPorts (concurrency : Z) (ports : list (Z * Z))
  | ErrDialerProxyConflict
  | ErrSendThrough (a : Address)
  | ErrCollaborator (msg : string)
  | Base (ctx : string) (cause : error).

Inductive result (A : Type) : Type :=
  | Ok (a : A)
  | Err (e : error)
  | Panic.

Arguments Ok {A} a.
Arguments Err {A} e.
Arguments Panic {A}.

#[global] Instance result_ret : MRet result := fun A a => Ok a.
#[global] Instance result_bind : MBind result := fun A B f r =>
  match r with
  | Ok a => f a
  | Err e => Err e
  | Panic => Panic
  end.

(** [x, err := e; if err != nil { return nil, newError(ctx).Base(err) }] *)
Definition wrap {A : Type} (ctx : string) (r : result A) : result A :=
  match r with
  | Ok a => Ok a
  | Err e => Err (Base ctx e)
  | Panic => Panic
  end.

Definition isOk {A : Type} (r : result A) : bool :=
  match r with Ok _ => true | _ => false end.

(** A loop [for _, x := range l] that appends one built value per
  element and returns at the first error. *)
Fixpoint forEach {A B : Type} (f : A -> result B) (l : list A) : result (list B) :=
  match l with
  | [] => Ok []
  | x :: r => y ← f x; ys ← forEach f r; Ok (y :: ys)
  end.

(** ** Addresses and ports, continued *)

Inductive AddressFamily : Type :=
  | AddressFamilyIPv4
  | AddressFamilyIPv6
  | AddressFamilyDomain.

Definition Family (a : Address) : AddressFamily :=
  match a with
  | IPv4Address _ => AddressFamilyIPv4
  | IPv6Address _ => AddressFamilyIPv6
  | DomainAddress _ => AddressFamilyDomain
  end.

Definition IsIP (f : AddressFamily) : bool :=
  match f with AddressFamilyDomain => false | _ => true end.

Definition IsDomain (f : AddressFamily) : bool :=
  match f with AddressFamilyDomain => true | _ => false end.

(** [Domain()] panics on an IP address. *)
Definition Domain (a : Address) : result string :=
  match a with
  | DomainAddress d => Ok d
  | _ => Panic
  end.

(** [s[0]]: the first byte, a panic on the empty string. *)
Definition index0 (s : string) : result ascii :=
  match s with
  | EmptyString => Panic
  | String c _ => Ok c
  end.

(** Modelled from the spec: [Address.Build], declared outside [xray.go];
  the built [net.IPOrDomain] carries the same address. *)
Definition Address_Build (a : Address) : Address := a.

(** [PortRange] and [PortList]; the fields are [uint32], as the
  conversions of [Config.Build] show. *)
Module PortRange.
Record t : Type := { From : Z; To : Z }.
End PortRange.

Module PortList.
Record t : Type := { Range : list PortRange.t }.

(** Modelled from the spec: [PortList.Build], declared outside
    [xray.go]; the built [net.PortList] holds the same ranges in the
    same order. *)
Definition Build (p : t) : t := p.
End PortList.

(** ** Settings whose declaration lies outside [xray.go] *)

(** The settings types that [xray.go] passes around without looking
  inside: the per-transport blocks, the remaining fields of the stream
  and socket settings, the sub-documents of the root document, the
  settings object a loader returns, and the built runtime messages. *)
Module external.
Class Opaque : Type := {
  TCPConfig : Type;
  KCPConfig : Type;
  WebSocketConfig : Type;
  HTTPConfig : Type;
  DomainSocketConfig : Type;
  StreamRest : Type;
  SocketRest : Type;
  internet_StreamRest : Type;
  internet_SocketRest : Type;
  LogConfig : Type;
  RouterConfig : Type;
  DNSConfig : Type;
  PolicyConfig : Type;
  APIConfig : Type;
  MetricsConfig : Type;
  ReverseConfig : Type;
  FakeDNSConfig : Type;
  ObservatoryConfig : Type;
  TunConfig : Type;
  RawConfig : Type;
  Message : Type
}.
End external.
Import external.

(** ** Package [transport/internet]: the built stream settings *)

Module internet.
Section Types.
Context `{Opaque}.

(** [SocketConfig]: the dialer-proxy tag and the other fields ([None]
    when they all hold their zero value). *)
Record SocketConfig : Type := {
  DialerProxy : string;
  SocketOther : option internet_SocketRest
}.

Record StreamConfig : Type := {
  SocketSettings : option SocketConfig;
  StreamOther : option internet_StreamRest
}.

Record ProxyConfig : Type := {
  Tag : string;
  TransportLayerProxy : bool
}.

(** Assignments to one field. *)
Definition setDialerProxy (v : string) (s : SocketConfig) : SocketConfig :=
  {| DialerProxy := v; SocketOther := SocketOther s |}.

Definition setSocketSettings (v : option SocketConfig) (s : StreamConfig) : StreamConfig :=
  {| SocketSettings := v; StreamOther := StreamOther s |}.
End Types.
End internet.

(** ** Package [app/proxyman]: receiver and sender settings *)

Module proxyman.
Section Types.
Context `{Opaque}.

Inductive KnownProtocols : Type :=
  | KnownProtocols_HTTP
  | KnownProtocols_TLS.

Record SniffingConfig : Type := {
  Enabled : bool;
  DestinationOverride : list string;
  DomainsExcluded : list string;
  MetadataOnly : bool;
  RouteOnly : bool
}.

Record MultiplexingConfig : Type := {
  MuxEnabled : bool;
  Concurrency : Z;
  XudpConcurrency : Z;
  XudpProxyUDP443 : string
}.

Inductive AllocationStrategy_Type : Type :=
  | AllocationStrategy_Always
  | AllocationStrategy_Random
  | AllocationStrategy_External.

Record AllocationStrategy : Type := {
  Type_ : AllocationStrategy_Type;
  AllocationConcurrency : option Z;
  Refresh : option Z
}.

Record ReceiverConfig : Type := {
  PortList : option PortList.t;
  Listen : option Address;
  AllocationStrategy_ : option AllocationStrategy;
  StreamSettings : option internet.StreamConfig;
  ReceiveOriginalDestination : bool;
  DomainOverride : list KnownProtocols;
  SniffingSettings : option SniffingConfig
}.

Record SenderConfig : Type := {
  Via : option Address;
  SenderStreamSettings : option internet.StreamConfig;
  ProxySettings : option internet.ProxyConfig;
  MultiplexSettings : option MultiplexingConfig
}.

(** [&proxyman.ReceiverConfig{}] and [&proxyman.SenderConfig{}] *)
Definition emptyReceiverConfig : ReceiverConfig :=
  {| PortList := None; Listen := None; AllocationStrategy_ := None;
     StreamSettings := None; ReceiveOriginalDestination := false;
     DomainOverride := []; SniffingSettings := None |}.

Definition emptySenderConfig : SenderConfig :=
  {| Via := None; SenderStreamSettings := None; ProxySettings := None;
     MultiplexSettings := None |}.

(** Assignments to one field. *)
Definition setPortList v (r : ReceiverConfig) : ReceiverConfig :=
  {| PortList := v; Listen := Listen r;
     AllocationStrategy_ := AllocationStrategy_ r;
     StreamSettings := StreamSettings r;
     ReceiveOriginalDestination := ReceiveOriginalDestination r;
     DomainOverride := DomainOverride r;
     SniffingSettings := SniffingSettings r |}.

Definition setListen v (r : ReceiverConfig) : ReceiverConfig :=
  {| PortList := PortList r; Listen := v;
     AllocationStrategy_ := AllocationStrategy_ r;
     StreamSettings := StreamSettings r;
     ReceiveOriginalDestination := ReceiveOriginalDestination r;
     DomainOverride := DomainOverride r;
     SniffingSettings := SniffingSettings r |}.

Definition setAllocationStrategy v (r : ReceiverConfig) : ReceiverConfig :=
  {| PortList := PortList r; Listen := Listen r;
     AllocationStrategy_ := v;
     StreamSettings := StreamSettings r;
     ReceiveOriginalDestination := ReceiveOriginalDestination r;
     DomainOverride := DomainOverride r;
     SniffingSettings := SniffingSettings r |}.

Definition setStreamSettings v (r : ReceiverConfig) : ReceiverConfig :=
  {| PortList := PortList r; Listen := Listen r;
     AllocationStrategy_ := AllocationStrategy_ r;
     StreamSettings := v;
     ReceiveOriginalDestination := ReceiveOriginalDestination r;
     DomainOverride := DomainOverride r;
     SniffingSettings := SniffingSettings r |}.

Definition setReceiveOriginalDestination v (r : ReceiverConfig) : ReceiverConfig :=
  {| PortList := PortList r; Listen := Listen r;
     AllocationStrategy_ := AllocationStrategy_ r;
     StreamSettings := StreamSettings r;
     ReceiveOriginalDestination := v;
     DomainOverride := DomainOverride r;
     SniffingSettings := SniffingSettings r |}.

Definition setDomainOverride v (r : ReceiverConfig) : ReceiverConfig :=
  {| PortList := PortList r; Listen := Listen r;
     AllocationStrategy_ := AllocationStrategy_ r;
     StreamSettings := StreamSettings r;
     ReceiveOriginalDestination := ReceiveOriginalDestination r;
     DomainOverride := v;
     SniffingSettings := SniffingSettings r |}.

Definition setSniffingSettings v (r : ReceiverConfig) : ReceiverConfig :=
  {| PortList := PortList r; Listen := Listen r;
     AllocationStrategy_ := AllocationStrategy_ r;
     StreamSettings := StreamSettings r;
     ReceiveOriginalDestination := ReceiveOriginalDestination r;
     DomainOverride := DomainOverride r;
     SniffingSettings := v |}.

Definition setVia v (s : SenderConfig) : SenderConfig :=
  {| Via := v; SenderStreamSettings := SenderStreamSettings s;
     ProxySettings := ProxySettings s;
     MultiplexSettings := MultiplexSettings s |}.

Definition setSenderStreamSettings v (s : SenderConfig) : SenderConfig :=
  {| Via := Via s; SenderStreamSettings := v;
     ProxySettings := ProxySettings s;
     MultiplexSettings := MultiplexSettings s |}.

Definition setProxySettings v (s : SenderConfig) : SenderConfig :=
  {| Via := Via s; SenderStreamSettings := SenderStreamSettings s;
     ProxySettings := v;
     MultiplexSettings := MultiplexSettings s |}.

Definition setMultiplexSettings v (s : SenderConfig) : SenderConfig :=
  {| Via := Via s; SenderStreamSettings := SenderStreamSettings s;
     ProxySettings := ProxySettings s;
     MultiplexSettings := v |}.
End Types.
End proxyman.

(** ** Package [core]: the compiled handlers and the compiled document *)

Module core.
Section Types.
Context `{Opaque}.

(** [ReceiverSettings] and [SenderSettings] hold the settings that
    [serial.ToTypedMessage] wraps; [ProxySettings] holds the built
    protocol settings. *)
Record InboundHandlerConfig : Type := {
  InboundTag : string;
  ReceiverSettings : proxyman.ReceiverConfig;
  InboundProxySettings : Message
}.

Record OutboundHandlerConfig : Type := {
  SenderSettings : proxyman.SenderConfig;
  OutboundTag : string;
  OutboundProxySettings : Message
}.

(** The runtime modules of the [App] list, named after the message that
    [Config.Build] wraps for each. *)
Inductive AppKind : Type :=
  | App_dispatcher
  | App_proxyman_Inbound
  | App_proxyman_Outbound
  | App_API
  | App_Metrics
  | App_Stats
  | App_Log
  | App_Router
  | App_DNS
  | App_Policy
  | App_Reverse
  | App_FakeDNS
  | App_Observatory
  | App_Tun.

(** [serial.TypedMessage]: the kind of the wrapped message and the
    message ([None] for an empty struct literal such as
    [&dispatcher.Config{}]). *)
Record TypedMessage : Type := {
  Kind : AppKind;
  Value : option Message
}.

Record Config : Type := {
  App : list TypedMessage;
  Inbound : list InboundHandlerConfig;
  Outbound : list OutboundHandlerConfig
}.
End Types.
End core.

(** ** Package [conf]: the primitive builders of [xray.go] *)

(** [toProtocolList] *)
Fixpoint toProtocolList_loop `{Go.Unicode} (s : list string) (kp : list proxyman.KnownProtocols)
  : result (list proxyman.KnownProtocols) :=
  match s with
  | [] => Ok kp
  | p :: rest =>
      let l := Go.ToLower p in
      if (l =? "http")%string then
        toProtocolList_loop rest (kp ++ [proxyman.KnownProtocols_HTTP])
      else if (l =? "https")%string || (l =? "tls")%string || (l =? "ssl")%string then
        toProtocolList_loop rest (kp ++ [proxyman.KnownProtocols_TLS])
      else
        (* "Unknown protocol: " p *)
        Err (ErrUnknownProtocol p)
  end.

Definition toProtocolList `{Go.Unicode} (s : list string) : result (list proxyman.KnownProtocols) :=
  toProtocolList_loop s [].

Module SniffingConfig.

Record t : Type := {
  Enabled : bool;
  DestOverride : option (list string);
  DomainsExcluded : option (list string);
  MetadataOnly : bool;
  RouteOnly : bool
}.

Fixpoint destOverride_loop `{Go.Unicode} (l p : list string) : result (list string) :=
  match l with
  | [] => Ok p
  | protocol :: rest =>
      let l := Go.ToLower protocol in
      if (l =? "http")%string then destOverride_loop rest (p ++ ["http"])
      else if (l =? "tls")%string || (l =? "https")%string || (l =? "ssl")%string then
        destOverride_loop rest (p ++ ["tls"])
      else if (l =? "quic")%string then destOverride_loop rest (p ++ ["quic"])
      else if (l =? "fakedns")%string then destOverride_loop rest (p ++ ["fakedns"])
      else if (l =? "fakedns+others")%string then
        destOverride_loop rest (p ++ ["fakedns+others"])
      else
        (* "unknown protocol: " protocol *)
        Err (ErrSniffingUnknownProtocol protocol)
  end.

Definition Build `{Go.Unicode} (c : t) : result proxyman.SniffingConfig :=
  p ← match DestOverride c with
      | Some l => destOverride_loop l []
      | None => Ok []
      end;
  let d := match DomainsExcluded c with
           | Some l => map Go.ToLower l
           | None => []
           end in
  Ok {| proxyman.Enabled := Enabled c;
        proxyman.DestinationOverride := p;
        proxyman.DomainsExcluded := d;
        proxyman.MetadataOnly := MetadataOnly c;
        proxyman.RouteOnly := RouteOnly c |}.

End SniffingConfig.

Module MuxConfig.

(** [Concurrency] and [XudpConcurrency] are [int16]; their conversion
    to [int32] keeps the value. *)
Record t : Type := {
  Enabled : bool;
  Concurrency : Z;
  XudpConcurrency : Z;
  XudpProxyUDP443 : string
}.

Definition Build (m : t) : result proxyman.MultiplexingConfig :=
  let v := XudpProxyUDP443 m in
  if (v =? "")%string then
    Ok {| proxyman.MuxEnabled := Enabled m;
          proxyman.Concurrency := Concurrency m;
          proxyman.XudpConcurrency := XudpConcurrency m;
          proxyman.XudpProxyUDP443 := "reject" |}
  else if (v =? "reject")%string || (v =? "allow")%string || (v =? "skip")%string then
    Ok {| proxyman.MuxEnabled := Enabled m;
          proxyman.Concurrency := Concurrency m;
          proxyman.XudpConcurrency := XudpConcurrency m;
          proxyman.XudpProxyUDP443 := v |}
  else
    (* `unknown "xudpProxyUDP443": ` v *)
    Err (ErrUnknownXudpProxyUDP443 v).

End MuxConfig.

Module InboundDetourAllocationConfig.

Record t : Type := {
  Strategy : string;
  Concurrency : option Z;
  RefreshMin : option Z
}.

Definition Build `{Go.Unicode} (c : t) : result proxyman.AllocationStrategy :=
  let s := Go.ToLower (Strategy c) in
  ty ← (if (s =? "always")%string then Ok proxyman.AllocationStrategy_Always
        else if (s =? "random")%string then Ok proxyman.AllocationStrategy_Random
        else if (s =? "external")%string then Ok proxyman.AllocationStrategy_External
        else
          (* "unknown allocation strategy: " c.Strategy *)
          Err (ErrUnknownAllocationStrategy (Strategy c)));
  Ok {| proxyman.Type_ := ty;
        proxyman.AllocationConcurrency := Concurrency c;
        proxyman.Refresh := RefreshMin c |}.

End InboundDetourAllocationConfig.

(** ** Package [conf]: stream, transport and proxy-chain settings *)

Module SocketConfig.
Section Types.
Context `{Opaque}.

(** The socket options of a stream: the dialer-proxy tag, and the
    fields [xray.go] does not read. *)
Record t : Type := {
  DialerProxy : string;
  Other : option SocketRest
}.
End Types.
End SocketConfig.

Module StreamConfig.
Section Types.
Context `{Opaque}.

(** One optional block per transport, the socket options, and the
    fields [xray.go] does not read ([None] when all are zero, as in
    [&StreamConfig{}]). *)
Record t : Type := {
  TCPSettings : option TCPConfig;
  KCPSettings : option KCPConfig;
  WSSettings : option WebSocketConfig;
  HTTPSettings : option HTTPConfig;
  DSSettings : option DomainSocketConfig;
  SocketSettings : option SocketConfig.t;
  Other : option StreamRest
}.

(** [&StreamConfig{}] *)
Definition empty : t :=
  {| TCPSettings := None; KCPSettings := None; WSSettings := None;
     HTTPSettings := None; DSSettings := None; SocketSettings := None;
     Other := None |}.
End Types.
End StreamConfig.

Module TransportConfig.
Section Types.
Context `{Opaque}.

Record t : Type := {
  TCPConfig : option TCPConfig;
  KCPConfig : option KCPConfig;
  WSConfig : option WebSocketConfig;
  HTTPConfig : option HTTPConfig;
  DSConfig : option DomainSocketConfig
}.
End Types.
End TransportConfig.

Module ProxyConfig.
Record t : Type := {
  Tag : string;
  TransportLayerProxy : bool
}.
End ProxyConfig.

(** [applyTransportConfig]: the stream settings as the call leaves them. *)
Definition applyTransportConfig `{Opaque} (s : StreamConfig.t) (t : TransportConfig.t)
  : StreamConfig.t :=
  {| StreamConfig.TCPSettings :=
       match StreamConfig.TCPSettings s with
       | None => TransportConfig.TCPConfig t
       | Some x => Some x
       end;
     StreamConfig.KCPSettings :=
       match StreamConfig.KCPSettings s with
       | None => TransportConfig.KCPConfig t
       | Some x => Some x
       end;
     StreamConfig.WSSettings :=
       match StreamConfig.WSSettings s with
       | None => TransportConfig.WSConfig t
       | Some x => Some x
       end;
     StreamConfig.HTTPSettings :=
       match StreamConfig.HTTPSettings s with
       | None => TransportConfig.HTTPConfig t
       | Some x => Some x
       end;
     StreamConfig.DSSettings :=
       match StreamConfig.DSSettings s with
       | None => TransportConfig.DSConfig t
       | Some x => Some x
       end;
     StreamConfig.SocketSettings := StreamConfig.SocketSettings s;
     StreamConfig.Other := StreamConfig.Other s |}.

(** ** The collaborators of the inbound and outbound compilers *)

(** The functions of the repository that the two compilers call and that
  are declared outside [xray.go]: the builders of the stream and
  proxy-chain settings, the two settings loaders
  ([inboundConfigLoader.LoadWithID], [outboundConfigLoader.LoadWithID]),
  the type test of [rawConfig] against [DokodemoConfig] with the field
  [Redirect] it gives access to, and [rawConfig.(Buildable).Build()]. *)
Class Collaborators `{Opaque} : Type := {
  StreamConfig_Build : StreamConfig.t -> result internet.StreamConfig;
  ProxyConfig_Build : ProxyConfig.t -> result internet.ProxyConfig;
  inboundConfigLoader_LoadWithID : string -> string -> result RawConfig;
  outboundConfigLoader_LoadWithID : string -> string -> result RawConfig;
  asDokodemoConfig : RawConfig -> option bool;
  Buildable_Build : RawConfig -> result Message
}.

(** ** The inbound compiler *)

Module InboundDetourConfig.
Section Build.
Context `{Collaborators} {U : Go.Unicode}.

Record t : Type := {
  Protocol : string;
  PortList : option PortList.t;
  ListenOn : option Address;
  Settings : option string;
  Tag : string;
  Allocation : option InboundDetourAllocationConfig.t;
  StreamSetting : option StreamConfig.t;
  DomainOverride : option (list string);
  SniffingConfig : option SniffingConfig.t
}.

(** Assignments to one field. *)
Definition setPortList (v : option PortList.t) (c : t) : t :=
  {| Protocol := Protocol c; PortList := v; ListenOn := ListenOn c;
     Settings := Settings c; Tag := Tag c; Allocation := Allocation c;
     StreamSetting := StreamSetting c; DomainOverride := DomainOverride c;
     SniffingConfig := SniffingConfig c |}.

Definition setStreamSetting (v : option StreamConfig.t) (c : t) : t :=
  {| Protocol := Protocol c; PortList := PortList c; ListenOn := ListenOn c;
     Settings := Settings c; Tag := Tag c; Allocation := Allocation c;
     StreamSetting := v; DomainOverride := DomainOverride c;
     SniffingConfig := SniffingConfig c |}.

(** Lines 183-209 of [Build]: the listen address and the port list. *)
Definition buildListen (c : t) : result proxyman.ReceiverConfig :=
  let receiverSettings := proxyman.emptyReceiverConfig in
  match ListenOn c with
  | None =>
      match PortList c with
      | None =>
          (* "Listen on AnyIP but no Port(s) set in InboundDetour." *)
          Err ErrAnyIPNoPort
      | Some pl =>
          Ok (proxyman.setPortList (Some (PortList.Build pl)) receiverSettings)
      end
  | Some a =>
      let receiverSettings :=
        proxyman.setListen (Some (Address_Build a)) receiverSettings in
      listenDS ←
        (if IsDomain (Family a) then
           d ← Domain a; b ← index0 d;
           if Ascii.eqb b "/" then Ok true
           else d ← Domain a; b ← index0 d; Ok (Ascii.eqb b "@")
         else Ok false);
      listenIP ←
        (if IsIP (Family a) then Ok true
         else if IsDomain (Family a) then
           d ← Domain a; Ok (d =? "localhost")%string
         else Ok false);
      if listenIP : bool then
        match PortList c with
        | None =>
            (* "Listen on specific ip without port in InboundDetour." *)
            Err ErrSpecificIPNoPort
        | Some pl =>
            Ok (proxyman.setPortList (Some (PortList.Build pl)) receiverSettings)
        end
      else if listenDS : bool then
        match PortList c with
        | Some _ => Ok (proxyman.setPortList None receiverSettings)
        | None => Ok receiverSettings
        end
      else
        (* "unable to listen on domain address: " c.ListenOn.Domain() *)
        d ← Domain a; Err (ErrListenOnDomain d)
  end.

(** The loop [for _, pr := range c.PortList.Range] of line 218. *)
Fixpoint portRange_loop (l : list PortRange.t) (portRange : Z) : Z :=
  match l with
  | [] => portRange
  | pr :: rest =>
      portRange_loop rest
        (Go.int (portRange + Go.int (Go.uint32 (PortRange.To pr - PortRange.From pr + 1))))
  end.

(** Lines 211-234 of [Build]: the allocation strategy. The port list is
    read through [c.PortList] without a test against [nil]. *)
Definition buildAllocation (c : t) (receiverSettings : proxyman.ReceiverConfig)
  : result proxyman.ReceiverConfig :=
  match Allocation c with
  | None => Ok receiverSettings
  | Some a =>
      let concurrency :=
        match InboundDetourAllocationConfig.Concurrency a with
        | Some n =>
            if (InboundDetourAllocationConfig.Strategy a =? "random")%string
            then Go.int n else -1
        | None => -1
        end in
      match PortList c with
      | None => Panic
      | Some pl =>
          let portRange := portRange_loop (PortList.Range pl) 0 in
          if (0 <=? concurrency)%Z && (portRange <=? concurrency)%Z then
            (* "not enough ports. concurrency = " concurrency " ports: " ports *)
            Err (ErrNotEnoughPorts concurrency
                   (map (fun pr => (PortRange.From pr, PortRange.To pr))
                      (PortList.Range pl)))
          else
            as_ ← InboundDetourAllocationConfig.Build a;
            Ok (proxyman.setAllocationStrategy (Some as_) receiverSettings)
      end
  end.

(** Lines 235-278 of [Build]: stream settings, sniffing, domain
    override, and the protocol settings. *)
Definition buildSettings (c : t) (receiverSettings : proxyman.ReceiverConfig)
  : result core.InboundHandlerConfig :=
  receiverSettings ←
    match StreamSetting c with
    | Some s =>
        ss ← StreamConfig_Build s;
        Ok (proxyman.setStreamSettings (Some ss) receiverSettings)
    | None => Ok receiverSettings
    end;
  receiverSettings ←
    match SniffingConfig c with
    | Some sc =>
        s ← wrap "failed to build sniffing config" (SniffingConfig.Build sc);
        Ok (proxyman.setSniffingSettings (Some s) receiverSettings)
    | None => Ok receiverSettings
    end;
  receiverSettings ←
    match DomainOverride c with
    | Some l =>
        kp ← wrap "failed to parse inbound detour config" (toProtocolList l);
        Ok (proxyman.setDomainOverride kp receiverSettings)
    | None => Ok receiverSettings
    end;
  let settings := match Settings c with Some s => s | None => "{}" end in
  rawConfig ← wrap "failed to load inbound detour config."
                (inboundConfigLoader_LoadWithID settings (Protocol c));
  let receiverSettings :=
    match asDokodemoConfig rawConfig with
    | Some redirect =>
        proxyman.setReceiveOriginalDestination redirect receiverSettings
    | None => receiverSettings
    end in
  ts ← Buildable_Build rawConfig;
  Ok {| core.InboundTag := Tag c;
        core.ReceiverSettings := receiverSettings;
        core.InboundProxySettings := ts |}.

(** [InboundDetourConfig.Build] *)
Definition Build (c : t) : result core.InboundHandlerConfig :=
  receiverSettings ← buildListen c;
  receiverSettings ← buildAllocation c receiverSettings;
  buildSettings c receiverSettings.

End Build.
End InboundDetourConfig.

(** ** The outbound compiler *)

Module OutboundDetourConfig.
Section Build.
Context `{Collaborators}.

Record t : Type := {
  Protocol : string;
  SendThrough : option Address;
  Tag : string;
  Settings : option string;
  StreamSetting : option StreamConfig.t;
  ProxySettings : option ProxyConfig.t;
  MuxSettings : option MuxConfig.t
}.

Definition setStreamSetting (v : option StreamConfig.t) (c : t) : t :=
  {| Protocol := Protocol c; SendThrough := SendThrough c; Tag := Tag c;
     Settings := Settings c; StreamSetting := v;
     ProxySettings := ProxySettings c; MuxSettings := MuxSettings c |}.

(** [checkChainProxyConfig]: [None] is the [nil] error. *)
Definition checkChainProxyConfig (c : t) : option error :=
  match StreamSetting c, ProxySettings c with
  | Some ss, Some ps =>
      match StreamConfig.SocketSettings ss with
      | None => None
      | Some sock =>
          if Go.nonEmpty (ProxyConfig.Tag ps)
             && Go.nonEmpty (SocketConfig.DialerProxy sock)
          then
            (* "proxySettings.tag is conflicted with sockopt.dialerProxy" *)
            Some ErrDialerProxyConflict
          else None
      end
  | _, _ => None
  end.

(** Lines 323-341 of [Build]: the proxy-chain settings. *)
Definition buildProxySettings (c : t) (senderSettings : proxyman.SenderConfig)
  : result proxyman.SenderConfig :=
  match ProxySettings c with
  | None => Ok senderSettings
  | Some p =>
      ps ← wrap "invalid outbound detour proxy settings." (ProxyConfig_Build p);
      if internet.TransportLayerProxy ps then
        let sock :=
          {| internet.DialerProxy := internet.Tag ps;
             internet.SocketOther := None |} in
        let ss :=
          match proxyman.SenderStreamSettings senderSettings with
          | Some ss =>
              match internet.SocketSettings ss with
              | Some sk =>
                  internet.setSocketSettings
                    (Some (internet.setDialerProxy (internet.Tag ps) sk)) ss
              | None => internet.setSocketSettings (Some sock) ss
              end
          | None =>
              {| internet.SocketSettings := Some sock;
                 internet.StreamOther := None |}
          end in
        Ok (proxyman.setProxySettings None
              (proxyman.setSenderStreamSettings (Some ss) senderSettings))
      else
        Ok (proxyman.setProxySettings (Some ps) senderSettings)
  end.

(** The sender settings of [Build], lines 302-349. *)
Definition buildSender (c : t) : result proxyman.SenderConfig :=
  let senderSettings := proxyman.emptySenderConfig in
  match checkChainProxyConfig c with
  | Some err => Err err
  | None =>
      senderSettings ←
        match SendThrough c with
        | Some address =>
            if IsDomain (Family address) then
              (* "unable to send through: " address *)
              Err (ErrSendThrough address)
            else Ok (proxyman.setVia (Some (Address_Build address)) senderSettings)
        | None => Ok senderSettings
        end;
      senderSettings ←
        match StreamSetting c with
        | Some s =>
            ss ← StreamConfig_Build s;
            Ok (proxyman.setSenderStreamSettings (Some ss) senderSettings)
        | None => Ok senderSettings
        end;
      senderSettings ← buildProxySettings c senderSettings;
      match MuxSettings c with
      | Some m =>
          ms ← wrap "failed to build Mux config." (MuxConfig.Build m);
          Ok (proxyman.setMultiplexSettings (Some ms) senderSettings)
      | None => Ok senderSettings
      end
  end.

(** [OutboundDetourConfig.Build] *)
Definition Build (c : t) : result core.OutboundHandlerConfig :=
  senderSettings ← buildSender c;
  let settings := match Settings c with Some s => s | None => "{}" end in
  rawConfig ← wrap "failed to parse to outbound detour config."
                (outboundConfigLoader_LoadWithID settings (Protocol c));
  ts ← Buildable_Build rawConfig;
  Ok {| core.SenderSettings := senderSettings;
        core.OutboundTag := Tag c;
        core.OutboundProxySettings := ts |}.

End Build.
End OutboundDetourConfig.

(** ** The root document: override merge and top-level compiler *)

Module StatsConfig.
(** [type StatsConfig struct{}] *)
Record t : Type := mk { }.

(** [Build] returns [&stats.Config{}] and no error. *)
Definition Build (c : t) : result unit := Ok tt.
End StatsConfig.

Module Config.
Section Types.
Context `{Opaque} {U : Go.Unicode}.

(** [Port] is [uint16]. [InboundDetours] and [OutboundDetours] are
    tested against [nil], so [None] is the [nil] slice; of
    [InboundConfigs] and [OutboundConfigs] only the length and the
    elements are read. *)
Record t : Type := {
  Port : Z;
  InboundConfig : option InboundDetourConfig.t;
  OutboundConfig : option OutboundDetourConfig.t;
  InboundDetours : option (list InboundDetourConfig.t);
  OutboundDetours : option (list OutboundDetourConfig.t);
  LogConfig : option LogConfig;
  RouterConfig : option RouterConfig;
  DNSConfig : option DNSConfig;
  InboundConfigs : list InboundDetourConfig.t;
  OutboundConfigs : list OutboundDetourConfig.t;
  Transport : option TransportConfig.t;
  Policy : option PolicyConfig;
  API : option APIConfig;
  Metrics : option MetricsConfig;
  Stats : option StatsConfig.t;
  Reverse : option ReverseConfig;
  FakeDNS : option FakeDNSConfig;
  Observatory : option ObservatoryConfig;
  Tun : option TunConfig
}.

(** [findInboundTag]: the loop with its index, [-1] when it ends
    without a match. *)
Fixpoint findInboundTag_loop (l : list InboundDetourConfig.t) (idx : Z)
    (tag : string) : Z :=
  match l with
  | [] => -1
  | ib :: rest =>
      if (InboundDetourConfig.Tag ib =? tag)%string then idx
      else findInboundTag_loop rest (idx + 1) tag
  end.

Definition findInboundTag (c : t) (tag : string) : Z :=
  findInboundTag_loop (InboundConfigs c) 0 tag.

(** [findOutboundTag] *)
Fixpoint findOutboundTag_loop (l : list OutboundDetourConfig.t) (idx : Z)
    (tag : string) : Z :=
  match l with
  | [] => -1
  | ob :: rest =>
      if (OutboundDetourConfig.Tag ob =? tag)%string then idx
      else findOutboundTag_loop rest (idx + 1) tag
  end.

Definition findOutboundTag (c : t) (tag : string) : Z :=
  findOutboundTag_loop (OutboundConfigs c) 0 tag.

(** [if o.X != nil { c.X = o.X }] *)
Definition orKeep {A : Type} (o c : option A) : option A :=
  match o with
  | Some _ => o
  | None => c
  end.

(** A line written with [ctllog.Println]: its operands. *)
Definition logLine : Type := list string.

(** Lines 498-510 of [Override]: the inbound list of [c] after the
    merge, and the lines logged. *)
Definition overrideInbounds (c o : t) (fn : string)
  : list InboundDetourConfig.t * list logLine :=
  match InboundConfigs o with
  | [] => (InboundConfigs c, [])
  | o0 :: _ =>
      if (0 <? length (InboundConfigs c))%nat
         && (length (InboundConfigs o) =? 1)%nat
      then
        let idx := findInboundTag c (InboundDetourConfig.Tag o0) in
        if (-1 <? idx)%Z then
          (<[Z.to_nat idx := o0]> (InboundConfigs c),
           [["["; fn; "] updated inbound with tag: "; InboundDetourConfig.Tag o0]])
        else
          ((InboundConfigs c ++ [o0])%list,
           [["["; fn; "] appended inbound with tag: "; InboundDetourConfig.Tag o0]])
      else (InboundConfigs o, [])
  end.

(** Lines 513-530 of [Override]: the outbound list of [c] after the
    merge, and the lines logged. *)
Definition overrideOutbounds (c o : t) (fn : string)
  : list OutboundDetourConfig.t * list logLine :=
  match OutboundConfigs o with
  | [] => (OutboundConfigs c, [])
  | o0 :: _ =>
      if (0 <? length (OutboundConfigs c))%nat
         && (length (OutboundConfigs o) =? 1)%nat
      then
        let idx := findOutboundTag c (OutboundDetourConfig.Tag o0) in
        if (-1 <? idx)%Z then
          (<[Z.to_nat idx := o0]> (OutboundConfigs c),
           [["["; fn; "] updated outbound with tag: "; OutboundDetourConfig.Tag o0]])
        else if Go.Contains (Go.ToLower fn) "tail" then
          ((OutboundConfigs c ++ [o0])%list,
           [["["; fn; "] appended outbound with tag: "; OutboundDetourConfig.Tag o0]])
        else
          ((OutboundConfigs o ++ OutboundConfigs c)%list,
           [["["; fn; "] prepended outbound with tag: "; OutboundDetourConfig.Tag o0]])
      else (OutboundConfigs o, [])
  end.

(** [Override]: the document [c] as the call leaves it, and the lines
    written to [ctllog]. *)
Definition Override (c o : t) (fn : string) : t * list logLine :=
  let (inbounds, logIn) := overrideInbounds c o fn in
  let (outbounds, logOut) := overrideOutbounds c o fn in
  ({| Port := Port c;
      InboundConfig := orKeep (InboundConfig o) (InboundConfig c);
      OutboundConfig := orKeep (OutboundConfig o) (OutboundConfig c);
      InboundDetours := orKeep (InboundDetours o) (InboundDetours c);
      OutboundDetours := orKeep (OutboundDetours o) (OutboundDetours c);
      LogConfig := orKeep (LogConfig o) (LogConfig c);
      RouterConfig := orKeep (RouterConfig o) (RouterConfig c);
      DNSConfig := orKeep (DNSConfig o) (DNSConfig c);
      InboundConfigs := inbounds;
      OutboundConfigs := outbounds;
      Transport := orKeep (Transport o) (Transport c);
      Policy := orKeep (Policy o) (Policy c);
      API := orKeep (API o) (API c);
      Metrics := orKeep (Metrics o) (Metrics c);
      Stats := orKeep (Stats o) (Stats c);
      Reverse := orKeep (Reverse o) (Reverse c);
      FakeDNS := orKeep (FakeDNS o) (FakeDNS c);
      Observatory := orKeep (Observatory o) (Observatory c);
      Tun := orKeep (Tun o) (Tun c) |},
   (logIn ++ logOut)%list).
End Types.

(** The functions that [Config.Build] calls and that are declared
  outside [xray.go]: the post-processing stage, which receives the
  document by pointer and may change it, and the builders of the
  runtime modules. *)
Class ModuleBuilders `{Opaque} : Type := {
  PostProcessConfigureFile : t -> result t;
  APIConfig_Build : APIConfig -> result Message;
  MetricsConfig_Build : MetricsConfig -> result Message;
  LogConfig_Build : external.LogConfig -> Message;
  DefaultLogConfig : Message;
  RouterConfig_Build : external.RouterConfig -> result Message;
  DNSConfig_Build : external.DNSConfig -> result Message;
  PolicyConfig_Build : PolicyConfig -> result Message;
  ReverseConfig_Build : ReverseConfig -> result Message;
  FakeDNSConfig_Build : FakeDNSConfig -> result Message;
  ObservatoryConfig_Build : ObservatoryConfig -> result Message;
  TunConfig_Build : TunConfig -> result Message
}.

Section Build.
Context `{O : Opaque} {Co : Collaborators} {Mb : ModuleBuilders} {U : Go.Unicode}.

(** [serial.ToTypedMessage] *)
Definition ToTypedMessage (k : core.AppKind) (v : option Message)
  : core.TypedMessage :=
  {| core.Kind := k; core.Value := v |}.

(** [if c.X != nil { m, err := c.X.Build(); ...;
    config.App = append(config.App, serial.ToTypedMessage(m)) }] *)
Definition appendApp {A : Type} (x : option A) (build : A -> result Message)
    (k : core.AppKind) (app : list core.TypedMessage)
  : result (list core.TypedMessage) :=
  match x with
  | Some a => m ← build a; Ok (app ++ [ToTypedMessage k (Some m)])%list
  | None => Ok app
  end.

(** Lines 557-651 of [Build]: the [App] list. *)
Definition buildApp (c : t) : result (list core.TypedMessage) :=
  let app := [ToTypedMessage core.App_dispatcher None;
              ToTypedMessage core.App_proxyman_Inbound None;
              ToTypedMessage core.App_proxyman_Outbound None] in
  app ← appendApp (API c) APIConfig_Build core.App_API app;
  app ← appendApp (Metrics c) MetricsConfig_Build core.App_Metrics app;
  app ← match Stats c with
        | Some s =>
            _ ← StatsConfig.Build s;
            Ok (app ++ [ToTypedMessage core.App_Stats None])%list
        | None => Ok app
        end;
  let logConfMsg :=
    match LogConfig c with
    | Some l => ToTypedMessage core.App_Log (Some (LogConfig_Build l))
    | None => ToTypedMessage core.App_Log (Some DefaultLogConfig)
    end in
  let app := ([logConfMsg] ++ app)%list in
  app ← appendApp (RouterConfig c) RouterConfig_Build core.App_Router app;
  app ← appendApp (DNSConfig c)
          (fun d => wrap "failed to parse DNS config" (DNSConfig_Build d))
          core.App_DNS app;
  app ← appendApp (Policy c) PolicyConfig_Build core.App_Policy app;
  app ← appendApp (Reverse c) ReverseConfig_Build core.App_Reverse app;
  app ← match FakeDNS c with
        | Some f =>
            r ← FakeDNSConfig_Build f;
            Ok ([ToTypedMessage core.App_FakeDNS (Some r)] ++ app)%list
        | None => Ok app
        end;
  app ← appendApp (Observatory c) ObservatoryConfig_Build core.App_Observatory app;
  appendApp (Tun c) TunConfig_Build core.App_Tun app.

(** Lines 653-673 of [Build]: the inbound list, with the deprecated
    fields first and the deprecated port given to its first entry. *)
Definition collectInbounds (c : t) : list InboundDetourConfig.t :=
  let inbounds := [] in
  let inbounds :=
    match InboundConfig c with
    | Some i => (inbounds ++ [i])%list
    | None => inbounds
    end in
  let inbounds :=
    match InboundDetours c with
    | Some l => (inbounds ++ l)%list
    | None => inbounds
    end in
  let inbounds := (inbounds ++ InboundConfigs c)%list in
  match inbounds with
  | i0 :: rest =>
      match InboundDetourConfig.PortList i0 with
      | None =>
          if (0 <? Port c)%Z then
            InboundDetourConfig.setPortList
              (Some {| PortList.Range :=
                         [{| PortRange.From := Go.uint32 (Port c);
                             PortRange.To := Go.uint32 (Port c) |}] |}) i0
            :: rest
          else inbounds
      | Some _ => inbounds
      end
  | [] => inbounds
  end.

(** Lines 689-701 of [Build]: the outbound list. *)
Definition collectOutbounds (c : t) : list OutboundDetourConfig.t :=
  let outbounds := [] in
  let outbounds :=
    match OutboundConfig c with
    | Some o => (outbounds ++ [o])%list
    | None => outbounds
    end in
  let outbounds :=
    match OutboundDetours c with
    | Some l => (outbounds ++ l)%list
    | None => outbounds
    end in
  (outbounds ++ OutboundConfigs c)%list.

(** The overlay of the transport defaults inside the two loops. *)
Definition overlay (c : t) (s : option StreamConfig.t) : option StreamConfig.t :=
  match Transport c with
  | Some tr =>
      let s := match s with Some s => s | None => StreamConfig.empty end in
      Some (applyTransportConfig s tr)
  | None => s
  end.

(** [Config.Build] *)
Definition Build (c : t) : result core.Config :=
  c ← PostProcessConfigureFile c;
  app ← buildApp c;
  inbound ←
    forEach (fun rawInboundConfig =>
               InboundDetourConfig.Build
                 (InboundDetourConfig.setStreamSetting
                    (overlay c (InboundDetourConfig.StreamSetting rawInboundConfig))
                    rawInboundConfig))
            (collectInbounds c);
  outbound ←
    forEach (fun rawOutboundConfig =>
               OutboundDetourConfig.Build
                 (OutboundDetourConfig.setStreamSetting
                    (overlay c (OutboundDetourConfig.StreamSetting rawOutboundConfig))
                    rawOutboundConfig))
            (collectOutbounds c);
  Ok {| core.App := app; core.Inbound := inbound; core.Outbound := outbound |}.

End Build.
End Config.

(** ** The port capacity and the listen classes, as they are specified *)

(** The total capacity of a port specification: the sum of
    [to - from + 1] over its ranges. *)
Definition capacity (p : PortList.t) : Z :=
  fold_right (fun pr n => PortRange.To pr - PortRange.From pr + 1 + n) 0
    (PortList.Range p).

(** A port specification whose ranges are ordered pairs of [uint32]
    values and whose capacity fits an [int]. *)
Definition wellFormedPorts (p : PortList.t) : Prop :=
  Forall (fun pr => 0 <= PortRange.From pr <= PortRange.To pr
                    /\ PortRange.To pr - PortRange.From pr + 1 < 2 ^ 32)
    (PortList.Range p)
  /\ capacity p < 2 ^ 63.

(** The path of a filesystem or abstract domain socket: a domain whose
    first byte is ['/'] or ['@']. *)
Definition isSocketPath (a : Address) : bool :=
  match a with
  | DomainAddress (String b _) => Ascii.eqb b "/" || Ascii.eqb b "@"
  | _ => false
  end.

(** An IP address, or the domain [localhost]. *)
Definition isIPOrLocalhost (a : Address) : bool :=
  match a with
  | DomainAddress d => (d =? "localhost")%string
  | _ => true
  end.

(** ** The order of the runtime modules, as it is specified *)

(** The module [k] when its sub-document is configured, nothing
    otherwise. *)
Definition ifConfigured {A : Type} (x : option A) (k : core.AppKind)
  : list core.AppKind :=
  match x with
  | Some _ => [k]
  | None => []
  end.

(** The modules that follow the log module, in order. *)
Definition modulesAfterLog `{Opaque} (c : Config.t) : list core.AppKind :=
  ([core.App_dispatcher; core.App_proxyman_Inbound; core.App_proxyman_Outbound]
   ++ ifConfigured (Config.API c) core.App_API
   ++ ifConfigured (Config.Metrics c) core.App_Metrics
   ++ ifConfigured (Config.Stats c) core.App_Stats
   ++ ifConfigured (Config.RouterConfig c) core.App_Router
   ++ ifConfigured (Config.DNSConfig c) core.App_DNS
   ++ ifConfigured (Config.Policy c) core.App_Policy
   ++ ifConfigured (Config.Reverse c) core.App_Reverse
   ++ ifConfigured (Config.Observatory c) core.App_Observatory
   ++ ifConfigured (Config.Tun c) core.App_Tun)%list.

(** The whole list: fake-DNS, the log module, and the rest. *)
Definition moduleOrder `{Opaque} (c : Config.t) : list core.AppKind :=
  (ifConfigured (Config.FakeDNS c) core.App_FakeDNS
   ++ [core.App_Log] ++ modulesAfterLog c)%list.

(** The log module of a document: built from the explicit log settings,
    or else the default. *)
Definition logMessage `{Config.ModuleBuilders} (c : Config.t) : core.TypedMessage :=
  Config.ToTypedMessage core.App_Log
    (Some match Config.LogConfig c with
          | Some l => Config.LogConfig_Build l
          | None => Config.DefaultLogConfig
          end).

(** ** In-place replacement, as the override merge is specified *)

(** [replacesFirst tagOf base e merged]: [merged] is [base] with [e]
    written over the first entry that has the tag of [e]; the entry
    exists, no entry before it has that tag, the length is kept, and
    every other position holds what it held. *)
Definition replacesFirst {A : Type} (tagOf : A -> string) (base : list A)
    (e : A) (merged : list A) : Prop :=
  exists (i : nat) (b : A),
    base !! i = Some b
    /\ tagOf b = tagOf e
    /\ Forall (fun b' => tagOf b' <> tagOf e) (take i base)
    /\ merged = <[i := e]> base
    /\ length merged = length base
    /\ merged !! i = Some e
    /\ forall j : nat, j <> i -> merged !! j = base !! j.

(** ** The vocabularies of the primitive builders *)

(** The names that [toProtocolList] reads as HTTP and as TLS. *)
Definition namesHTTP `{Go.Unicode} (p : string) : bool := (Go.ToLower p =? "http")%string.

Definition namesTLS `{Go.Unicode} (p : string) : bool :=
  existsb (String.eqb (Go.ToLower p)) ["https"; "tls"; "ssl"].

(** The relation between a name and the protocol written for it. *)
Definition protocolFor `{Go.Unicode} (p : string) (k : proxyman.KnownProtocols) : Prop :=
  match k with
  | proxyman.KnownProtocols_HTTP => namesHTTP p = true
  | proxyman.KnownProtocols_TLS => namesTLS p = true
  end.

(** The five keywords of the sniffing builder. *)
Definition sniffingKeywords : list string :=
  ["http"; "tls"; "quic"; "fakedns"; "fakedns+others"].

(** The keyword that the sniffing builder writes for a destination
    override entry, [None] for an entry outside its vocabulary. *)
Definition sniffingKeyword `{Go.Unicode} (p : string) : option string :=
  let l := Go.ToLower p in
  if (l =? "http")%string then Some "http"
  else if existsb (String.eqb l) ["tls"; "https"; "ssl"] then Some "tls"
  else if existsb (String.eqb l) ["quic"; "fakedns"; "fakedns+others"] then Some l
  else None.

(** The policies for UDP on port 443 that the multiplexing builder
    writes. *)
Definition xudpPolicies : list string := ["reject"; "allow"; "skip"].

(** The strategy that a name stands for, read in lower case. *)
Definition strategyOf `{Go.Unicode} (name : string) : option proxyman.AllocationStrategy_Type :=
  let s := Go.ToLower name in
  if (s =? "always")%string then Some proxyman.AllocationStrategy_Always
  else if (s =? "random")%string then Some proxyman.AllocationStrategy_Random
  else if (s =? "external")%string then Some proxyman.AllocationStrategy_External
  else None.

(** ** Documents, as the merge and the top-level compiler read them *)

(** The document with no field set: [&Config{}]. *)
Definition zeroConfig `{Opaque} : Config.t :=
  {| Config.Port := 0;
     Config.InboundConfig := None; Config.OutboundConfig := None;
     Config.InboundDetours := None; Config.OutboundDetours := None;
     Config.LogConfig := None; Config.RouterConfig := None;
     Config.DNSConfig := None;
     Config.InboundConfigs := []; Config.OutboundConfigs := [];
     Config.Transport := None; Config.Policy := None; Config.API := None;
     Config.Metrics := None; Config.Stats := None; Config.Reverse := None;
     Config.FakeDNS := None; Config.Observatory := None; Config.Tun := None |}.

(** The inbound specs of a document in the order of their sources: the
    deprecated single inbound, the deprecated detours, the inbounds. *)
Definition allInbounds `{Opaque} (c : Config.t) : list InboundDetourConfig.t :=
  (option_list (Config.InboundConfig c)
   ++ default [] (Config.InboundDetours c)
   ++ Config.InboundConfigs c)%list.

(** The outbound specs of a document, in the same order. *)
Definition allOutbounds `{Opaque} (c : Config.t) : list OutboundDetourConfig.t :=
  (option_list (Config.OutboundConfig c)
   ++ default [] (Config.OutboundDetours c)
   ++ Config.OutboundConfigs c)%list.

(** The port list that the deprecated top-level port stands for. *)
Definition legacyPortList (port : Z) : PortList.t :=
  {| PortList.Range := [{| PortRange.From := Go.uint32 port;
                           PortRange.To := Go.uint32 port |}] |}.

(** An inbound spec, and an outbound spec, as the loops of the top-level
    compiler hand them to their compilers: with the transport defaults of
    the document laid over their stream settings. *)
Definition inboundWithTransport `{Opaque} (c : Config.t)
    (spec : InboundDetourConfig.t) : InboundDetourConfig.t :=
  InboundDetourConfig.setStreamSetting
    (Config.overlay c (InboundDetourConfig.StreamSetting spec)) spec.

Definition outboundWithTransport `{Opaque} (c : Config.t)
    (spec : OutboundDetourConfig.t) : OutboundDetourConfig.t :=
  OutboundDetourConfig.setStreamSetting
    (Config.overlay c (OutboundDetourConfig.StreamSetting spec)) spec.

(** The builder [f] accepts the sub-document [x] when there is one. *)
Definition accepts {A B : Type} (f : A -> result B) (x : option A) : Prop :=
  forall a, x = Some a -> isOk (f a) = true.

(** ** A concrete setting, for running the compilers *)

Module demo.

(** The strings of the examples are ASCII, so [strings.ToLower] never
    reaches the Unicode tables on them. The stand-in for the tables
    keeps every byte above 0x7F, as the library does for a rune without
    a lower-case form. *)
#[local] Instance unicode : Go.Unicode := {
  Go.MapToLower := Go.lowerASCII
}.

(** Every settings block is a string; a loaded settings object is the
    name of its protocol and the built message is that name. *)
#[local] Instance opaque : Opaque := {
  TCPConfig := string;
  KCPConfig := string;
  WebSocketConfig := string;
  HTTPConfig := string;
  DomainSocketConfig := string;
  StreamRest := string;
  SocketRest := string;
  internet_StreamRest := string;
  internet_SocketRest := string;
  external.LogConfig := string;
  external.RouterConfig := string;
  external.DNSConfig := string;
  PolicyConfig := string;
  APIConfig := string;
  MetricsConfig := string;
  ReverseConfig := string;
  FakeDNSConfig := string;
  ObservatoryConfig := string;
  TunConfig := string;
  RawConfig := string;
  Message := string
}.

(** The stream builder keeps the socket options; the proxy-chain builder
    refuses an empty tag; the loaders know the protocols of the two
    tables of [xray.go]. *)
Definition buildStream (s : StreamConfig.t) : result internet.StreamConfig :=
  Ok {| internet.SocketSettings :=
          match StreamConfig.SocketSettings s with
          | Some k =>
              Some {| internet.DialerProxy := SocketConfig.DialerProxy k;
                      internet.SocketOther := SocketConfig.Other k |}
          | None => None
          end;
        internet.StreamOther := StreamConfig.Other s |}.

Definition buildProxy (p : ProxyConfig.t) : result internet.ProxyConfig :=
  if (ProxyConfig.Tag p =? "")%string then Err (ErrCollaborator "Proxy tag is not set.")
  else Ok {| internet.Tag := ProxyConfig.Tag p;
             internet.TransportLayerProxy := ProxyConfig.TransportLayerProxy p |}.

Definition inboundProtocols : list string :=
  ["dokodemo-door"; "http"; "shadowsocks"; "socks"; "vless"; "vmess";
   "trojan"; "mtproto"].

Definition outboundProtocols : list string :=
  ["blackhole"; "loopback"; "freedom"; "http"; "shadowsocks"; "socks";
   "vless"; "vmess"; "trojan"; "mtproto"; "dns"; "wireguard"].

Definition load (table : list string) (settings id : string) : result string :=
  if existsb (String.eqb id) table then Ok id
  else Err (ErrCollaborator "unknown config id").

#[local] Instance collaborators : Collaborators := {
  StreamConfig_Build := buildStream;
  ProxyConfig_Build := buildProxy;
  inboundConfigLoader_LoadWithID := load inboundProtocols;
  outboundConfigLoader_LoadWithID := load outboundProtocols;
  asDokodemoConfig := fun r => if (r =? "dokodemo-door")%string then Some false else None;
  Buildable_Build := fun r => Ok r
}.

#[local] Instance builders : Config.ModuleBuilders := {
  Config.PostProcessConfigureFile := fun c => Ok c;
  Config.APIConfig_Build := fun a => Ok a;
  Config.MetricsConfig_Build := fun a => Ok a;
  Config.LogConfig_Build := fun a => a;
  Config.DefaultLogConfig := "default log";
  Config.RouterConfig_Build := fun a => Ok a;
  Config.DNSConfig_Build := fun a => Ok a;
  Config.PolicyConfig_Build := fun a => Ok a;
  Config.ReverseConfig_Build := fun a => Ok a;
  Config.FakeDNSConfig_Build := fun a => Ok a;
  Config.ObservatoryConfig_Build := fun a => Ok a;
  Config.TunConfig_Build := fun a => Ok a
}.

(** An inbound on the given address and ports, protocol [socks]. *)
Definition inbound (tag : string) (listen : option Address)
    (ports : option PortList.t)
    (alloc : option InboundDetourAllocationConfig.t) : InboundDetourConfig.t :=
  {| InboundDetourConfig.Protocol := "socks";
     InboundDetourConfig.PortList := ports;
     InboundDetourConfig.ListenOn := listen;
     InboundDetourConfig.Settings := None;
     InboundDetourConfig.Tag := tag;
     InboundDetourConfig.Allocation := alloc;
     InboundDetourConfig.StreamSetting := None;
     InboundDetourConfig.DomainOverride := None;
     InboundDetourConfig.SniffingConfig := None |}.

Definition ports (from to : Z) : PortList.t :=
  {| PortList.Range := [{| PortRange.From := from; PortRange.To := to |}] |}.

Definition allocate (strategy : string) (concurrency : option Z)
  : InboundDetourAllocationConfig.t :=
  {| InboundDetourAllocationConfig.Strategy := strategy;
     InboundDetourAllocationConfig.Concurrency := concurrency;
     InboundDetourAllocationConfig.RefreshMin := None |}.

(** An outbound of protocol [freedom]. *)
Definition outbound (tag : string) (stream : option StreamConfig.t)
    (proxy : option ProxyConfig.t) : OutboundDetourConfig.t :=
  {| OutboundDetourConfig.Protocol := "freedom";
     OutboundDetourConfig.SendThrough := None;
     OutboundDetourConfig.Tag := tag;
     OutboundDetourConfig.Settings := None;
     OutboundDetourConfig.StreamSetting := stream;
     OutboundDetourConfig.ProxySettings := proxy;
     OutboundDetourConfig.MuxSettings := None |}.

Definition streamWithDialer (dialer : string) : StreamConfig.t :=
  {| StreamConfig.TCPSettings := None; StreamConfig.KCPSettings := None;
     StreamConfig.WSSettings := None; StreamConfig.HTTPSettings := None;
     StreamConfig.DSSettings := None;
     StreamConfig.SocketSettings :=
       Some {| SocketConfig.DialerProxy := dialer; SocketConfig.Other := None |};
     StreamConfig.Other := None |}.

(** A root document with the given inbounds and outbounds only. *)
Definition document (ins : list InboundDetourConfig.t)
    (outs : list OutboundDetourConfig.t) : Config.t :=
  {| Config.Port := 0;
     Config.InboundConfig := None; Config.OutboundConfig := None;
     Config.InboundDetours := None; Config.OutboundDetours := None;
     Config.LogConfig := None; Config.RouterConfig := None;
     Config.DNSConfig := None;
     Config.InboundConfigs := ins; Config.OutboundConfigs := outs;
     Config.Transport := None; Config.Policy := None; Config.API := None;
     Config.Metrics := None; Config.Stats := None; Config.Reverse := None;
     Config.FakeDNS := None; Config.Observatory := None; Config.Tun := None |}.

(** The documents of the examples. *)
Definition socks1080 : InboundDetourConfig.t :=
  inbound "" (Some (IPv4Address [127; 0; 0; 1])) (Some (ports 1080 1080)) None.

Definition http8080 : InboundDetourConfig.t :=
  inbound "" (Some (DomainAddress "localhost")) (Some (ports 8080 8080)) None.

Definition tagged (tag : string) (port : Z) : InboundDetourConfig.t :=
  inbound tag None (Some (ports port port)) None.

Definition chained : OutboundDetourConfig.t :=
  outbound "out" None
    (Some {| ProxyConfig.Tag := "next"; ProxyConfig.TransportLayerProxy := true |}).

Definition conflicting : OutboundDetourConfig.t :=
  outbound "out" (Some (streamWithDialer "dialer"))
    (Some {| ProxyConfig.Tag := "next"; ProxyConfig.TransportLayerProxy := false |}).

Definition withFakeDNSAndLog : Config.t :=
  {| Config.Port := 0;
     Config.InboundConfig := None; Config.OutboundConfig := None;
     Config.InboundDetours := None; Config.OutboundDetours := None;
     Config.LogConfig := Some "log"; Config.RouterConfig := Some "routing";
     Config.DNSConfig := None;
     Config.InboundConfigs := [socks1080];
     Config.OutboundConfigs := [outbound "direct" None None];
     Config.Transport := None; Config.Policy := None; Config.API := Some "api";
     Config.Metrics := None; Config.Stats := Some StatsConfig.mk; Config.Reverse := None;
     Config.FakeDNS := Some "fakeDns"; Config.Observatory := None;
     Config.Tun := Some "tun" |}.

(** The specs of the further examples. *)
Definition sniffing : SniffingConfig.t :=
  {| SniffingConfig.Enabled := true;
     SniffingConfig.DestOverride := Some ["HTTP"; "Ssl"; "quic"];
     SniffingConfig.DomainsExcluded := Some ["Example.COM"];
     SniffingConfig.MetadataOnly := false;
     SniffingConfig.RouteOnly := true |}.

Definition transparent : InboundDetourConfig.t :=
  {| InboundDetourConfig.Protocol := "dokodemo-door";
     InboundDetourConfig.PortList := Some (ports 1000 1002);
     InboundDetourConfig.ListenOn := Some (IPv4Address [127; 0; 0; 1]);
     InboundDetourConfig.Settings := None;
     InboundDetourConfig.Tag := "tproxy";
     InboundDetourConfig.Allocation := Some (allocate "random" (Some 2));
     InboundDetourConfig.StreamSetting := Some (streamWithDialer "");
     InboundDetourConfig.DomainOverride := Some ["http"; "TLS"];
     InboundDetourConfig.SniffingConfig := Some sniffing |}.

Definition socketInbound : InboundDetourConfig.t :=
  inbound "sock" (Some (DomainAddress "@xray")) (Some (ports 1 1)) None.

Definition mux : MuxConfig.t :=
  {| MuxConfig.Enabled := true; MuxConfig.Concurrency := -1;
     MuxConfig.XudpConcurrency := 8; MuxConfig.XudpProxyUDP443 := "" |}.

Definition boundOutbound (bind : Address) : OutboundDetourConfig.t :=
  {| OutboundDetourConfig.Protocol := "freedom";
     OutboundDetourConfig.SendThrough := Some bind;
     OutboundDetourConfig.Tag := "direct";
     OutboundDetourConfig.Settings := Some "{}";
     OutboundDetourConfig.StreamSetting := Some (streamWithDialer "");
     OutboundDetourConfig.ProxySettings :=
       Some {| ProxyConfig.Tag := "next"; ProxyConfig.TransportLayerProxy := false |};
     OutboundDetourConfig.MuxSettings := Some mux |}.

Definition chainedOverStream : OutboundDetourConfig.t :=
  outbound "out" (Some (streamWithDialer ""))
    (Some {| ProxyConfig.Tag := "next"; ProxyConfig.TransportLayerProxy := true |}).

(** A document in the deprecated form: a top-level port, a single
    inbound without ports, a detour, and one inbound in the list. *)
Definition legacyDocument : Config.t :=
  {| Config.Port := 1080;
     Config.InboundConfig := Some (inbound "first" None None None);
     Config.OutboundConfig := Some (outbound "direct" None None);
     Config.InboundDetours := Some [tagged "detour" 2000];
     Config.OutboundDetours := None;
     Config.LogConfig := None; Config.RouterConfig := None;
     Config.DNSConfig := None;
     Config.InboundConfigs := [tagged "modern" 3000];
     Config.OutboundConfigs := [outbound "block" None None];
     Config.Transport := None; Config.Policy := None; Config.API := None;
     Config.Metrics := None; Config.Stats := None; Config.Reverse := None;
     Config.FakeDNS := None; Config.Observatory := None; Config.Tun := None |}.

End demo.

(** * Properties *)

(** ** The Go library functions on examples *)

Example ToLower_mixed_case `{Go.Unicode} :
  Go.ToLower "Conf_TAIL.json" = "conf_tail.json".
Proof. reflexivity. Qed.

(** A name with a byte above 0x7F leaves the ASCII branch: what
    [strings.ToLower] returns for it is what the Unicode tables give. *)
Example ToLower_beyond_ASCII `{Go.Unicode} :
  Go.ToLower "conf_TAİL.json" = Go.MapToLower "conf_TAİL.json"
  /\ String.length "İ" = 2%nat.
Proof. split; reflexivity. Qed.

Example Contains_tail :
  Go.Contains "conf_tail.json" "tail" = true
  /\ Go.Contains "conf.json" "tail" = false
  /\ Go.Contains "" "" = true.
Proof. repeat split; reflexivity. Qed.

Example uint32_wraps : Go.uint32 (3 - 5 + 1) = 2 ^ 32 - 1.
Proof. reflexivity. Qed.

Example int_wraps : Go.int (2 ^ 63) = - 2 ^ 63.
Proof. reflexivity. Qed.

(** ** Results *)

Lemma bind_Ok {A B : Type} (r : result A) (f : A -> result B) (b : B) :
  r ≫= f = Ok b -> exists a, r = Ok a /\ f a = Ok b.
Proof.
  destruct r as [a | e |]; cbn; intros Hb; try discriminate.
  exists a. split; [reflexivity | exact Hb].
Qed.

(** ** The transport overlay *)

Section Overlay.
Context `{Opaque} {U : Go.Unicode}.

(** C9. The overlay of the transport defaults is idempotent and
    non-destructive: applying [applyTransportConfig s t] twice gives what
    applying it once gives; each of the five per-transport blocks of [s]
    that is set is the same after the overlay; each one that is unset is
    taken from [t]; the socket options and the other fields of [s] stay. *)
Theorem applyTransportConfig_idempotent_nondestructive
    (s : StreamConfig.t) (t : TransportConfig.t) :
  applyTransportConfig (applyTransportConfig s t) t = applyTransportConfig s t
  /\ (forall x, StreamConfig.TCPSettings s = Some x ->
        StreamConfig.TCPSettings (applyTransportConfig s t) = Some x)
  /\ (forall x, StreamConfig.KCPSettings s = Some x ->
        StreamConfig.KCPSettings (applyTransportConfig s t) = Some x)
  /\ (forall x, StreamConfig.WSSettings s = Some x ->
        StreamConfig.WSSettings (applyTransportConfig s t) = Some x)
  /\ (forall x, StreamConfig.HTTPSettings s = Some x ->
        StreamConfig.HTTPSettings (applyTransportConfig s t) = Some x)
  /\ (forall x, StreamConfig.DSSettings s = Some x ->
        StreamConfig.DSSettings (applyTransportConfig s t) = Some x)
  /\ (StreamConfig.TCPSettings s = None ->
        StreamConfig.TCPSettings (applyTransportConfig s t) = TransportConfig.TCPConfig t)
  /\ (StreamConfig.KCPSettings s = None ->
        StreamConfig.KCPSettings (applyTransportConfig s t) = TransportConfig.KCPConfig t)
  /\ (StreamConfig.WSSettings s = None ->
        StreamConfig.WSSettings (applyTransportConfig s t) = TransportConfig.WSConfig t)
  /\ (StreamConfig.HTTPSettings s = None ->
        StreamConfig.HTTPSettings (applyTransportConfig s t) = TransportConfig.HTTPConfig t)
  /\ (StreamConfig.DSSettings s = None ->
        StreamConfig.DSSettings (applyTransportConfig s t) = TransportConfig.DSConfig t)
  /\ StreamConfig.SocketSettings (applyTransportConfig s t) = StreamConfig.SocketSettings s
  /\ StreamConfig.Other (applyTransportConfig s t) = StreamConfig.Other s.
Proof.
  destruct s as [tcp kcp ws http ds sock other].
  destruct t as [ttcp tkcp tws thttp tds].
  unfold applyTransportConfig; cbn.
  repeat split; try (intros x Hx; rewrite Hx; reflexivity);
    try (intros Hx; rewrite Hx; reflexivity).
  f_equal.
  - destruct tcp; [reflexivity | destruct ttcp; reflexivity].
  - destruct kcp; [reflexivity | destruct tkcp; reflexivity].
  - destruct ws; [reflexivity | destruct tws; reflexivity].
  - destruct http; [reflexivity | destruct thttp; reflexivity].
  - destruct ds; [reflexivity | destruct tds; reflexivity].
Qed.

End Overlay.

(** ** The outbound compiler *)

Section Outbound.
Context `{Collaborators} {U : Go.Unicode}.

Lemma nonEmpty_true (s : string) : s <> "" -> Go.nonEmpty s = true.
Proof. destruct s; [congruence | reflexivity]. Qed.

(** C3. An outbound whose proxy-chain tag and whose socket-level
    dialer-proxy tag are both non-empty is refused with the conflict
    error: the check comes first, so the sender settings are not built
    ([buildSender] fails with the same error) and [Build] returns it,
    whatever the builders and the loader would answer. *)
Theorem Build_rejects_tag_conflict (c : OutboundDetourConfig.t)
    (ps : ProxyConfig.t) (ss : StreamConfig.t) (sock : SocketConfig.t) :
  OutboundDetourConfig.ProxySettings c = Some ps ->
  OutboundDetourConfig.StreamSetting c = Some ss ->
  StreamConfig.SocketSettings ss = Some sock ->
  ProxyConfig.Tag ps <> "" ->
  SocketConfig.DialerProxy sock <> "" ->
  OutboundDetourConfig.checkChainProxyConfig c = Some ErrDialerProxyConflict
  /\ OutboundDetourConfig.buildSender c = Err ErrDialerProxyConflict
  /\ OutboundDetourConfig.Build c = Err ErrDialerProxyConflict.
Proof.
  intros Hps Hss Hsock Htag Hdialer.
  assert (Hcheck : OutboundDetourConfig.checkChainProxyConfig c
                   = Some ErrDialerProxyConflict).
  { unfold OutboundDetourConfig.checkChainProxyConfig.
    rewrite Hss, Hps, Hsock.
    rewrite (nonEmpty_true _ Htag), (nonEmpty_true _ Hdialer). reflexivity. }
  assert (Hsender : OutboundDetourConfig.buildSender c = Err ErrDialerProxyConflict).
  { unfold OutboundDetourConfig.buildSender. rewrite Hcheck. reflexivity. }
  repeat split; try assumption.
  unfold OutboundDetourConfig.Build. rewrite Hsender. reflexivity.
Qed.

(** The proxy-chain step on a transport-layer proxy: the dialer-proxy tag
    of the sender's socket settings is the built tag, and no proxy
    settings are kept. *)
Lemma buildProxySettings_transport_layer (c : OutboundDetourConfig.t)
    (p : ProxyConfig.t) (ps : internet.ProxyConfig)
    (s0 s1 : proxyman.SenderConfig) :
  OutboundDetourConfig.ProxySettings c = Some p ->
  ProxyConfig_Build p = Ok ps ->
  internet.TransportLayerProxy ps = true ->
  OutboundDetourConfig.buildProxySettings c s0 = Ok s1 ->
  proxyman.ProxySettings s1 = None
  /\ exists ss sk,
       proxyman.SenderStreamSettings s1 = Some ss
       /\ internet.SocketSettings ss = Some sk
       /\ internet.DialerProxy sk = internet.Tag ps.
Proof.
  intros Hp Hbuild Htl Hstep.
  unfold OutboundDetourConfig.buildProxySettings in Hstep.
  rewrite Hp, Hbuild in Hstep. cbn in Hstep. rewrite Htl in Hstep.
  injection Hstep as <-. cbn. split; [reflexivity |].
  destruct (proxyman.SenderStreamSettings s0) as [ss |].
  - destruct (internet.SocketSettings ss) as [sk |]; eexists _, _; cbn; eauto.
  - eexists _, _; cbn; eauto.
Qed.

(** C4. When the proxy-chain settings are present and the built proxy
    settings declare a transport-layer proxy, the sender settings that
    [Build] produces carry socket settings whose dialer-proxy tag is the
    tag of the chain (the stream and socket records exist, created when
    they were absent) and carry no proxy settings. *)
Theorem Build_transport_layer_proxy (c : OutboundDetourConfig.t)
    (p : ProxyConfig.t) (ps : internet.ProxyConfig)
    (out : core.OutboundHandlerConfig) :
  OutboundDetourConfig.ProxySettings c = Some p ->
  ProxyConfig_Build p = Ok ps ->
  internet.TransportLayerProxy ps = true ->
  OutboundDetourConfig.Build c = Ok out ->
  proxyman.ProxySettings (core.SenderSettings out) = None
  /\ exists ss sk,
       proxyman.SenderStreamSettings (core.SenderSettings out) = Some ss
       /\ internet.SocketSettings ss = Some sk
       /\ internet.DialerProxy sk = internet.Tag ps.
Proof.
  intros Hp Hbuild Htl Hout.
  unfold OutboundDetourConfig.Build in Hout.
  apply bind_Ok in Hout as (sender & Hsender & Hout).
  apply bind_Ok in Hout as (raw & _ & Hout).
  apply bind_Ok in Hout as (ts & _ & Hout).
  injection Hout as <-. cbn.
  unfold OutboundDetourConfig.buildSender in Hsender.
  destruct (OutboundDetourConfig.checkChainProxyConfig c); [discriminate |].
  apply bind_Ok in Hsender as (s1 & _ & Hsender).
  apply bind_Ok in Hsender as (s2 & _ & Hsender).
  apply bind_Ok in Hsender as (s3 & Hstep & Hmux).
  destruct (buildProxySettings_transport_layer c p ps s2 s3 Hp Hbuild Htl Hstep)
    as (Hnone & ss & sk & Hss & Hsk & Htag).
  destruct (OutboundDetourConfig.MuxSettings c) as [m |].
  - apply bind_Ok in Hmux as (ms & _ & Hmux). injection Hmux as <-. cbn.
    split; [assumption | eauto].
  - injection Hmux as <-. split; [assumption | eauto].
Qed.

End Outbound.

(** ** The override merge *)

Section Override.
Context `{Opaque} {U : Go.Unicode}.

Lemma replacesFirst_insert {A : Type} (tagOf : A -> string) (base : list A)
    (e b : A) (i : nat) :
  base !! i = Some b ->
  tagOf b = tagOf e ->
  Forall (fun b' => tagOf b' <> tagOf e) (take i base) ->
  replacesFirst tagOf base e (<[i := e]> base).
Proof.
  intros Hi Htag Hbefore. exists i, b.
  repeat split; try assumption.
  - apply length_insert.
  - apply list_lookup_insert_eq. eapply lookup_lt_Some; eassumption.
  - intros j Hj. apply list_lookup_insert_ne. congruence.
Qed.

(** The two search loops return [-1] when no entry has the tag, and
    otherwise the position of the first entry that has it. *)
Lemma findInboundTag_loop_spec (l : list InboundDetourConfig.t) (idx : Z)
    (tag : string) :
  (Forall (fun b => InboundDetourConfig.Tag b <> tag) l
   /\ Config.findInboundTag_loop l idx tag = -1)
  \/ (exists (i : nat) b,
        l !! i = Some b
        /\ InboundDetourConfig.Tag b = tag
        /\ Forall (fun b' => InboundDetourConfig.Tag b' <> tag) (take i l)
        /\ Config.findInboundTag_loop l idx tag = idx + Z.of_nat i).
Proof.
  revert idx. induction l as [| a l IH]; intros idx; cbn.
  - left. split; [constructor | reflexivity].
  - destruct (String.eqb_spec (InboundDetourConfig.Tag a) tag) as [Heq | Hne].
    + right. exists 0%nat, a. cbn. repeat split; [assumption | constructor | lia].
    + destruct (IH (idx + 1)) as [[Hall Hres] | (i & b & Hi & Hb & Hbefore & Hres)].
      * left. split; [constructor; assumption | assumption].
      * right. exists (S i), b. cbn. repeat split; try assumption.
        -- constructor; assumption.
        -- rewrite Hres. lia.
Qed.

Lemma findOutboundTag_loop_spec (l : list OutboundDetourConfig.t) (idx : Z)
    (tag : string) :
  (Forall (fun b => OutboundDetourConfig.Tag b <> tag) l
   /\ Config.findOutboundTag_loop l idx tag = -1)
  \/ (exists (i : nat) b,
        l !! i = Some b
        /\ OutboundDetourConfig.Tag b = tag
        /\ Forall (fun b' => OutboundDetourConfig.Tag b' <> tag) (take i l)
        /\ Config.findOutboundTag_loop l idx tag = idx + Z.of_nat i).
Proof.
  revert idx. induction l as [| a l IH]; intros idx; cbn.
  - left. split; [constructor | reflexivity].
  - destruct (String.eqb_spec (OutboundDetourConfig.Tag a) tag) as [Heq | Hne].
    + right. exists 0%nat, a. cbn. repeat split; [assumption | constructor | lia].
    + destruct (IH (idx + 1)) as [[Hall Hres] | (i & b & Hi & Hb & Hbefore & Hres)].
      * left. split; [constructor; assumption | assumption].
      * right. exists (S i), b. cbn. repeat split; try assumption.
        -- constructor; assumption.
        -- rewrite Hres. lia.
Qed.

(** A first match and a list without a match exclude each other. *)
Lemma Forall_lookup_tag {A : Type} (P : A -> Prop) (l : list A) (i : nat) (b : A) :
  Forall P l -> l !! i = Some b -> P b.
Proof. intros Hall Hi. eapply Forall_lookup_1; eassumption. Qed.

(** The inbound and outbound lists that [Override] leaves are those of
    the two merge steps. *)
Lemma Override_InboundConfigs (c o : Config.t) (fn : string) :
  Config.InboundConfigs (Config.Override c o fn).1 = (Config.overrideInbounds c o fn).1.
Proof.
  unfold Config.Override.
  destruct (Config.overrideInbounds c o fn), (Config.overrideOutbounds c o fn).
  reflexivity.
Qed.

Lemma Override_OutboundConfigs (c o : Config.t) (fn : string) :
  Config.OutboundConfigs (Config.Override c o fn).1 = (Config.overrideOutbounds c o fn).1.
Proof.
  unfold Config.Override.
  destruct (Config.overrideInbounds c o fn), (Config.overrideOutbounds c o fn).
  reflexivity.
Qed.

Lemma nonempty_length_pos {A : Type} (l : list A) :
  l <> [] -> (0 <? length l)%nat = true.
Proof. destruct l; [congruence | reflexivity]. Qed.

(** The merge of a single inbound entry into a non-empty base list. *)
Lemma overrideInbounds_single (c o : Config.t) (fn : string)
    (e : InboundDetourConfig.t) :
  Config.InboundConfigs c <> [] ->
  Config.InboundConfigs o = [e] ->
  (Forall (fun b => InboundDetourConfig.Tag b <> InboundDetourConfig.Tag e)
     (Config.InboundConfigs c)
   /\ (Config.overrideInbounds c o fn).1 = (Config.InboundConfigs c ++ [e])%list)
  \/ replacesFirst InboundDetourConfig.Tag (Config.InboundConfigs c) e
       (Config.overrideInbounds c o fn).1.
Proof.
  intros Hbase Ho. unfold Config.overrideInbounds, Config.findInboundTag.
  rewrite Ho. cbn [length Nat.eqb]. rewrite (nonempty_length_pos _ Hbase). cbn [andb].
  destruct (findInboundTag_loop_spec (Config.InboundConfigs c) 0
              (InboundDetourConfig.Tag e))
    as [[Hall Hres] | (i & b & Hi & Hb & Hbefore & Hres)]; rewrite Hres.
  - left. split; [assumption | reflexivity].
  - right. replace (-1 <? 0 + Z.of_nat i)%Z with true
      by (symmetry; apply Z.ltb_lt; lia).
    replace (Z.to_nat (0 + Z.of_nat i)) with i by lia. cbn [fst].
    eapply replacesFirst_insert; eassumption.
Qed.

(** The merge of a single outbound entry into a non-empty base list. *)
Lemma overrideOutbounds_single (c o : Config.t) (fn : string)
    (e : OutboundDetourConfig.t) :
  Config.OutboundConfigs c <> [] ->
  Config.OutboundConfigs o = [e] ->
  (Forall (fun b => OutboundDetourConfig.Tag b <> OutboundDetourConfig.Tag e)
     (Config.OutboundConfigs c)
   /\ (Config.overrideOutbounds c o fn).1
      = if Go.Contains (Go.ToLower fn) "tail"
        then (Config.OutboundConfigs c ++ [e])%list
        else e :: Config.OutboundConfigs c)
  \/ replacesFirst OutboundDetourConfig.Tag (Config.OutboundConfigs c) e
       (Config.overrideOutbounds c o fn).1.
Proof.
  intros Hbase Ho. unfold Config.overrideOutbounds, Config.findOutboundTag.
  rewrite Ho. cbn [length Nat.eqb]. rewrite (nonempty_length_pos _ Hbase). cbn [andb].
  destruct (findOutboundTag_loop_spec (Config.OutboundConfigs c) 0
              (OutboundDetourConfig.Tag e))
    as [[Hall Hres] | (i & b & Hi & Hb & Hbefore & Hres)]; rewrite Hres.
  - left. split; [assumption |]. cbn.
    destruct (Go.Contains (Go.ToLower fn) "tail"); reflexivity.
  - right. replace (-1 <? 0 + Z.of_nat i)%Z with true
      by (symmetry; apply Z.ltb_lt; lia).
    replace (Z.to_nat (0 + Z.of_nat i)) with i by lia. cbn [fst].
    eapply replacesFirst_insert; eassumption.
Qed.

(** A list in which some entry has the tag is not a list in which none
    has it. *)
Lemma matching_not_Forall {A : Type} (tagOf : A -> string) (l : list A)
    (tag : string) :
  (exists b, b ∈ l /\ tagOf b = tag) ->
  Forall (fun b => tagOf b <> tag) l -> False.
Proof.
  intros (b & Hin & Hb) Hall.
  rewrite Forall_forall in Hall. exact (Hall b Hin Hb).
Qed.

Lemma replacesFirst_not_Forall {A : Type} (tagOf : A -> string) (base : list A)
    (e : A) (merged : list A) :
  replacesFirst tagOf base e merged ->
  Forall (fun b => tagOf b <> tagOf e) base -> False.
Proof.
  intros (i & b & Hi & Hb & _) Hall.
  exact (Forall_lookup_tag _ _ _ _ Hall Hi Hb).
Qed.

(** C5. With a non-empty base list and an override list of exactly one
    entry whose tag is the tag of some base entry, [Override] writes the
    entry over the first base entry of that tag, at its position; the
    length of the list and every other entry, at its position, are
    unchanged. This holds of the inbound list and of the outbound list. *)
Theorem Override_replaces_matching_entry (c o : Config.t) (fn : string) :
  (forall e : InboundDetourConfig.t,
     Config.InboundConfigs c <> [] ->
     Config.InboundConfigs o = [e] ->
     (exists b, b ∈ Config.InboundConfigs c
                /\ InboundDetourConfig.Tag b = InboundDetourConfig.Tag e) ->
     replacesFirst InboundDetourConfig.Tag (Config.InboundConfigs c) e
       (Config.InboundConfigs (Config.Override c o fn).1))
  /\ (forall e : OutboundDetourConfig.t,
       Config.OutboundConfigs c <> [] ->
       Config.OutboundConfigs o = [e] ->
       (exists b, b ∈ Config.OutboundConfigs c
                  /\ OutboundDetourConfig.Tag b = OutboundDetourConfig.Tag e) ->
       replacesFirst OutboundDetourConfig.Tag (Config.OutboundConfigs c) e
         (Config.OutboundConfigs (Config.Override c o fn).1)).
Proof.
  split; intros e Hbase Ho Hmatch.
  - rewrite Override_InboundConfigs.
    destruct (overrideInbounds_single c o fn e Hbase Ho) as [[Hall _] | Hrep].
    + destruct (matching_not_Forall _ _ _ Hmatch Hall).
    + exact Hrep.
  - rewrite Override_OutboundConfigs.
    destruct (overrideOutbounds_single c o fn e Hbase Ho) as [[Hall _] | Hrep].
    + destruct (matching_not_Forall _ _ _ Hmatch Hall).
    + exact Hrep.
Qed.

(** C6. With a non-empty base list and an override list of exactly one
    entry whose tag is the tag of no base entry: the inbound entry is
    appended to the base list; the outbound entry is appended when the
    lower-cased caller identity contains ["tail"], and put in front of
    the base list otherwise. The lower case is the one of
    [strings.ToLower], whatever bytes the identity is made of. The base
    entries stay together, in their order, in all three results. *)
Theorem Override_inserts_unmatched_entry (c o : Config.t) (fn : string) :
  (forall e : InboundDetourConfig.t,
     Config.InboundConfigs c <> [] ->
     Config.InboundConfigs o = [e] ->
     Forall (fun b => InboundDetourConfig.Tag b <> InboundDetourConfig.Tag e)
       (Config.InboundConfigs c) ->
     Config.InboundConfigs (Config.Override c o fn).1
     = (Config.InboundConfigs c ++ [e])%list)
  /\ (forall e : OutboundDetourConfig.t,
       Config.OutboundConfigs c <> [] ->
       Config.OutboundConfigs o = [e] ->
       Forall (fun b => OutboundDetourConfig.Tag b <> OutboundDetourConfig.Tag e)
         (Config.OutboundConfigs c) ->
       Config.OutboundConfigs (Config.Override c o fn).1
       = if Go.Contains (Go.ToLower fn) "tail"
         then (Config.OutboundConfigs c ++ [e])%list
         else e :: Config.OutboundConfigs c).
Proof.
  split; intros e Hbase Ho Hnone.
  - rewrite Override_InboundConfigs.
    destruct (overrideInbounds_single c o fn e Hbase Ho) as [[_ Hres] | Hrep].
    + exact Hres.
    + destruct (replacesFirst_not_Forall _ _ _ _ Hrep Hnone).
  - rewrite Override_OutboundConfigs.
    destruct (overrideOutbounds_single c o fn e Hbase Ho) as [[_ Hres] | Hrep].
    + exact Hres.
    + destruct (replacesFirst_not_Forall _ _ _ _ Hrep Hnone).
Qed.

(** C7, as the code has it. An override whose inbound list is one entry
    with the empty tag is appended to the base list when no base entry
    has the empty tag; when some base entry has the empty tag, the
    search finds it and the first such entry is replaced in place. *)
Theorem Override_empty_tag_entry (c o : Config.t) (fn : string)
    (e : InboundDetourConfig.t) :
  Config.InboundConfigs o = [e] ->
  InboundDetourConfig.Tag e = "" ->
  (Forall (fun b => InboundDetourConfig.Tag b <> "") (Config.InboundConfigs c) ->
   Config.InboundConfigs (Config.Override c o fn).1
   = (Config.InboundConfigs c ++ [e])%list)
  /\ ((exists b, b ∈ Config.InboundConfigs c /\ InboundDetourConfig.Tag b = "") ->
      replacesFirst InboundDetourConfig.Tag (Config.InboundConfigs c) e
        (Config.InboundConfigs (Config.Override c o fn).1)).
Proof.
  intros Ho Htag. rewrite Override_InboundConfigs.
  assert (Hcases : Config.InboundConfigs c = [] \/ Config.InboundConfigs c <> []).
  { destruct (Config.InboundConfigs c); [left; reflexivity | right; discriminate]. }
  destruct Hcases as [Hc | Hbase].
  - split.
    + intros _. unfold Config.overrideInbounds. rewrite Ho, Hc. reflexivity.
    + intros (b & Hin & _). rewrite Hc in Hin. inversion Hin.
  - destruct (overrideInbounds_single c o fn e Hbase Ho) as [[Hall Hres] | Hrep].
    + rewrite Htag in Hall. split; [intros _; exact Hres |].
      intros Hmatch. destruct (matching_not_Forall _ _ _ Hmatch Hall).
    + split; [| intros _; exact Hrep].
      intros Hnone. destruct (replacesFirst_not_Forall _ _ _ _ Hrep).
      rewrite Htag. exact Hnone.
Qed.

End Override.

(** ** The inbound compiler *)

Section Inbound.
Context `{Collaborators} {U : Go.Unicode}.

(** The outcome of the listen step, by the class of the listen address.
    The empty domain name is the one address on which the step does not
    return: the first byte of the name is read before anything else. *)
Lemma buildListen_classes (c : InboundDetourConfig.t) :
  InboundDetourConfig.buildListen c =
  match InboundDetourConfig.ListenOn c, InboundDetourConfig.PortList c with
  | None, None => Err ErrAnyIPNoPort
  | None, Some pl =>
      Ok (proxyman.setPortList (Some pl) proxyman.emptyReceiverConfig)
  | Some (DomainAddress EmptyString), _ => Panic
  | Some a, p =>
      let r := proxyman.setListen (Some a) proxyman.emptyReceiverConfig in
      if isIPOrLocalhost a then
        match p with
        | None => Err ErrSpecificIPNoPort
        | Some pl => Ok (proxyman.setPortList (Some pl) r)
        end
      else if isSocketPath a then Ok r
      else match a with
           | DomainAddress d => Err (ErrListenOnDomain d)
           | _ => Panic
           end
  end.
Proof.
  unfold InboundDetourConfig.buildListen.
  destruct (InboundDetourConfig.ListenOn c) as [[ip | ip | d] |];
    destruct (InboundDetourConfig.PortList c) as [pl |]; cbn; try reflexivity.
  - destruct d as [| b rest]; [reflexivity |]. cbn.
    destruct (Ascii.eqb b "/"); cbn;
      destruct ((String b rest =? "localhost")%string); cbn; try reflexivity;
      destruct (Ascii.eqb b "@"); reflexivity.
  - destruct d as [| b rest]; [reflexivity |]. cbn.
    destruct (Ascii.eqb b "/"); cbn;
      destruct ((String b rest =? "localhost")%string); cbn; try reflexivity;
      destruct (Ascii.eqb b "@"); reflexivity.
Qed.

(** The listen step succeeds exactly on the three admitted combinations,
    for every listen address but the empty domain name. *)
Lemma buildListen_admits (c : InboundDetourConfig.t) :
  InboundDetourConfig.ListenOn c <> Some (DomainAddress "") ->
  isOk (InboundDetourConfig.buildListen c) = true <->
  (InboundDetourConfig.ListenOn c = None
   /\ InboundDetourConfig.PortList c <> None)
  \/ (exists a, InboundDetourConfig.ListenOn c = Some a
                /\ isIPOrLocalhost a = true
                /\ InboundDetourConfig.PortList c <> None)
  \/ (exists a, InboundDetourConfig.ListenOn c = Some a
                /\ isIPOrLocalhost a = false
                /\ isSocketPath a = true).
Proof.
  intros Hne. rewrite buildListen_classes.
  destruct (InboundDetourConfig.ListenOn c) as [[ip | ip | [| b rest]] |];
    destruct (InboundDetourConfig.PortList c) as [pl |];
    try (exfalso; apply Hne; reflexivity); cbn -[String.eqb];
    try destruct ((String b rest =? "localhost")%string) eqn:Hlocal;
    try destruct (Ascii.eqb b "/" || Ascii.eqb b "@") eqn:Hpath;
    cbn -[String.eqb];
    (split;
     [ intros Hok; try discriminate Hok;
       first
         [ left; split; [reflexivity | discriminate]
         | right; left; eexists; split; [reflexivity |]; cbn -[String.eqb]; split;
           [first [reflexivity | exact Hlocal] | discriminate]
         | right; right; eexists; split; [reflexivity |]; cbn -[String.eqb]; split;
           [exact Hlocal | exact Hpath] ]
     | intros [[Hl Hp] | [(a & Ha & Hip & Hp) | (a & Ha & Hip & Hds)]];
       try discriminate Hl; try discriminate Ha;
       try (injection Ha as <-; cbn -[String.eqb] in * );
       try reflexivity; try (exfalso; apply Hp; reflexivity); congruence ]).
Qed.

(** Conversions that keep the value. *)
Lemma int_small (x : Z) : - 2 ^ 63 <= x < 2 ^ 63 -> Go.int x = x.
Proof. intros Hx. unfold Go.int. rewrite Z.mod_small; lia. Qed.

Lemma uint32_small (x : Z) : 0 <= x < 2 ^ 32 -> Go.uint32 x = x.
Proof. intros Hx. unfold Go.uint32. apply Z.mod_small. exact Hx. Qed.

(** On well-formed ranges the loop adds the lengths of the ranges. *)
Lemma portRange_loop_sum (l : list PortRange.t) (acc : Z) :
  Forall (fun pr => 0 <= PortRange.From pr <= PortRange.To pr
                    /\ PortRange.To pr - PortRange.From pr + 1 < 2 ^ 32) l ->
  0 <= acc ->
  acc + capacity {| PortList.Range := l |} < 2 ^ 63 ->
  InboundDetourConfig.portRange_loop l acc
  = acc + capacity {| PortList.Range := l |}.
Proof.
  intros Hwf. revert acc. induction Hwf as [| pr l [Hord Hlen] Hwf IH];
    intros acc Hacc Hfit; cbn in *.
  - lia.
  - assert (Hrest : 0 <= capacity {| PortList.Range := l |}).
    { clear -Hwf. induction Hwf as [| pr l [Hord _] _ IH]; cbn in *; lia. }
    unfold capacity in *; cbn in *.
    rewrite (uint32_small (PortRange.To pr - PortRange.From pr + 1)) by lia.
    rewrite (int_small (PortRange.To pr - PortRange.From pr + 1)) by lia.
    rewrite int_small by lia.
    rewrite IH by lia. lia.
Qed.

Lemma portRange_loop_capacity (p : PortList.t) :
  wellFormedPorts p ->
  InboundDetourConfig.portRange_loop (PortList.Range p) 0 = capacity p.
Proof.
  intros [Hwf Hfit]. destruct p as [l]. cbn [PortList.Range].
  rewrite portRange_loop_sum; [lia | exact Hwf | lia | lia].
Qed.

(** The allocation step when the strategy is written ["random"]: the
    step fails with the insufficient-ports error exactly when the
    concurrency reaches the capacity. *)
Lemma buildAllocation_random (c : InboundDetourConfig.t)
    (rs : proxyman.ReceiverConfig) (a : InboundDetourAllocationConfig.t)
    (p : PortList.t) (C : Z) :
  InboundDetourConfig.Allocation c = Some a ->
  InboundDetourAllocationConfig.Strategy a = "random" ->
  InboundDetourAllocationConfig.Concurrency a = Some C ->
  InboundDetourConfig.PortList c = Some p ->
  0 <= C < 2 ^ 32 ->
  wellFormedPorts p ->
  (capacity p <= C ->
   InboundDetourConfig.buildAllocation c rs
   = Err (ErrNotEnoughPorts C
            (map (fun pr => (PortRange.From pr, PortRange.To pr)) (PortList.Range p))))
  /\ (C < capacity p ->
      InboundDetourConfig.buildAllocation c rs
      = Ok (proxyman.setAllocationStrategy
              (Some {| proxyman.Type_ := proxyman.AllocationStrategy_Random;
                       proxyman.AllocationConcurrency := Some C;
                       proxyman.Refresh := InboundDetourAllocationConfig.RefreshMin a |})
              rs)).
Proof.
  intros Ha Hs HC Hp Hrange Hwf.
  unfold InboundDetourConfig.buildAllocation.
  rewrite Ha, HC, Hs, Hp. rewrite String.eqb_refl.
  rewrite (portRange_loop_capacity p Hwf).
  rewrite (int_small C) by lia.
  split; intros Hcmp.
  - replace (0 <=? C)%Z with true by (symmetry; apply Z.leb_le; lia).
    replace (capacity p <=? C)%Z with true by (symmetry; apply Z.leb_le; lia).
    reflexivity.
  - replace (capacity p <=? C)%Z with false by (symmetry; apply Z.leb_gt; lia).
    rewrite andb_false_r.
    unfold InboundDetourAllocationConfig.Build. rewrite Hs, HC. reflexivity.
Qed.

(** The allocation step when the strategy is not written ["random"]: the
    concurrency is not compared with the capacity, whatever its value, and
    the step hands over to the strategy builder, which reads the name in
    lower case. *)
Lemma buildAllocation_not_random (c : InboundDetourConfig.t)
    (rs : proxyman.ReceiverConfig) (a : InboundDetourAllocationConfig.t)
    (p : PortList.t) :
  InboundDetourConfig.Allocation c = Some a ->
  (InboundDetourAllocationConfig.Strategy a =? "random")%string = false ->
  InboundDetourConfig.PortList c = Some p ->
  InboundDetourConfig.buildAllocation c rs
  = as_ ← InboundDetourAllocationConfig.Build a;
    Ok (proxyman.setAllocationStrategy (Some as_) rs).
Proof.
  intros Ha Hs Hp. unfold InboundDetourConfig.buildAllocation.
  rewrite Ha, Hs, Hp.
  destruct (InboundDetourAllocationConfig.Concurrency a); reflexivity.
Qed.

(** C10. An inbound with an allocation strategy and no port list:
    whenever the listen step admits it, the allocation step reads the
    ranges of the absent port list and [Build] ends in a panic, not in an
    error value; and the listen step admits it exactly when the listen
    address is the path of a domain socket. *)
Theorem Build_panics_on_absent_port_list (c : InboundDetourConfig.t)
    (a : InboundDetourAllocationConfig.t) :
  InboundDetourConfig.Allocation c = Some a ->
  InboundDetourConfig.PortList c = None ->
  (forall rs, InboundDetourConfig.buildListen c = Ok rs ->
     InboundDetourConfig.buildAllocation c rs = Panic
     /\ InboundDetourConfig.Build c = Panic)
  /\ (isOk (InboundDetourConfig.buildListen c) = true <->
      exists l, InboundDetourConfig.ListenOn c = Some l
                /\ isSocketPath l = true /\ isIPOrLocalhost l = false).
Proof.
  intros Ha Hp. split.
  - intros rs Hrs.
    assert (Halloc : InboundDetourConfig.buildAllocation c rs = Panic).
    { unfold InboundDetourConfig.buildAllocation. rewrite Ha, Hp. reflexivity. }
    split; [exact Halloc |].
    unfold InboundDetourConfig.Build. rewrite Hrs. cbn. rewrite Halloc. reflexivity.
  - rewrite buildListen_classes, Hp.
    destruct (InboundDetourConfig.ListenOn c) as [[ip | ip | [| b rest]] |];
      cbn -[String.eqb];
      try destruct ((String b rest =? "localhost")%string) eqn:Hlocal;
      try destruct (Ascii.eqb b "/" || Ascii.eqb b "@") eqn:Hpath;
      cbn -[String.eqb];
      (split;
       [ intros Hok; try discriminate Hok;
         (eexists; split; [reflexivity |]; cbn -[String.eqb]; split; assumption)
       | intros (l & Hl & Hds & Hip); try discriminate Hl;
         (injection Hl as <-; cbn -[String.eqb] in *;
          try reflexivity; congruence) ]).
Qed.

End Inbound.

(** ** The top-level compiler *)

Section TopLevel.
Context `{O : Opaque} {Co : Collaborators} {Mb : Config.ModuleBuilders}
  {U : Go.Unicode}.

(** One guarded [append] adds the module at the end when it is
    configured and adds nothing otherwise. *)
Lemma appendApp_Ok {A : Type} (x : option A) (build : A -> result Message)
    (k : core.AppKind) (app app' : list core.TypedMessage) :
  Config.appendApp x build k app = Ok app' ->
  exists tail, app' = (app ++ tail)%list /\ map core.Kind tail = ifConfigured x k.
Proof.
  unfold Config.appendApp. destruct x as [a |]; intros Happ.
  - apply bind_Ok in Happ as (m & _ & Happ). injection Happ as <-.
    eexists. split; reflexivity.
  - injection Happ as <-. exists []. split; [symmetry; apply app_nil_r | reflexivity].
Qed.

Lemma buildApp_order (c : Config.t) (app : list core.TypedMessage) :
  Config.buildApp c = Ok app ->
  exists pre post,
    app = (pre ++ logMessage c :: post)%list
    /\ map core.Kind pre = ifConfigured (Config.FakeDNS c) core.App_FakeDNS
    /\ map core.Kind post = modulesAfterLog c.
Proof.
  unfold Config.buildApp. intros Happ.
  apply bind_Ok in Happ as (a1 & H1 & Happ). apply appendApp_Ok in H1 as (t1 & -> & K1).
  apply bind_Ok in Happ as (a2 & H2 & Happ). apply appendApp_Ok in H2 as (t2 & -> & K2).
  apply bind_Ok in Happ as (a3 & H3 & Happ).
  assert (K3 : exists t3,
             a3 = ((([Config.ToTypedMessage core.App_dispatcher None;
                      Config.ToTypedMessage core.App_proxyman_Inbound None;
                      Config.ToTypedMessage core.App_proxyman_Outbound None]
                     ++ t1) ++ t2) ++ t3)%list
             /\ map core.Kind t3 = ifConfigured (Config.Stats c) core.App_Stats).
  { destruct (Config.Stats c) as [st |]; cbn in H3; injection H3 as <-.
    - eexists. split; reflexivity.
    - exists []. split; [symmetry; apply app_nil_r | reflexivity]. }
  destruct K3 as (t3 & -> & K3). clear H3.
  apply bind_Ok in Happ as (a4 & H4 & Happ). apply appendApp_Ok in H4 as (t4 & -> & K4).
  apply bind_Ok in Happ as (a5 & H5 & Happ). apply appendApp_Ok in H5 as (t5 & -> & K5).
  apply bind_Ok in Happ as (a6 & H6 & Happ). apply appendApp_Ok in H6 as (t6 & -> & K6).
  apply bind_Ok in Happ as (a7 & H7 & Happ). apply appendApp_Ok in H7 as (t7 & -> & K7).
  apply bind_Ok in Happ as (a8 & H8 & Happ).
  apply bind_Ok in Happ as (a9 & H9 & Happ). apply appendApp_Ok in H9 as (t9 & -> & K9).
  apply appendApp_Ok in Happ as (t10 & -> & K10).
  set (post := ([Config.ToTypedMessage core.App_dispatcher None;
                 Config.ToTypedMessage core.App_proxyman_Inbound None;
                 Config.ToTypedMessage core.App_proxyman_Outbound None]
                ++ t1 ++ t2 ++ t3 ++ t4 ++ t5 ++ t6 ++ t7 ++ t9 ++ t10)%list).
  assert (Kpost : map core.Kind post = modulesAfterLog c).
  { unfold post, modulesAfterLog. rewrite !map_app.
    rewrite K1, K2, K3, K4, K5, K6, K7, K9, K10. reflexivity. }
  destruct (Config.FakeDNS c) as [f |].
  - apply bind_Ok in H8 as (r & _ & H8). injection H8 as <-.
    exists [Config.ToTypedMessage core.App_FakeDNS (Some r)], post.
    split; [| split; [reflexivity | exact Kpost]].
    unfold post, logMessage. cbn. rewrite <- !app_assoc.
    destruct (Config.LogConfig c); reflexivity.
  - injection H8 as <-. exists [], post.
    split; [| split; [reflexivity | exact Kpost]].
    unfold post, logMessage. cbn. rewrite <- !app_assoc.
    destruct (Config.LogConfig c); reflexivity.
Qed.

(** C8. When [Build] succeeds, the [App] list is: the fake-DNS module if
    configured; then the log module, built from the explicit log
    settings or else the default; then dispatcher, inbound manager,
    outbound manager; then API, metrics, stats, router, DNS, policy,
    reverse, observatory and TUN, each if configured, in that order.
    "Configured" is read on the document as the post-processing stage
    leaves it. So only fake-DNS can stand before the log module. *)
Theorem Build_App_order (c : Config.t) (out : core.Config) :
  Config.Build c = Ok out ->
  exists c' pre post,
    Config.PostProcessConfigureFile c = Ok c'
    /\ core.App out = (pre ++ logMessage c' :: post)%list
    /\ map core.Kind pre = ifConfigured (Config.FakeDNS c') core.App_FakeDNS
    /\ map core.Kind post = modulesAfterLog c'
    /\ map core.Kind (core.App out) = moduleOrder c'.
Proof.
  unfold Config.Build. intros Hout.
  apply bind_Ok in Hout as (c' & Hpost & Hout).
  apply bind_Ok in Hout as (app & Happ & Hout).
  apply bind_Ok in Hout as (inbound & _ & Hout).
  apply bind_Ok in Hout as (outbound & _ & Hout).
  injection Hout as <-. cbn [core.App].
  destruct (buildApp_order c' app Happ) as (pre & post & -> & Kpre & Kpost).
  exists c', pre, post. repeat split; try assumption.
  unfold moduleOrder. rewrite map_app. cbn. rewrite Kpre, Kpost. reflexivity.
Qed.

End TopLevel.

(** ** The properties on concrete documents *)

Section Examples.
#[local] Existing Instance demo.unicode.
#[local] Existing Instance demo.opaque.
#[local] Existing Instance demo.collaborators.
#[local] Existing Instance demo.builders.

(** C1. The strategy name ["Random"] with concurrency 5 on the three
    ports 1000-1002: the strategy builder reads the name as [random], yet
    the capacity test compares the name with ["random"] as written and is
    skipped, so [Build] returns a receiver with a random allocation of
    concurrency 5. Written ["random"], the same inbound is refused. *)
Theorem Build_accepts_Random_beyond_capacity :
  Go.ToLower "Random" = "random"
  /\ capacity (demo.ports 1000 1002) = 3
  /\ InboundDetourConfig.Build
       (demo.inbound "in" None (Some (demo.ports 1000 1002))
          (Some (demo.allocate "random" (Some 5))))
     = Err (ErrNotEnoughPorts 5 [(1000, 1002)])
  /\ exists out,
       InboundDetourConfig.Build
         (demo.inbound "in" None (Some (demo.ports 1000 1002))
            (Some (demo.allocate "Random" (Some 5))))
       = Ok out
       /\ proxyman.AllocationStrategy_ (core.ReceiverSettings out)
          = Some {| proxyman.Type_ := proxyman.AllocationStrategy_Random;
                    proxyman.AllocationConcurrency := Some 5;
                    proxyman.Refresh := None |}.
Proof.
  split; [reflexivity |]. split; [reflexivity |]. split; [reflexivity |].
  eexists. split; vm_compute; reflexivity.
Qed.

(** C2. The listen address [""], a domain name that is not [localhost]:
    the first byte of the name is read before the address is classified,
    so the listen step, and [Build] with it, ends in a panic and returns
    no error. *)
Theorem Build_panics_on_empty_listen_domain :
  InboundDetourConfig.buildListen
    (demo.inbound "in" (Some (DomainAddress "")) (Some (demo.ports 1080 1080)) None)
  = Panic
  /\ InboundDetourConfig.Build
       (demo.inbound "in" (Some (DomainAddress "")) (Some (demo.ports 1080 1080)) None)
     = Panic
  /\ InboundDetourConfig.Build
       (demo.inbound "in" (Some (DomainAddress "example.com"))
          (Some (demo.ports 1080 1080)) None)
     = Err (ErrListenOnDomain "example.com").
Proof. repeat split; reflexivity. Qed.

(** An outbound with the chain tag [next] and the dialer-proxy tag
    [dialer] is refused. *)
Lemma Build_rejects_tag_conflict_witness :
  OutboundDetourConfig.checkChainProxyConfig demo.conflicting
  = Some ErrDialerProxyConflict
  /\ OutboundDetourConfig.buildSender demo.conflicting = Err ErrDialerProxyConflict
  /\ OutboundDetourConfig.Build demo.conflicting = Err ErrDialerProxyConflict.
Proof.
  apply (Build_rejects_tag_conflict demo.conflicting
           {| ProxyConfig.Tag := "next"; ProxyConfig.TransportLayerProxy := false |}
           (demo.streamWithDialer "dialer")
           {| SocketConfig.DialerProxy := "dialer"; SocketConfig.Other := None |});
    first [reflexivity | discriminate].
Defined.

(** A transport-layer chain through [next], no stream settings given:
    [Build] succeeds and the socket settings are created. *)
Lemma Build_transport_layer_proxy_witness :
  exists out,
    OutboundDetourConfig.Build demo.chained = Ok out
    /\ proxyman.ProxySettings (core.SenderSettings out) = None
    /\ exists ss sk,
         proxyman.SenderStreamSettings (core.SenderSettings out) = Some ss
         /\ internet.SocketSettings ss = Some sk
         /\ internet.DialerProxy sk = "next".
Proof.
  eexists. split; [vm_compute; reflexivity |].
  apply (Build_transport_layer_proxy demo.chained
           {| ProxyConfig.Tag := "next"; ProxyConfig.TransportLayerProxy := true |}
           {| internet.Tag := "next"; internet.TransportLayerProxy := true |});
    reflexivity.
Defined.

(** Of two base inbounds tagged [b], the first is replaced. *)
Lemma Override_replaces_matching_entry_witness :
  replacesFirst InboundDetourConfig.Tag
    [demo.tagged "a" 1; demo.tagged "b" 2; demo.tagged "b" 3]
    (demo.tagged "b" 9)
    (Config.InboundConfigs
       (Config.Override
          (demo.document [demo.tagged "a" 1; demo.tagged "b" 2; demo.tagged "b" 3] [])
          (demo.document [demo.tagged "b" 9] []) "conf.json").1)
  /\ Config.InboundConfigs
       (Config.Override
          (demo.document [demo.tagged "a" 1; demo.tagged "b" 2; demo.tagged "b" 3] [])
          (demo.document [demo.tagged "b" 9] []) "conf.json").1
     = [demo.tagged "a" 1; demo.tagged "b" 9; demo.tagged "b" 3].
Proof.
  split; [| reflexivity].
  apply (proj1 (Override_replaces_matching_entry
                  (demo.document [demo.tagged "a" 1; demo.tagged "b" 2; demo.tagged "b" 3] [])
                  (demo.document [demo.tagged "b" 9] []) "conf.json")).
  - discriminate.
  - reflexivity.
  - exists (demo.tagged "b" 2). split; [| reflexivity].
    apply list_elem_of_lookup. exists 1%nat. reflexivity.
Defined.

(** An unmatched inbound is appended; an unmatched outbound is appended
    for the caller [conf_TAIL.json] and put in front for [conf.json]. *)
Lemma Override_inserts_unmatched_entry_witness :
  Config.InboundConfigs
    (Config.Override (demo.document [demo.tagged "a" 1] [])
       (demo.document [demo.tagged "c" 9] []) "conf.json").1
  = [demo.tagged "a" 1; demo.tagged "c" 9]
  /\ Config.OutboundConfigs
       (Config.Override (demo.document [] [demo.outbound "a" None None])
          (demo.document [] [demo.outbound "c" None None]) "conf_TAIL.json").1
     = [demo.outbound "a" None None; demo.outbound "c" None None]
  /\ Config.OutboundConfigs
       (Config.Override (demo.document [] [demo.outbound "a" None None])
          (demo.document [] [demo.outbound "c" None None]) "conf.json").1
     = [demo.outbound "c" None None; demo.outbound "a" None None].
Proof.
  split; [| split].
  - apply (proj1 (Override_inserts_unmatched_entry
                    (demo.document [demo.tagged "a" 1] [])
                    (demo.document [demo.tagged "c" 9] []) "conf.json")
             (demo.tagged "c" 9)).
    + discriminate.
    + reflexivity.
    + repeat constructor; discriminate.
  - apply (proj2 (Override_inserts_unmatched_entry
                    (demo.document [] [demo.outbound "a" None None])
                    (demo.document [] [demo.outbound "c" None None]) "conf_TAIL.json")
             (demo.outbound "c" None None)).
    + discriminate.
    + reflexivity.
    + repeat constructor; discriminate.
  - apply (proj2 (Override_inserts_unmatched_entry
                    (demo.document [] [demo.outbound "a" None None])
                    (demo.document [] [demo.outbound "c" None None]) "conf.json")
             (demo.outbound "c" None None)).
    + discriminate.
    + reflexivity.
    + repeat constructor; discriminate.
Defined.

(** C7, as stated, fails: the base list holds one inbound with the empty
    tag, the override list holds one inbound with the empty tag, and the
    merge replaces the base entry; the new entry is not appended. *)
Lemma Override_empty_tag_replaces_base_entry :
  InboundDetourConfig.Tag demo.http8080 = ""
  /\ InboundDetourConfig.Tag demo.socks1080 = ""
  /\ Config.InboundConfigs
       (Config.Override (demo.document [demo.socks1080] [])
          (demo.document [demo.http8080] []) "conf.json").1
     = [demo.http8080]
  /\ Config.InboundConfigs
       (Config.Override (demo.document [demo.socks1080] [])
          (demo.document [demo.http8080] []) "conf.json").1
     <> [demo.socks1080; demo.http8080]
  /\ (Config.Override (demo.document [demo.socks1080] [])
        (demo.document [demo.http8080] []) "conf.json").2
     = [["["; "conf.json"; "] updated inbound with tag: "; ""]].
Proof. repeat split; try reflexivity. discriminate. Qed.

(** An empty-tagged override entry: appended to a base list without an
    empty tag, written over the empty-tagged base entry otherwise. *)
Lemma Override_empty_tag_entry_witness :
  Config.InboundConfigs
    (Config.Override (demo.document [demo.tagged "a" 1] [])
       (demo.document [demo.http8080] []) "conf.json").1
  = [demo.tagged "a" 1; demo.http8080]
  /\ replacesFirst InboundDetourConfig.Tag [demo.tagged "a" 1; demo.socks1080]
       demo.http8080
       (Config.InboundConfigs
          (Config.Override (demo.document [demo.tagged "a" 1; demo.socks1080] [])
             (demo.document [demo.http8080] []) "conf.json").1).
Proof.
  split.
  - apply (proj1 (Override_empty_tag_entry (demo.document [demo.tagged "a" 1] [])
                    (demo.document [demo.http8080] []) "conf.json" demo.http8080
                    eq_refl eq_refl)).
    repeat constructor; discriminate.
  - apply (proj2 (Override_empty_tag_entry
                    (demo.document [demo.tagged "a" 1; demo.socks1080] [])
                    (demo.document [demo.http8080] []) "conf.json" demo.http8080
                    eq_refl eq_refl)).
    exists demo.socks1080. split; [| reflexivity].
    apply list_elem_of_lookup. exists 1%nat. reflexivity.
Defined.

(** A document with fake-DNS, log, API, stats, routing and TUN settings:
    fake-DNS comes first and the log module second. *)
Lemma Build_App_order_witness :
  exists out,
    Config.Build demo.withFakeDNSAndLog = Ok out
    /\ map core.Kind (core.App out)
       = [core.App_FakeDNS; core.App_Log; core.App_dispatcher;
          core.App_proxyman_Inbound; core.App_proxyman_Outbound;
          core.App_API; core.App_Stats; core.App_Router; core.App_Tun]
    /\ exists c' pre post,
         Config.PostProcessConfigureFile demo.withFakeDNSAndLog = Ok c'
         /\ core.App out = (pre ++ logMessage c' :: post)%list
         /\ map core.Kind pre = ifConfigured (Config.FakeDNS c') core.App_FakeDNS
         /\ map core.Kind post = modulesAfterLog c'
         /\ map core.Kind (core.App out) = moduleOrder c'.
Proof.
  eexists. split; [vm_compute; reflexivity |]. split; [reflexivity |].
  apply (Build_App_order demo.withFakeDNSAndLog). reflexivity.
Defined.

(** The overlay of TCP and WebSocket defaults, applied twice. *)
Lemma applyTransportConfig_idempotent_nondestructive_witness :
  applyTransportConfig
    (applyTransportConfig (demo.streamWithDialer "d")
       {| TransportConfig.TCPConfig := Some "tcp"; TransportConfig.KCPConfig := None;
          TransportConfig.WSConfig := Some "ws"; TransportConfig.HTTPConfig := None;
          TransportConfig.DSConfig := None |})
    {| TransportConfig.TCPConfig := Some "tcp"; TransportConfig.KCPConfig := None;
       TransportConfig.WSConfig := Some "ws"; TransportConfig.HTTPConfig := None;
       TransportConfig.DSConfig := None |}
  = applyTransportConfig (demo.streamWithDialer "d")
      {| TransportConfig.TCPConfig := Some "tcp"; TransportConfig.KCPConfig := None;
         TransportConfig.WSConfig := Some "ws"; TransportConfig.HTTPConfig := None;
         TransportConfig.DSConfig := None |}.
Proof.
  exact (proj1 (applyTransportConfig_idempotent_nondestructive
                  (demo.streamWithDialer "d")
                  {| TransportConfig.TCPConfig := Some "tcp";
                     TransportConfig.KCPConfig := None;
                     TransportConfig.WSConfig := Some "ws";
                     TransportConfig.HTTPConfig := None;
                     TransportConfig.DSConfig := None |})).
Defined.

(** A listener on the socket [/run/xray.sock] with an allocation
    strategy and no port list. *)
Lemma Build_panics_on_absent_port_list_witness :
  InboundDetourConfig.buildListen
    (demo.inbound "in" (Some (DomainAddress "/run/xray.sock")) None
       (Some (demo.allocate "always" None)))
  = Ok (proxyman.setListen (Some (DomainAddress "/run/xray.sock"))
          proxyman.emptyReceiverConfig)
  /\ InboundDetourConfig.Build
       (demo.inbound "in" (Some (DomainAddress "/run/xray.sock")) None
          (Some (demo.allocate "always" None)))
     = Panic.
Proof.
  split; [reflexivity |].
  apply (proj1 (Build_panics_on_absent_port_list
                  (demo.inbound "in" (Some (DomainAddress "/run/xray.sock")) None
                     (Some (demo.allocate "always" None)))
                  (demo.allocate "always" None) eq_refl eq_refl)
           (proxyman.setListen (Some (DomainAddress "/run/xray.sock"))
              proxyman.emptyReceiverConfig)).
  reflexivity.
Defined.

End Examples.


(** * Further properties of the builders *)

Section Primitives.
Context {U : Go.Unicode}.

(** ** Lower case *)

Lemma ToLower_ASCII (s : string) :
  Go.isASCII s = true -> Go.ToLower s = Go.lowerASCII s.
Proof.
  intros Hs. unfold Go.ToLower. rewrite Hs. reflexivity.
Qed.

Lemma lowerByte_ASCII (c : ascii) :
  (nat_of_ascii c <? 128)%nat = true ->
  (nat_of_ascii (Go.lowerByte c) <? 128)%nat = true.
Proof.
  destruct c as [[] [] [] [] [] [] [] []]; cbn; intros Hc;
    solve [reflexivity | discriminate Hc].
Qed.

Lemma lowerASCII_ASCII (s : string) :
  Go.isASCII s = true -> Go.isASCII (Go.lowerASCII s) = true.
Proof.
  induction s as [| c s IH]; cbn [Go.isASCII Go.lowerASCII]; [reflexivity |].
  intros Hs. apply andb_true_iff in Hs as [Hc Hs].
  rewrite (lowerByte_ASCII c Hc), (IH Hs). reflexivity.
Qed.

Lemma lowerByte_idempotent (c : ascii) : Go.lowerByte (Go.lowerByte c) = Go.lowerByte c.
Proof.
  destruct c as [[] [] [] [] [] [] [] []]; reflexivity.
Qed.

Lemma lowerASCII_idempotent (s : string) :
  Go.lowerASCII (Go.lowerASCII s) = Go.lowerASCII s.
Proof.
  induction s as [| c s IH]; cbn; [reflexivity |].
  rewrite lowerByte_idempotent, IH. reflexivity.
Qed.

(** On a string of ASCII bytes [strings.ToLower] is idempotent, and its
    result is again a string of ASCII bytes. *)
Lemma ToLower_idempotent (s : string) :
  Go.isASCII s = true ->
  Go.isASCII (Go.ToLower s) = true
  /\ Go.ToLower (Go.ToLower s) = Go.ToLower s.
Proof.
  intros Hs. rewrite (ToLower_ASCII s Hs).
  pose proof (lowerASCII_ASCII s Hs) as Hl.
  split; [exact Hl |].
  rewrite (ToLower_ASCII _ Hl). apply lowerASCII_idempotent.
Qed.

(** ** The domain-override protocol list *)

Lemma toProtocolList_loop_Ok (s : list string)
    (kp0 kp : list proxyman.KnownProtocols) :
  toProtocolList_loop s kp0 = Ok kp <->
  exists ks, kp = (kp0 ++ ks)%list /\ Forall2 protocolFor s ks.
Proof.
  revert kp0. induction s as [| p s IH]; intros kp0; cbn.
  - split.
    + intros Hk. injection Hk as <-. exists []. split; [| constructor].
      symmetry. apply app_nil_r.
    + intros (ks & -> & Hall). inversion Hall. rewrite app_nil_r. reflexivity.
  - destruct ((Go.ToLower p =? "http")%string) eqn:Hhttp.
    + rewrite IH. split.
      * intros (ks & -> & Hall). exists (proxyman.KnownProtocols_HTTP :: ks).
        rewrite <- app_assoc. split; [reflexivity |].
        constructor; [exact Hhttp | exact Hall].
      * intros (ks & -> & Hall). inversion Hall as [| p' k s' ks' Hk Hrest]; subst.
        exists ks'. rewrite <- app_assoc. split; [| exact Hrest].
        destruct k; [reflexivity |].
        unfold protocolFor, namesTLS in Hk. cbn in Hk.
        apply String.eqb_eq in Hhttp. rewrite Hhttp in Hk. discriminate.
    + destruct ((Go.ToLower p =? "https")%string || (Go.ToLower p =? "tls")%string
                || (Go.ToLower p =? "ssl")%string) eqn:Htls.
      * rewrite IH. split.
        -- intros (ks & -> & Hall). exists (proxyman.KnownProtocols_TLS :: ks).
           rewrite <- app_assoc. split; [reflexivity |].
           constructor; [| exact Hall].
           unfold protocolFor, namesTLS. cbn. rewrite orb_false_r.
           rewrite orb_assoc. exact Htls.
        -- intros (ks & -> & Hall). inversion Hall as [| p' k s' ks' Hk Hrest]; subst.
           exists ks'. rewrite <- app_assoc. split; [| exact Hrest].
           destruct k; [| reflexivity].
           unfold protocolFor, namesHTTP in Hk. congruence.
      * split; [discriminate |].
        intros (ks & _ & Hall). inversion Hall as [| p' k s' ks' Hk Hrest]; subst.
        destruct k.
        -- unfold protocolFor, namesHTTP in Hk. congruence.
        -- unfold protocolFor, namesTLS in Hk. cbn in Hk.
           rewrite orb_false_r, orb_assoc in Hk. congruence.
Qed.

(** X1. [toProtocolList] succeeds exactly when every name, read in lower
    case, is [http] or one of [https], [tls], [ssl]; the list it returns
    has one protocol per name, in the order of the names: HTTP for
    [http], TLS for the three others. *)
Theorem toProtocolList_Ok_iff (s : list string) (kp : list proxyman.KnownProtocols) :
  toProtocolList s = Ok kp <-> Forall2 protocolFor s kp.
Proof.
  unfold toProtocolList. rewrite toProtocolList_loop_Ok. split.
  - intros (ks & -> & Hall). exact Hall.
  - intros Hall. exists kp. split; [reflexivity | exact Hall].
Qed.

Lemma toProtocolList_loop_known (pre : list string) (rest : list string)
    (kp0 : list proxyman.KnownProtocols) :
  Forall (fun p => namesHTTP p || namesTLS p = true) pre ->
  exists ks, length ks = length pre
             /\ toProtocolList_loop (pre ++ rest) kp0
                = toProtocolList_loop rest (kp0 ++ ks)%list.
Proof.
  intros Hpre. revert kp0. induction Hpre as [| p pre Hp Hpre IH]; intros kp0.
  - exists []. rewrite app_nil_r. split; reflexivity.
  - cbn. unfold namesHTTP, namesTLS in Hp. cbn in Hp.
    rewrite orb_false_r in Hp.
    destruct ((Go.ToLower p =? "http")%string).
    + destruct (IH (kp0 ++ [proxyman.KnownProtocols_HTTP])%list) as (ks & Hlen & Heq).
      exists (proxyman.KnownProtocols_HTTP :: ks). cbn. rewrite Hlen, Heq.
      rewrite <- app_assoc. split; reflexivity.
    + cbn in Hp. rewrite <- orb_assoc, Hp.
      destruct (IH (kp0 ++ [proxyman.KnownProtocols_TLS])%list) as (ks & Hlen & Heq).
      exists (proxyman.KnownProtocols_TLS :: ks). cbn. rewrite Hlen, Heq.
      rewrite <- app_assoc. split; reflexivity.
Qed.

(** X2. [toProtocolList] stops at the first name it does not know and
    returns the error that carries this name as it is written, whatever
    follows it in the list. *)
Theorem toProtocolList_first_unknown (pre : list string) (p : string)
    (post : list string) :
  Forall (fun q => namesHTTP q || namesTLS q = true) pre ->
  namesHTTP p = false ->
  namesTLS p = false ->
  toProtocolList (pre ++ p :: post) = Err (ErrUnknownProtocol p).
Proof.
  intros Hpre Hhttp Htls. unfold toProtocolList.
  destruct (toProtocolList_loop_known pre (p :: post) [] Hpre) as (ks & _ & ->).
  cbn. unfold namesHTTP in Hhttp. rewrite Hhttp.
  unfold namesTLS in Htls. cbn in Htls. rewrite orb_false_r in Htls.
  rewrite <- orb_assoc, Htls. reflexivity.
Qed.

(** ** The sniffing settings *)

(** One turn of the loop over the destination override entries. *)
Lemma destOverride_loop_step (x : string) (rest p : list string) :
  SniffingConfig.destOverride_loop (x :: rest) p
  = match sniffingKeyword x with
    | Some k => SniffingConfig.destOverride_loop rest (p ++ [k])%list
    | None => Err (ErrSniffingUnknownProtocol x)
    end.
Proof.
  cbn [SniffingConfig.destOverride_loop]. unfold sniffingKeyword. cbn [existsb].
  destruct ((Go.ToLower x =? "http")%string); [reflexivity |].
  destruct ((Go.ToLower x =? "tls")%string), ((Go.ToLower x =? "https")%string),
    ((Go.ToLower x =? "ssl")%string); cbn [orb]; try reflexivity;
    destruct ((Go.ToLower x =? "quic")%string) eqn:Hq,
      ((Go.ToLower x =? "fakedns")%string) eqn:Hf,
      ((Go.ToLower x =? "fakedns+others")%string) eqn:Ho; cbn [orb];
    try reflexivity;
    try (apply String.eqb_eq in Hq; rewrite Hq; reflexivity);
    try (apply String.eqb_eq in Hf; rewrite Hf; reflexivity);
    try (apply String.eqb_eq in Ho; rewrite Ho; reflexivity).
Qed.

Lemma destOverride_loop_Ok (l p0 p : list string) :
  SniffingConfig.destOverride_loop l p0 = Ok p <->
  exists ks, p = (p0 ++ ks)%list
             /\ Forall2 (fun x k => sniffingKeyword x = Some k) l ks.
Proof.
  revert p0. induction l as [| x l IH]; intros p0.
  - cbn. split.
    + intros Hp. injection Hp as <-. exists []. split; [| constructor].
      symmetry. apply app_nil_r.
    + intros (ks & -> & Hall). inversion Hall. rewrite app_nil_r. reflexivity.
  - rewrite destOverride_loop_step. destruct (sniffingKeyword x) as [k |] eqn:Hk.
    + rewrite IH. split.
      * intros (ks & -> & Hall). exists (k :: ks). rewrite <- app_assoc.
        split; [reflexivity | constructor; [exact Hk | exact Hall]].
      * intros (ks & Hp & Hall).
        inversion Hall as [| x' k' l' ks' Hk' Hrest Hx Hks].
        rewrite Hk in Hk'. injection Hk' as Hkk.
        exists ks'. split; [| exact Hrest].
        rewrite Hp, <- Hks, <- Hkk, <- app_assoc. reflexivity.
    + split; [discriminate |].
      intros (ks & _ & Hall). inversion Hall; congruence.
Qed.

Lemma sniffingKeyword_in_vocabulary (x k : string) :
  sniffingKeyword x = Some k -> k ∈ sniffingKeywords.
Proof.
  unfold sniffingKeyword, sniffingKeywords. cbn [existsb].
  destruct ((Go.ToLower x =? "http")%string).
  { intros Hk. injection Hk as <-. repeat constructor. }
  destruct ((Go.ToLower x =? "tls")%string || ((Go.ToLower x =? "https")%string
            || ((Go.ToLower x =? "ssl")%string || false))).
  { intros Hk. injection Hk as <-. repeat constructor. }
  destruct ((Go.ToLower x =? "quic")%string) eqn:Hq.
  { apply String.eqb_eq in Hq. cbn. intros Hk. injection Hk as <-. rewrite Hq. repeat constructor. }
  destruct ((Go.ToLower x =? "fakedns")%string) eqn:Hf.
  { apply String.eqb_eq in Hf. cbn. intros Hk. injection Hk as <-. rewrite Hf. repeat constructor. }
  destruct ((Go.ToLower x =? "fakedns+others")%string) eqn:Ho.
  { apply String.eqb_eq in Ho. cbn. intros Hk. injection Hk as <-. rewrite Ho. repeat constructor. }
  cbn. discriminate.
Qed.

Lemma sniffingKeyword_fixed (k : string) :
  k ∈ sniffingKeywords -> sniffingKeyword k = Some k.
Proof.
  unfold sniffingKeywords. intros Hk.
  repeat (apply elem_of_cons in Hk as [-> | Hk]; [reflexivity |]).
  inversion Hk.
Qed.

(** X3. When the sniffing builder succeeds, the destination override
    list it returns has one keyword per entry, in order, each the keyword
    of its entry as [strings.ToLower] reads it and each one of the five
    keywords of the vocabulary; the excluded domains are the given ones
    passed through [strings.ToLower], in order; the three flags are the
    given ones. An absent list and an empty list both give the empty
    list. *)
Theorem SniffingConfig_Build_normalizes (c : SniffingConfig.t)
    (out : proxyman.SniffingConfig) :
  SniffingConfig.Build c = Ok out ->
  Forall2 (fun x k => sniffingKeyword x = Some k)
    (default [] (SniffingConfig.DestOverride c)) (proxyman.DestinationOverride out)
  /\ Forall (fun k => k ∈ sniffingKeywords) (proxyman.DestinationOverride out)
  /\ proxyman.DomainsExcluded out
     = map Go.ToLower (default [] (SniffingConfig.DomainsExcluded c))
  /\ proxyman.Enabled out = SniffingConfig.Enabled c
  /\ proxyman.MetadataOnly out = SniffingConfig.MetadataOnly c
  /\ proxyman.RouteOnly out = SniffingConfig.RouteOnly c.
Proof.
  unfold SniffingConfig.Build. intros Hout.
  apply bind_Ok in Hout as (p & Hp & Hout). injection Hout as <-. cbn.
  assert (Hall : Forall2 (fun x k => sniffingKeyword x = Some k)
                   (default [] (SniffingConfig.DestOverride c)) p).
  { destruct (SniffingConfig.DestOverride c) as [l |]; cbn.
    - apply destOverride_loop_Ok in Hp as (ks & -> & Hall). exact Hall.
    - injection Hp as <-. constructor. }
  split; [exact Hall |]. split.
  { clear Hp. induction Hall as [| x k l ks Hk _ IH]; constructor.
    - eapply sniffingKeyword_in_vocabulary; eassumption.
    - exact IH. }
  split; [| repeat split].
  destruct (SniffingConfig.DomainsExcluded c); reflexivity.
Qed.

(** X4. When the excluded domains are written in ASCII bytes, what the
    sniffing builder returns is a normal form: built again from its own
    lists and flags, it is returned unchanged. The destination override
    entries may be any strings that the builder accepts. *)
Theorem SniffingConfig_Build_fixed_point (c : SniffingConfig.t)
    (out : proxyman.SniffingConfig) :
  Forall (fun d => Go.isASCII d = true)
    (default [] (SniffingConfig.DomainsExcluded c)) ->
  SniffingConfig.Build c = Ok out ->
  SniffingConfig.Build
    {| SniffingConfig.Enabled := proxyman.Enabled out;
       SniffingConfig.DestOverride := Some (proxyman.DestinationOverride out);
       SniffingConfig.DomainsExcluded := Some (proxyman.DomainsExcluded out);
       SniffingConfig.MetadataOnly := proxyman.MetadataOnly out;
       SniffingConfig.RouteOnly := proxyman.RouteOnly out |}
  = Ok out.
Proof.
  unfold SniffingConfig.Build at 1. intros Hascii Hout.
  apply bind_Ok in Hout as (p & Hp & Hout). injection Hout as <-.
  assert (Hvoc : Forall (fun k => k ∈ sniffingKeywords) p).
  { destruct (SniffingConfig.DestOverride c) as [l |].
    - apply destOverride_loop_Ok in Hp as (ks & -> & Hall). cbn.
      induction Hall as [| x k l' ks' Hk _ IH]; constructor.
      + eapply sniffingKeyword_in_vocabulary; eassumption.
      + exact IH.
    - injection Hp as <-. constructor. }
  unfold SniffingConfig.Build. cbn.
  assert (Hloop : SniffingConfig.destOverride_loop p [] = Ok p).
  { apply destOverride_loop_Ok. exists p. split; [reflexivity |].
    clear Hp. induction Hvoc as [| k p Hk _ IH]; constructor.
    - apply sniffingKeyword_fixed. exact Hk.
    - exact IH. }
  rewrite Hloop. cbn. do 2 f_equal.
  destruct (SniffingConfig.DomainsExcluded c) as [l |]; [| reflexivity].
  cbn in Hascii. induction Hascii as [| d l Hd _ IH]; cbn; [reflexivity |].
  rewrite (proj2 (ToLower_idempotent d Hd)). f_equal. exact IH.
Qed.

Lemma destOverride_loop_outcome (l p0 : list string) :
  match SniffingConfig.destOverride_loop l p0 with
  | Ok _ => Forall (fun x => is_Some (sniffingKeyword x)) l
  | Err e =>
      exists pre x post,
        l = (pre ++ x :: post)%list
        /\ Forall (fun y => is_Some (sniffingKeyword y)) pre
        /\ sniffingKeyword x = None
        /\ e = ErrSniffingUnknownProtocol x
  | Panic => False
  end.
Proof.
  revert p0. induction l as [| x l IH]; intros p0.
  - cbn. constructor.
  - rewrite destOverride_loop_step. destruct (sniffingKeyword x) as [k |] eqn:Hk.
    + specialize (IH (p0 ++ [k])%list).
      destruct (SniffingConfig.destOverride_loop l (p0 ++ [k])%list) as [p | e |].
      * constructor; [rewrite Hk; eexists; reflexivity | exact IH].
      * destruct IH as (pre & y & post & -> & Hpre & Hy & ->).
        exists (x :: pre), y, post. repeat split; try assumption.
        constructor; [rewrite Hk; eexists; reflexivity | exact Hpre].
      * exact IH.
    + exists [], x, l. repeat split; [constructor | exact Hk].
Qed.

(** X5. The sniffing builder never panics, and it fails for one reason
    only: a destination override entry outside the vocabulary. The error
    carries the first such entry as it is written; the excluded domains
    and the flags are never a cause of failure. *)
Theorem SniffingConfig_Build_outcome (c : SniffingConfig.t) :
  match SniffingConfig.Build c with
  | Ok _ =>
      Forall (fun x => is_Some (sniffingKeyword x))
        (default [] (SniffingConfig.DestOverride c))
  | Err e =>
      exists pre x post,
        SniffingConfig.DestOverride c = Some (pre ++ x :: post)%list
        /\ Forall (fun y => is_Some (sniffingKeyword y)) pre
        /\ sniffingKeyword x = None
        /\ e = ErrSniffingUnknownProtocol x
  | Panic => False
  end.
Proof.
  unfold SniffingConfig.Build.
  destruct (SniffingConfig.DestOverride c) as [l |]; cbn; [| constructor].
  pose proof (destOverride_loop_outcome l []) as Hloop.
  destruct (SniffingConfig.destOverride_loop l []) as [p | e |]; cbn.
  - exact Hloop.
  - destruct Hloop as (pre & x & post & -> & Hpre & Hx & ->).
    exists pre, x, post. repeat split; assumption.
  - exact Hloop.
Qed.

(** ** The multiplexing settings and the allocation strategy *)

(** X6. The multiplexing builder never panics. It succeeds exactly on
    the empty policy and on [reject], [allow], [skip], compared as
    written; the policy it returns is always one of these three, [reject]
    standing for the empty one; the enabled flag and the two
    concurrencies are handed over as they are, a negative one included.
    On any other policy the error carries the policy. *)
Theorem MuxConfig_Build_outcome (m : MuxConfig.t) :
  match MuxConfig.Build m with
  | Ok out =>
      (MuxConfig.XudpProxyUDP443 m = ""
       \/ (MuxConfig.XudpProxyUDP443 m ∈ xudpPolicies))
      /\ proxyman.XudpProxyUDP443 out ∈ xudpPolicies
      /\ (MuxConfig.XudpProxyUDP443 m = "" -> proxyman.XudpProxyUDP443 out = "reject")
      /\ (MuxConfig.XudpProxyUDP443 m <> "" ->
          proxyman.XudpProxyUDP443 out = MuxConfig.XudpProxyUDP443 m)
      /\ proxyman.MuxEnabled out = MuxConfig.Enabled m
      /\ proxyman.Concurrency out = MuxConfig.Concurrency m
      /\ proxyman.XudpConcurrency out = MuxConfig.XudpConcurrency m
  | Err e =>
      MuxConfig.XudpProxyUDP443 m <> ""
      /\ (MuxConfig.XudpProxyUDP443 m ∉ xudpPolicies)
      /\ e = ErrUnknownXudpProxyUDP443 (MuxConfig.XudpProxyUDP443 m)
  | Panic => False
  end.
Proof.
  destruct m as [en conc xconc pol].
  unfold MuxConfig.Build, xudpPolicies. cbn [MuxConfig.XudpProxyUDP443
    MuxConfig.Enabled MuxConfig.Concurrency MuxConfig.XudpConcurrency].
  destruct (String.eqb_spec pol "") as [-> | He].
  { cbn. repeat split; try congruence; try solve [repeat constructor]. }
  destruct (String.eqb_spec pol "reject") as [-> | Hr];
    [cbn; repeat split; try congruence;
     try solve [repeat constructor]; solve [right; repeat constructor] |].
  destruct (String.eqb_spec pol "allow") as [-> | Ha];
    [cbn; repeat split; try congruence;
     try solve [repeat constructor]; solve [right; repeat constructor] |].
  destruct (String.eqb_spec pol "skip") as [-> | Hs];
    [cbn; repeat split; try congruence;
     try solve [repeat constructor]; solve [right; repeat constructor] |].
  cbn. repeat split; [exact He |].
  intros Hin.
  repeat (apply elem_of_cons in Hin as [Hin | Hin]; [congruence |]).
  inversion Hin.
Qed.

(** X7. The allocation builder reads the strategy name without regard to
    case: two settings whose names agree in lower case, with the same
    concurrency and refresh, give the same strategy whenever one of them
    is accepted. The concurrency and the refresh are handed over as
    given, whatever the strategy. *)
Theorem Allocation_Build_case_insensitive (a b : InboundDetourAllocationConfig.t)
    (out : proxyman.AllocationStrategy) :
  Go.ToLower (InboundDetourAllocationConfig.Strategy a)
  = Go.ToLower (InboundDetourAllocationConfig.Strategy b) ->
  InboundDetourAllocationConfig.Concurrency a
  = InboundDetourAllocationConfig.Concurrency b ->
  InboundDetourAllocationConfig.RefreshMin a
  = InboundDetourAllocationConfig.RefreshMin b ->
  InboundDetourAllocationConfig.Build a = Ok out ->
  InboundDetourAllocationConfig.Build b = Ok out
  /\ strategyOf (InboundDetourAllocationConfig.Strategy a) = Some (proxyman.Type_ out)
  /\ proxyman.AllocationConcurrency out = InboundDetourAllocationConfig.Concurrency a
  /\ proxyman.Refresh out = InboundDetourAllocationConfig.RefreshMin a.
Proof.
  unfold InboundDetourAllocationConfig.Build, strategyOf.
  intros Hname Hc Hr Hout.
  apply bind_Ok in Hout as (ty & Hty & Hout). injection Hout as <-.
  rewrite <- Hname, <- Hc, <- Hr. cbn [proxyman.Type_
    proxyman.AllocationConcurrency proxyman.Refresh].
  destruct ((Go.ToLower (InboundDetourAllocationConfig.Strategy a) =? "always")%string);
    [injection Hty as <-; repeat split |].
  destruct ((Go.ToLower (InboundDetourAllocationConfig.Strategy a) =? "random")%string);
    [injection Hty as <-; repeat split |].
  destruct ((Go.ToLower (InboundDetourAllocationConfig.Strategy a) =? "external")%string);
    [injection Hty as <-; repeat split | discriminate].
Qed.

(** X8. An unknown strategy name is refused with the error that carries
    the name as it is written, and nothing else makes the allocation
    builder fail. *)
Theorem Allocation_Build_unknown (a : InboundDetourAllocationConfig.t) :
  match InboundDetourAllocationConfig.Build a with
  | Ok _ => is_Some (strategyOf (InboundDetourAllocationConfig.Strategy a))
  | Err e =>
      strategyOf (InboundDetourAllocationConfig.Strategy a) = None
      /\ e = ErrUnknownAllocationStrategy (InboundDetourAllocationConfig.Strategy a)
  | Panic => False
  end.
Proof.
  unfold InboundDetourAllocationConfig.Build, strategyOf.
  destruct ((Go.ToLower (InboundDetourAllocationConfig.Strategy a) =? "always")%string);
    [cbn; eexists; reflexivity |].
  destruct ((Go.ToLower (InboundDetourAllocationConfig.Strategy a) =? "random")%string);
    [cbn; eexists; reflexivity |].
  destruct ((Go.ToLower (InboundDetourAllocationConfig.Strategy a) =? "external")%string);
    [cbn; eexists; reflexivity |].
  cbn. split; reflexivity.
Qed.

End Primitives.

(** ** The receiver that the inbound compiler assembles *)

Lemma wrap_Ok {A : Type} (ctx : string) (r : result A) (a : A) :
  wrap ctx r = Ok a -> r = Ok a.
Proof. destruct r; cbn; intros Hw; congruence. Qed.

Section InboundOutput.
Context `{Collaborators} {U : Go.Unicode}.

(** What the listen step writes. *)
Lemma buildListen_output (c : InboundDetourConfig.t) (rs : proxyman.ReceiverConfig) :
  InboundDetourConfig.buildListen c = Ok rs ->
  rs = proxyman.setPortList
         match InboundDetourConfig.ListenOn c with
         | Some a => if isIPOrLocalhost a then InboundDetourConfig.PortList c else None
         | None => InboundDetourConfig.PortList c
         end
         (proxyman.setListen (InboundDetourConfig.ListenOn c)
            proxyman.emptyReceiverConfig).
Proof.
  rewrite buildListen_classes.
  destruct (InboundDetourConfig.ListenOn c) as [[ip | ip | [| b rest]] |];
    destruct (InboundDetourConfig.PortList c) as [pl |];
    cbn -[String.eqb];
    try destruct ((String b rest =? "localhost")%string);
    try destruct (Ascii.eqb b "/" || Ascii.eqb b "@");
    cbn -[String.eqb]; intros Hrs; try discriminate Hrs;
    injection Hrs as <-; reflexivity.
Qed.

(** What the allocation step writes and what it keeps. *)
Lemma buildAllocation_output (c : InboundDetourConfig.t)
    (rs rs' : proxyman.ReceiverConfig) :
  InboundDetourConfig.buildAllocation c rs = Ok rs' ->
  match InboundDetourConfig.Allocation c with
  | None => rs' = rs
  | Some a =>
      InboundDetourConfig.PortList c <> None
      /\ exists s, InboundDetourAllocationConfig.Build a = Ok s
                   /\ rs' = proxyman.setAllocationStrategy (Some s) rs
  end.
Proof.
  unfold InboundDetourConfig.buildAllocation.
  destruct (InboundDetourConfig.Allocation c) as [a |].
  - destruct (InboundDetourConfig.PortList c) as [pl |]; [| discriminate].
    destruct (_ && _); [discriminate |].
    intros Hrs. apply bind_Ok in Hrs as (s & Hs & Hrs). injection Hrs as <-.
    split; [discriminate | eauto].
  - intros Hrs. injection Hrs as <-. reflexivity.
Qed.

(** What the last step writes and what it keeps. *)
Lemma buildSettings_output (c : InboundDetourConfig.t)
    (rs : proxyman.ReceiverConfig) (out : core.InboundHandlerConfig) :
  InboundDetourConfig.buildSettings c rs = Ok out ->
  exists stream sniffing override raw,
    match InboundDetourConfig.StreamSetting c with
    | Some s => exists ss, StreamConfig_Build s = Ok ss /\ stream = Some ss
    | None => stream = proxyman.StreamSettings rs
    end
    /\ match InboundDetourConfig.SniffingConfig c with
       | Some sc => exists s, SniffingConfig.Build sc = Ok s /\ sniffing = Some s
       | None => sniffing = proxyman.SniffingSettings rs
       end
    /\ match InboundDetourConfig.DomainOverride c with
       | Some l => toProtocolList l = Ok override
       | None => override = proxyman.DomainOverride rs
       end
    /\ inboundConfigLoader_LoadWithID
         (default "{}" (InboundDetourConfig.Settings c))
         (InboundDetourConfig.Protocol c) = Ok raw
    /\ Buildable_Build raw = Ok (core.InboundProxySettings out)
    /\ core.InboundTag out = InboundDetourConfig.Tag c
    /\ core.ReceiverSettings out
       = {| proxyman.PortList := proxyman.PortList rs;
            proxyman.Listen := proxyman.Listen rs;
            proxyman.AllocationStrategy_ := proxyman.AllocationStrategy_ rs;
            proxyman.StreamSettings := stream;
            proxyman.ReceiveOriginalDestination :=
              default (proxyman.ReceiveOriginalDestination rs) (asDokodemoConfig raw);
            proxyman.DomainOverride := override;
            proxyman.SniffingSettings := sniffing |}.
Proof.
  unfold InboundDetourConfig.buildSettings. intros Hout.
  apply bind_Ok in Hout as (r1 & H1 & Hout).
  apply bind_Ok in Hout as (r2 & H2 & Hout).
  apply bind_Ok in Hout as (r3 & H3 & Hout).
  apply bind_Ok in Hout as (raw & Hraw & Hout).
  apply bind_Ok in Hout as (ts & Hts & Hout).
  injection Hout as <-. cbn [core.InboundTag core.ReceiverSettings
    core.InboundProxySettings].
  apply wrap_Ok in Hraw.
  exists (proxyman.StreamSettings r1), (proxyman.SniffingSettings r2),
    (proxyman.DomainOverride r3), raw.
  assert (E1 : match InboundDetourConfig.StreamSetting c with
               | Some s => exists ss, StreamConfig_Build s = Ok ss
                                      /\ r1 = proxyman.setStreamSettings (Some ss) rs
               | None => r1 = rs
               end).
  { destruct (InboundDetourConfig.StreamSetting c) as [s |].
    - apply bind_Ok in H1 as (ss & Hss & H1). injection H1 as <-. eauto.
    - injection H1 as <-. reflexivity. }
  assert (E2 : match InboundDetourConfig.SniffingConfig c with
               | Some sc => exists s, SniffingConfig.Build sc = Ok s
                                      /\ r2 = proxyman.setSniffingSettings (Some s) r1
               | None => r2 = r1
               end).
  { destruct (InboundDetourConfig.SniffingConfig c) as [sc |].
    - apply bind_Ok in H2 as (s & Hs & H2). apply wrap_Ok in Hs.
      injection H2 as <-. eauto.
    - injection H2 as <-. reflexivity. }
  assert (E3 : match InboundDetourConfig.DomainOverride c with
               | Some l => exists kp, toProtocolList l = Ok kp
                                      /\ r3 = proxyman.setDomainOverride kp r2
               | None => r3 = r2
               end).
  { destruct (InboundDetourConfig.DomainOverride c) as [l |].
    - apply bind_Ok in H3 as (kp & Hkp & H3). apply wrap_Ok in Hkp.
      injection H3 as <-. eauto.
    - injection H3 as <-. reflexivity. }
  clear H1 H2 H3.
  destruct (InboundDetourConfig.StreamSetting c) as [s |];
    [destruct E1 as (ss & Hss & ->) | subst r1];
    (destruct (InboundDetourConfig.SniffingConfig c) as [sc |];
     [destruct E2 as (sn & Hsn & ->) | subst r2]);
    (destruct (InboundDetourConfig.DomainOverride c) as [l |];
     [destruct E3 as (kp & Hkp & ->) | subst r3]);
    cbn; repeat split; eauto;
    destruct (asDokodemoConfig raw); destruct rs; reflexivity.
Qed.

(** [Build] succeeds through its three steps. *)
Lemma Build_steps (c : InboundDetourConfig.t) (out : core.InboundHandlerConfig) :
  InboundDetourConfig.Build c = Ok out ->
  exists rs0 rs1,
    InboundDetourConfig.buildListen c = Ok rs0
    /\ InboundDetourConfig.buildAllocation c rs0 = Ok rs1
    /\ InboundDetourConfig.buildSettings c rs1 = Ok out.
Proof.
  unfold InboundDetourConfig.Build. intros Hout.
  apply bind_Ok in Hout as (rs0 & H0' & Hout).
  apply bind_Ok in Hout as (rs1 & H1 & Hout). eauto.
Qed.

(** The listen address and the ports of a compiled inbound. *)
Lemma Build_listen_ports (c : InboundDetourConfig.t) (out : core.InboundHandlerConfig) :
  InboundDetourConfig.Build c = Ok out ->
  proxyman.Listen (core.ReceiverSettings out) = InboundDetourConfig.ListenOn c
  /\ proxyman.PortList (core.ReceiverSettings out)
     = match InboundDetourConfig.ListenOn c with
       | Some a => if isIPOrLocalhost a then InboundDetourConfig.PortList c else None
       | None => InboundDetourConfig.PortList c
       end.
Proof.
  intros Hout. destruct (Build_steps c out Hout) as (rs0 & rs1 & H0' & H1 & H2).
  apply buildListen_output in H0'. apply buildAllocation_output in H1.
  apply buildSettings_output in H2
    as (stream & sniffing & override & raw & _ & _ & _ & _ & _ & _ & ->).
  cbn. destruct (InboundDetourConfig.Allocation c) as [a |].
  - destruct H1 as (_ & s & _ & ->). subst rs0. split; reflexivity.
  - subst rs1 rs0. split; reflexivity.
Qed.

(** X10. A compiled inbound carries the tag and the listen address of
    its spec. Its port list is the one of the spec, built, when there is
    no listen address or the address is an IP or [localhost]; it is
    absent in every other case, and then the listen address is the path
    of a domain socket: no compiled inbound binds an address without
    ports unless it binds a socket. *)
Theorem Build_receiver_address (c : InboundDetourConfig.t)
    (out : core.InboundHandlerConfig) :
  InboundDetourConfig.Build c = Ok out ->
  core.InboundTag out = InboundDetourConfig.Tag c
  /\ proxyman.Listen (core.ReceiverSettings out) = InboundDetourConfig.ListenOn c
  /\ proxyman.PortList (core.ReceiverSettings out)
     = match InboundDetourConfig.ListenOn c with
       | Some a => if isIPOrLocalhost a then InboundDetourConfig.PortList c else None
       | None => InboundDetourConfig.PortList c
       end
  /\ (proxyman.PortList (core.ReceiverSettings out) = None ->
      exists a, InboundDetourConfig.ListenOn c = Some a
                /\ isIPOrLocalhost a = false /\ isSocketPath a = true).
Proof.
  intros Hout. destruct (Build_listen_ports c out Hout) as (Hlisten & Hports).
  destruct (Build_steps c out Hout) as (rs0 & rs1 & H0' & _ & H2).
  apply buildSettings_output in H2
    as (stream & sniffing & override & raw & _ & _ & _ & _ & _ & Htag & _).
  repeat split; try assumption.
  rewrite Hports. clear Hports Hlisten Htag.
  rewrite buildListen_classes in H0'.
  destruct (InboundDetourConfig.ListenOn c) as [[ip | ip | [| b rest]] |];
    destruct (InboundDetourConfig.PortList c) as [pl |];
    cbn -[String.eqb] in *; try discriminate H0';
    try destruct ((String b rest =? "localhost")%string) eqn:Hlocal;
    try destruct (Ascii.eqb b "/" || Ascii.eqb b "@") eqn:Hpath;
    cbn -[String.eqb] in *; try discriminate H0';
    intros Hnone; try discriminate Hnone;
    (eexists; split; [reflexivity |]; cbn -[String.eqb]; split; assumption).
Qed.

(** X11. With the strategy written [random], a concurrency [C] and a
    well-formed port list of capacity [N]: an inbound that the listen
    step admits is refused with the insufficient-ports error, which
    carries [C] and the ranges, when [C >= N]; and every inbound that
    [Build] compiles has [C < N] and a random allocation of concurrency
    [C]. The test is made on the port list of the spec, also when the
    listener is a domain socket and the port list is left out of the
    receiver. *)
Theorem Build_random_capacity (c : InboundDetourConfig.t)
    (a : InboundDetourAllocationConfig.t) (p : PortList.t) (C : Z) :
  InboundDetourConfig.Allocation c = Some a ->
  InboundDetourAllocationConfig.Strategy a = "random" ->
  InboundDetourAllocationConfig.Concurrency a = Some C ->
  InboundDetourConfig.PortList c = Some p ->
  0 <= C < 2 ^ 32 ->
  wellFormedPorts p ->
  (capacity p <= C ->
   isOk (InboundDetourConfig.buildListen c) = true ->
   InboundDetourConfig.Build c
   = Err (ErrNotEnoughPorts C
            (map (fun pr => (PortRange.From pr, PortRange.To pr)) (PortList.Range p))))
  /\ (forall out, InboundDetourConfig.Build c = Ok out ->
      C < capacity p
      /\ proxyman.AllocationStrategy_ (core.ReceiverSettings out)
         = Some {| proxyman.Type_ := proxyman.AllocationStrategy_Random;
                   proxyman.AllocationConcurrency := Some C;
                   proxyman.Refresh := InboundDetourAllocationConfig.RefreshMin a |}).
Proof.
  intros Ha Hs HC Hp Hrange Hwf. split.
  - intros Hcap Hlisten. unfold InboundDetourConfig.Build.
    destruct (InboundDetourConfig.buildListen c) as [rs | e |]; try discriminate.
    cbn.
    rewrite (proj1 (buildAllocation_random c rs a p C Ha Hs HC Hp Hrange Hwf) Hcap).
    reflexivity.
  - intros out Hout.
    destruct (Build_steps c out Hout) as (rs0 & rs1 & _ & H1 & H2).
    destruct (buildAllocation_random c rs0 a p C Ha Hs HC Hp Hrange Hwf) as [Hfail Hpass].
    assert (Hlt : C < capacity p).
    { destruct (Z_lt_le_dec C (capacity p)) as [Hlt | Hge]; [exact Hlt |].
      rewrite (Hfail Hge) in H1. discriminate. }
    split; [exact Hlt |].
    rewrite (Hpass Hlt) in H1. injection H1 as <-.
    apply buildSettings_output in H2
      as (stream & sniffing & override & raw & _ & _ & _ & _ & _ & _ & ->).
    reflexivity.
Qed.

(** X12. The protocol settings of a compiled inbound are those that the
    inbound loader returns for the protocol of the spec and its raw
    settings, the empty object [{}] standing for absent settings, built
    by their own [Build]; and the receiver takes its
    receive-original-destination flag from the redirect flag of
    dokodemo-door settings, and has it unset for any other protocol. *)
Theorem Build_protocol_settings (c : InboundDetourConfig.t)
    (out : core.InboundHandlerConfig) :
  InboundDetourConfig.Build c = Ok out ->
  exists raw,
    inboundConfigLoader_LoadWithID
      (default "{}" (InboundDetourConfig.Settings c))
      (InboundDetourConfig.Protocol c) = Ok raw
    /\ Buildable_Build raw = Ok (core.InboundProxySettings out)
    /\ proxyman.ReceiveOriginalDestination (core.ReceiverSettings out)
       = default false (asDokodemoConfig raw).
Proof.
  intros Hout. destruct (Build_steps c out Hout) as (rs0 & rs1 & H0' & H1 & H2).
  apply buildListen_output in H0'. apply buildAllocation_output in H1.
  apply buildSettings_output in H2
    as (stream & sniffing & override & raw & _ & _ & _ & Hraw & Hts & _ & ->).
  exists raw. split; [exact Hraw |]. split; [exact Hts |]. cbn.
  destruct (InboundDetourConfig.Allocation c) as [a |].
  - destruct H1 as (_ & s & _ & ->). subst rs0. reflexivity.
  - subst rs1 rs0. reflexivity.
Qed.

(** X13. Each optional part of the receiver of a compiled inbound is
    present exactly when the spec has it, and is then what the builder
    of that part returns: the allocation strategy, the stream settings,
    the sniffing settings and the domain-override protocols (none when
    the list is absent). *)
Theorem Build_receiver_parts (c : InboundDetourConfig.t)
    (out : core.InboundHandlerConfig) :
  InboundDetourConfig.Build c = Ok out ->
  match InboundDetourConfig.Allocation c with
  | Some a =>
      exists s, InboundDetourAllocationConfig.Build a = Ok s
                /\ proxyman.AllocationStrategy_ (core.ReceiverSettings out) = Some s
  | None => proxyman.AllocationStrategy_ (core.ReceiverSettings out) = None
  end
  /\ match InboundDetourConfig.StreamSetting c with
     | Some s =>
         exists ss, StreamConfig_Build s = Ok ss
                    /\ proxyman.StreamSettings (core.ReceiverSettings out) = Some ss
     | None => proxyman.StreamSettings (core.ReceiverSettings out) = None
     end
  /\ match InboundDetourConfig.SniffingConfig c with
     | Some sc =>
         exists s, SniffingConfig.Build sc = Ok s
                   /\ proxyman.SniffingSettings (core.ReceiverSettings out) = Some s
     | None => proxyman.SniffingSettings (core.ReceiverSettings out) = None
     end
  /\ match InboundDetourConfig.DomainOverride c with
     | Some l =>
         toProtocolList l = Ok (proxyman.DomainOverride (core.ReceiverSettings out))
     | None => proxyman.DomainOverride (core.ReceiverSettings out) = []
     end.
Proof.
  intros Hout. destruct (Build_steps c out Hout) as (rs0 & rs1 & H0' & H1 & H2).
  apply buildListen_output in H0'. apply buildAllocation_output in H1.
  apply buildSettings_output in H2
    as (stream & sniffing & override & raw & Hst & Hsn & Hov & _ & _ & _ & ->).
  cbn.
  assert (Hrs1 : proxyman.StreamSettings rs1 = None
                 /\ proxyman.SniffingSettings rs1 = None
                 /\ proxyman.DomainOverride rs1 = []
                 /\ match InboundDetourConfig.Allocation c with
                    | Some a =>
                        exists s, InboundDetourAllocationConfig.Build a = Ok s
                                  /\ proxyman.AllocationStrategy_ rs1 = Some s
                    | None => proxyman.AllocationStrategy_ rs1 = None
                    end).
  { destruct (InboundDetourConfig.Allocation c) as [a |].
    - destruct H1 as (_ & s & Hs & ->). subst rs0. cbn. eauto 6.
    - subst rs1 rs0. cbn. auto. }
  destruct Hrs1 as (Hs1 & Hn1 & Ho1 & Ha1).
  rewrite Hs1 in Hst. rewrite Hn1 in Hsn. rewrite Ho1 in Hov.
  repeat split; assumption.
Qed.

End InboundOutput.

(** ** The sender that the outbound compiler assembles *)

Section OutboundOutput.
Context `{Collaborators} {U : Go.Unicode}.

(** The steps of [buildSender] on a spec it accepts. *)
Lemma buildSender_steps (c : OutboundDetourConfig.t) (s : proxyman.SenderConfig) :
  OutboundDetourConfig.buildSender c = Ok s ->
  exists (built : option internet.StreamConfig) (s3 : proxyman.SenderConfig),
    OutboundDetourConfig.checkChainProxyConfig c = None
    /\ (forall a, OutboundDetourConfig.SendThrough c = Some a ->
          IsDomain (Family a) = false)
    /\ match OutboundDetourConfig.StreamSetting c with
       | Some st => exists b, StreamConfig_Build st = Ok b /\ built = Some b
       | None => built = None
       end
    /\ OutboundDetourConfig.buildProxySettings c
         (proxyman.setSenderStreamSettings built
            (proxyman.setVia (OutboundDetourConfig.SendThrough c)
               proxyman.emptySenderConfig)) = Ok s3
    /\ match OutboundDetourConfig.MuxSettings c with
       | Some m =>
           exists ms, MuxConfig.Build m = Ok ms
                      /\ s = proxyman.setMultiplexSettings (Some ms) s3
       | None => s = s3
       end.
Proof.
  unfold OutboundDetourConfig.buildSender. intros Hs.
  destruct (OutboundDetourConfig.checkChainProxyConfig c); [discriminate |].
  apply bind_Ok in Hs as (s1 & H1 & Hs).
  apply bind_Ok in Hs as (s2 & H2 & Hs).
  apply bind_Ok in Hs as (s3 & H3 & Hs).
  assert (E1 : s1 = proxyman.setVia (OutboundDetourConfig.SendThrough c)
                      proxyman.emptySenderConfig
               /\ forall a, OutboundDetourConfig.SendThrough c = Some a ->
                            IsDomain (Family a) = false).
  { destruct (OutboundDetourConfig.SendThrough c) as [a |].
    - destruct (IsDomain (Family a)) eqn:Hdom; [discriminate |].
      injection H1 as <-. split; [reflexivity |].
      intros a' Ha'. injection Ha' as <-. exact Hdom.
    - injection H1 as <-. split; [reflexivity | discriminate]. }
  destruct E1 as (-> & Hvia).
  assert (E2 : exists built,
             match OutboundDetourConfig.StreamSetting c with
             | Some st => exists b, StreamConfig_Build st = Ok b /\ built = Some b
             | None => built = None
             end
             /\ s2 = proxyman.setSenderStreamSettings built
                       (proxyman.setVia (OutboundDetourConfig.SendThrough c)
                          proxyman.emptySenderConfig)).
  { destruct (OutboundDetourConfig.StreamSetting c) as [st |].
    - apply bind_Ok in H2 as (b & Hb & H2). injection H2 as <-.
      exists (Some b). split; [eauto | reflexivity].
    - injection H2 as <-. exists None. split; reflexivity. }
  destruct E2 as (built & Hbuilt & ->).
  exists built, s3. repeat split; try assumption.
  destruct (OutboundDetourConfig.MuxSettings c) as [m |].
  - apply bind_Ok in Hs as (ms & Hms & Hs). apply wrap_Ok in Hms.
    injection Hs as <-. eauto.
  - injection Hs as <-. reflexivity.
Qed.

(** [Build] succeeds through [buildSender], the loader and the settings'
    own [Build]. *)
Lemma Outbound_Build_steps (c : OutboundDetourConfig.t)
    (out : core.OutboundHandlerConfig) :
  OutboundDetourConfig.Build c = Ok out ->
  exists raw,
    OutboundDetourConfig.buildSender c = Ok (core.SenderSettings out)
    /\ outboundConfigLoader_LoadWithID
         (default "{}" (OutboundDetourConfig.Settings c))
         (OutboundDetourConfig.Protocol c) = Ok raw
    /\ Buildable_Build raw = Ok (core.OutboundProxySettings out)
    /\ core.OutboundTag out = OutboundDetourConfig.Tag c.
Proof.
  unfold OutboundDetourConfig.Build. intros Hout.
  apply bind_Ok in Hout as (s & Hs & Hout).
  apply bind_Ok in Hout as (raw & Hraw & Hout). apply wrap_Ok in Hraw.
  apply bind_Ok in Hout as (ts & Hts & Hout).
  injection Hout as <-. cbn. exists raw. repeat split; assumption.
Qed.

(** The proxy-chain step changes neither the bind address nor the
    multiplexing settings. *)
Lemma buildProxySettings_frame (c : OutboundDetourConfig.t)
    (s0 s1 : proxyman.SenderConfig) :
  OutboundDetourConfig.buildProxySettings c s0 = Ok s1 ->
  proxyman.Via s1 = proxyman.Via s0
  /\ proxyman.MultiplexSettings s1 = proxyman.MultiplexSettings s0.
Proof.
  unfold OutboundDetourConfig.buildProxySettings.
  destruct (OutboundDetourConfig.ProxySettings c) as [p |].
  - intros Hs. apply bind_Ok in Hs as (ps & _ & Hs).
    destruct (internet.TransportLayerProxy ps); injection Hs as <-; split; reflexivity.
  - intros Hs. injection Hs as <-. split; reflexivity.
Qed.

(** X14. A bind address that is a domain name is refused: an outbound
    that passes the chain-proxy check and whose [sendThrough] address is
    a domain fails with the error that carries the address, before its
    stream settings are built or its protocol settings are loaded. *)
Theorem Build_rejects_domain_bind (c : OutboundDetourConfig.t) (d : string) :
  OutboundDetourConfig.checkChainProxyConfig c = None ->
  OutboundDetourConfig.SendThrough c = Some (DomainAddress d) ->
  OutboundDetourConfig.buildSender c = Err (ErrSendThrough (DomainAddress d))
  /\ OutboundDetourConfig.Build c = Err (ErrSendThrough (DomainAddress d)).
Proof.
  intros Hcheck Hvia.
  assert (Hs : OutboundDetourConfig.buildSender c
               = Err (ErrSendThrough (DomainAddress d))).
  { unfold OutboundDetourConfig.buildSender. rewrite Hcheck, Hvia. reflexivity. }
  split; [exact Hs |].
  unfold OutboundDetourConfig.Build. rewrite Hs. reflexivity.
Qed.

(** X15. A compiled outbound carries the tag of its spec; its bind
    address is the [sendThrough] address of the spec, which is then an
    IP address; its multiplexing settings are present exactly when the
    spec has them and are what the multiplexing builder returns; its
    protocol settings are those that the outbound loader returns for the
    protocol and the raw settings of the spec, [{}] standing for absent
    settings, built by their own [Build]. *)
Theorem Build_sender_output (c : OutboundDetourConfig.t)
    (out : core.OutboundHandlerConfig) :
  OutboundDetourConfig.Build c = Ok out ->
  core.OutboundTag out = OutboundDetourConfig.Tag c
  /\ proxyman.Via (core.SenderSettings out) = OutboundDetourConfig.SendThrough c
  /\ (forall a, OutboundDetourConfig.SendThrough c = Some a -> IsIP (Family a) = true)
  /\ match OutboundDetourConfig.MuxSettings c with
     | Some m =>
         exists ms, MuxConfig.Build m = Ok ms
                    /\ proxyman.MultiplexSettings (core.SenderSettings out) = Some ms
     | None => proxyman.MultiplexSettings (core.SenderSettings out) = None
     end
  /\ exists raw,
       outboundConfigLoader_LoadWithID
         (default "{}" (OutboundDetourConfig.Settings c))
         (OutboundDetourConfig.Protocol c) = Ok raw
       /\ Buildable_Build raw = Ok (core.OutboundProxySettings out).
Proof.
  intros Hout.
  destruct (Outbound_Build_steps c out Hout) as (raw & Hs & Hraw & Hts & Htag).
  destruct (buildSender_steps c _ Hs) as (built & s3 & _ & Hvia & _ & H3 & Hmux).
  apply buildProxySettings_frame in H3 as (Hv3 & Hm3). cbn in Hv3, Hm3.
  split; [exact Htag |]. split.
  { destruct (OutboundDetourConfig.MuxSettings c) as [m |].
    - destruct Hmux as (ms & _ & ->). exact Hv3.
    - rewrite Hmux. exact Hv3. }
  split.
  { intros a Ha. specialize (Hvia a Ha). destruct (Family a); [reflexivity .. | discriminate]. }
  split; [| eauto].
  destruct (OutboundDetourConfig.MuxSettings c) as [m |].
  - destruct Hmux as (ms & Hms & ->). eauto.
  - rewrite Hmux. exact Hm3.
Qed.

(** X16. Without a transport-layer chain the stream settings are left
    alone: when the spec has no proxy-chain settings, or has some whose
    built form is not a transport-layer proxy, the sender of a compiled
    outbound carries the built proxy settings (none in the first case)
    and exactly the stream settings that the stream builder returns, none
    when the spec has none. *)
Theorem Build_chain_proxy_kept (c : OutboundDetourConfig.t)
    (out : core.OutboundHandlerConfig) :
  OutboundDetourConfig.Build c = Ok out ->
  match OutboundDetourConfig.ProxySettings c with
  | None =>
      proxyman.ProxySettings (core.SenderSettings out) = None
      /\ match OutboundDetourConfig.StreamSetting c with
         | Some st =>
             exists b, StreamConfig_Build st = Ok b
                       /\ proxyman.SenderStreamSettings (core.SenderSettings out) = Some b
         | None => proxyman.SenderStreamSettings (core.SenderSettings out) = None
         end
  | Some p =>
      exists ps,
        ProxyConfig_Build p = Ok ps
        /\ (internet.TransportLayerProxy ps = false ->
            proxyman.ProxySettings (core.SenderSettings out) = Some ps
            /\ match OutboundDetourConfig.StreamSetting c with
               | Some st =>
                   exists b, StreamConfig_Build st = Ok b
                             /\ proxyman.SenderStreamSettings (core.SenderSettings out)
                                = Some b
               | None => proxyman.SenderStreamSettings (core.SenderSettings out) = None
               end)
  end.
Proof.
  intros Hout.
  destruct (Outbound_Build_steps c out Hout) as (raw & Hs & _).
  destruct (buildSender_steps c _ Hs) as (built & s3 & _ & _ & Hbuilt & H3 & Hmux).
  assert (Hout3 : proxyman.ProxySettings (core.SenderSettings out)
                  = proxyman.ProxySettings s3
                  /\ proxyman.SenderStreamSettings (core.SenderSettings out)
                     = proxyman.SenderStreamSettings s3).
  { destruct (OutboundDetourConfig.MuxSettings c) as [m |].
    - destruct Hmux as (ms & _ & ->). split; reflexivity.
    - rewrite Hmux. split; reflexivity. }
  destruct Hout3 as (-> & ->). clear Hmux Hs.
  unfold OutboundDetourConfig.buildProxySettings in H3.
  destruct (OutboundDetourConfig.ProxySettings c) as [p |].
  - apply bind_Ok in H3 as (ps & Hps & H3). apply wrap_Ok in Hps.
    exists ps. split; [exact Hps |]. intros Htl. rewrite Htl in H3.
    injection H3 as <-. cbn. split; [reflexivity |].
    destruct (OutboundDetourConfig.StreamSetting c) as [st |].
    + destruct Hbuilt as (b & Hb & ->). eauto.
    + exact Hbuilt.
  - injection H3 as <-. cbn. split; [reflexivity |].
    destruct (OutboundDetourConfig.StreamSetting c) as [st |].
    + destruct Hbuilt as (b & Hb & ->). eauto.
    + exact Hbuilt.
Qed.

(** X17. With a transport-layer chain only the dialer-proxy tag is
    rewritten: the stream settings and the socket settings of the sender
    keep every other field that the stream builder returned, and hold
    nothing else when the builder returned no stream settings or no
    socket settings. *)
Theorem Build_transport_layer_frame (c : OutboundDetourConfig.t)
    (p : ProxyConfig.t) (ps : internet.ProxyConfig)
    (out : core.OutboundHandlerConfig) :
  OutboundDetourConfig.ProxySettings c = Some p ->
  ProxyConfig_Build p = Ok ps ->
  internet.TransportLayerProxy ps = true ->
  OutboundDetourConfig.Build c = Ok out ->
  exists ss sk,
    proxyman.SenderStreamSettings (core.SenderSettings out) = Some ss
    /\ internet.SocketSettings ss = Some sk
    /\ match OutboundDetourConfig.StreamSetting c with
       | Some st =>
           exists b, StreamConfig_Build st = Ok b
                     /\ internet.StreamOther ss = internet.StreamOther b
                     /\ internet.SocketOther sk
                        = match internet.SocketSettings b with
                          | Some k => internet.SocketOther k
                          | None => None
                          end
       | None => internet.StreamOther ss = None /\ internet.SocketOther sk = None
       end.
Proof.
  intros Hp Hps Htl Hout.
  destruct (Outbound_Build_steps c out Hout) as (raw & Hs & _).
  destruct (buildSender_steps c _ Hs) as (built & s3 & _ & _ & Hbuilt & H3 & Hmux).
  assert (Hout3 : proxyman.SenderStreamSettings (core.SenderSettings out)
                  = proxyman.SenderStreamSettings s3).
  { destruct (OutboundDetourConfig.MuxSettings c) as [m |].
    - destruct Hmux as (ms & _ & ->). reflexivity.
    - rewrite Hmux. reflexivity. }
  rewrite Hout3. clear Hout3 Hmux Hs.
  unfold OutboundDetourConfig.buildProxySettings in H3.
  rewrite Hp, Hps in H3. cbn in H3. rewrite Htl in H3. injection H3 as <-. cbn.
  destruct (OutboundDetourConfig.StreamSetting c) as [st |].
  - destruct Hbuilt as (b & Hb & ->).
    destruct (internet.SocketSettings b) as [k |] eqn:Hk;
      eexists _, _; (split; [reflexivity |]); (split; [reflexivity |]);
      exists b; cbn; rewrite ?Hk; repeat split; assumption.
  - subst built. eexists _, _. repeat split.
Qed.

End OutboundOutput.


(** ** More on the override merge *)

Section OverrideMore.
Context `{Opaque} {U : Go.Unicode}.

(** X18. [findInboundTag] and [findOutboundTag] return [-1] exactly when
    no entry of the list has the tag, and otherwise the position of the
    first entry that has it, so a result other than [-1] is always a
    valid index. *)
Theorem findTag_first_match (c : Config.t) (tag : string) :
  ((Config.findInboundTag c tag = -1
    /\ Forall (fun b => InboundDetourConfig.Tag b <> tag) (Config.InboundConfigs c))
   \/ exists (i : nat) b,
        Config.findInboundTag c tag = Z.of_nat i
        /\ (i < length (Config.InboundConfigs c))%nat
        /\ Config.InboundConfigs c !! i = Some b
        /\ InboundDetourConfig.Tag b = tag
        /\ Forall (fun b' => InboundDetourConfig.Tag b' <> tag)
             (take i (Config.InboundConfigs c)))
  /\ ((Config.findOutboundTag c tag = -1
       /\ Forall (fun b => OutboundDetourConfig.Tag b <> tag) (Config.OutboundConfigs c))
      \/ exists (i : nat) b,
           Config.findOutboundTag c tag = Z.of_nat i
           /\ (i < length (Config.OutboundConfigs c))%nat
           /\ Config.OutboundConfigs c !! i = Some b
           /\ OutboundDetourConfig.Tag b = tag
           /\ Forall (fun b' => OutboundDetourConfig.Tag b' <> tag)
                (take i (Config.OutboundConfigs c))).
Proof.
  split.
  - unfold Config.findInboundTag.
    destruct (findInboundTag_loop_spec (Config.InboundConfigs c) 0 tag)
      as [[Hall Hres] | (i & b & Hi & Hb & Hbefore & Hres)].
    + left. split; assumption.
    + right. exists i, b. repeat split; try assumption.
      eapply lookup_lt_Some; eassumption.
  - unfold Config.findOutboundTag.
    destruct (findOutboundTag_loop_spec (Config.OutboundConfigs c) 0 tag)
      as [[Hall Hres] | (i & b & Hi & Hb & Hbefore & Hres)].
    + left. split; assumption.
    + right. exists i, b. repeat split; try assumption.
      eapply lookup_lt_Some; eassumption.
Qed.

(** The document that [Override] leaves, field by field. *)
Lemma Override_fields (c o : Config.t) (fn : string) :
  (Config.Override c o fn).1
  = {| Config.Port := Config.Port c;
       Config.InboundConfig :=
         Config.orKeep (Config.InboundConfig o) (Config.InboundConfig c);
       Config.OutboundConfig :=
         Config.orKeep (Config.OutboundConfig o) (Config.OutboundConfig c);
       Config.InboundDetours :=
         Config.orKeep (Config.InboundDetours o) (Config.InboundDetours c);
       Config.OutboundDetours :=
         Config.orKeep (Config.OutboundDetours o) (Config.OutboundDetours c);
       Config.LogConfig := Config.orKeep (Config.LogConfig o) (Config.LogConfig c);
       Config.RouterConfig :=
         Config.orKeep (Config.RouterConfig o) (Config.RouterConfig c);
       Config.DNSConfig := Config.orKeep (Config.DNSConfig o) (Config.DNSConfig c);
       Config.InboundConfigs := (Config.overrideInbounds c o fn).1;
       Config.OutboundConfigs := (Config.overrideOutbounds c o fn).1;
       Config.Transport := Config.orKeep (Config.Transport o) (Config.Transport c);
       Config.Policy := Config.orKeep (Config.Policy o) (Config.Policy c);
       Config.API := Config.orKeep (Config.API o) (Config.API c);
       Config.Metrics := Config.orKeep (Config.Metrics o) (Config.Metrics c);
       Config.Stats := Config.orKeep (Config.Stats o) (Config.Stats c);
       Config.Reverse := Config.orKeep (Config.Reverse o) (Config.Reverse c);
       Config.FakeDNS := Config.orKeep (Config.FakeDNS o) (Config.FakeDNS c);
       Config.Observatory :=
         Config.orKeep (Config.Observatory o) (Config.Observatory c);
       Config.Tun := Config.orKeep (Config.Tun o) (Config.Tun c) |}.
Proof.
  unfold Config.Override.
  destruct (Config.overrideInbounds c o fn), (Config.overrideOutbounds c o fn).
  reflexivity.
Qed.

(** X19. Merging the document with no field set changes nothing and
    logs nothing, whatever the base document and the caller identity. *)
Theorem Override_zero_document (c : Config.t) (fn : string) :
  Config.Override c zeroConfig fn = (c, []).
Proof. destruct c. reflexivity. Qed.

Lemma orKeep_idempotent {A : Type} (o c : option A) :
  Config.orKeep o (Config.orKeep o c) = Config.orKeep o c.
Proof. destruct o; reflexivity. Qed.

(** A list that holds the entry itself at the first position of its tag
    is left as it is by a replacement of the first match. *)
Lemma replacesFirst_fixed {A : Type} (tagOf : A -> string) (l : list A) (e : A)
    (i : nat) (merged : list A) :
  l !! i = Some e ->
  Forall (fun b => tagOf b <> tagOf e) (take i l) ->
  replacesFirst tagOf l e merged ->
  merged = l.
Proof.
  intros Hi Hbefore (j & b & Hj & Hb & Hjbefore & -> & _).
  assert (Hji : j = i).
  { destruct (Nat.lt_trichotomy j i) as [Hlt | [Heq | Hgt]]; [| exact Heq |].
    - exfalso. eapply (Forall_lookup_tag _ _ j b Hbefore); [| exact Hb].
      rewrite lookup_take_lt by exact Hlt. exact Hj.
    - exfalso. eapply (Forall_lookup_tag _ _ i e Hjbefore); [| reflexivity].
      rewrite lookup_take_lt by exact Hgt. exact Hi. }
  subst j. apply list_insert_id. exact Hi.
Qed.

Lemma overrideInbounds_fixed (c1 o : Config.t) (fn : string)
    (e : InboundDetourConfig.t) (i : nat) :
  Config.InboundConfigs o = [e] ->
  Config.InboundConfigs c1 !! i = Some e ->
  Forall (fun b => InboundDetourConfig.Tag b <> InboundDetourConfig.Tag e)
    (take i (Config.InboundConfigs c1)) ->
  (Config.overrideInbounds c1 o fn).1 = Config.InboundConfigs c1.
Proof.
  intros Ho Hi Hbefore.
  assert (Hbase : Config.InboundConfigs c1 <> []).
  { intros Hnil. rewrite Hnil in Hi. discriminate. }
  destruct (overrideInbounds_single c1 o fn e Hbase Ho) as [[Hall _] | Hrep].
  - destruct (Forall_lookup_tag _ _ _ _ Hall Hi eq_refl).
  - eapply replacesFirst_fixed; eassumption.
Qed.

Lemma overrideOutbounds_fixed (c1 o : Config.t) (fn : string)
    (e : OutboundDetourConfig.t) (i : nat) :
  Config.OutboundConfigs o = [e] ->
  Config.OutboundConfigs c1 !! i = Some e ->
  Forall (fun b => OutboundDetourConfig.Tag b <> OutboundDetourConfig.Tag e)
    (take i (Config.OutboundConfigs c1)) ->
  (Config.overrideOutbounds c1 o fn).1 = Config.OutboundConfigs c1.
Proof.
  intros Ho Hi Hbefore.
  assert (Hbase : Config.OutboundConfigs c1 <> []).
  { intros Hnil. rewrite Hnil in Hi. discriminate. }
  destruct (overrideOutbounds_single c1 o fn e Hbase Ho) as [[Hall _] | Hrep].
  - destruct (Forall_lookup_tag _ _ _ _ Hall Hi eq_refl).
  - eapply replacesFirst_fixed; eassumption.
Qed.

(** A merged list holds the entry at the first position of its tag. *)
Lemma replacesFirst_holds {A : Type} (tagOf : A -> string) (l : list A) (e : A)
    (merged : list A) :
  replacesFirst tagOf l e merged ->
  exists i, merged !! i = Some e
            /\ Forall (fun b => tagOf b <> tagOf e) (take i merged).
Proof.
  intros (i & b & Hi & Hb & Hbefore & -> & _ & Hnew & _).
  exists i. split; [exact Hnew |].
  rewrite take_insert_ge by lia. exact Hbefore.
Qed.

Lemma overrideInbounds_idempotent (c c1 o : Config.t) (fn : string) :
  Config.InboundConfigs c1 = (Config.overrideInbounds c o fn).1 ->
  (Config.overrideInbounds c1 o fn).1 = Config.InboundConfigs c1.
Proof.
  intros Hc1.
  destruct (Config.InboundConfigs o) as [| e [| e' rest]] eqn:Ho.
  - unfold Config.overrideInbounds. rewrite Ho. reflexivity.
  - assert (Hcases : Config.InboundConfigs c = [] \/ Config.InboundConfigs c <> []).
    { destruct (Config.InboundConfigs c); [left; reflexivity | right; discriminate]. }
    destruct Hcases as [Hnil | Hbase].
    + unfold Config.overrideInbounds in Hc1. rewrite Ho, Hnil in Hc1. cbn in Hc1.
      apply (overrideInbounds_fixed c1 o fn e 0 Ho); rewrite Hc1;
        [reflexivity | constructor].
    + destruct (overrideInbounds_single c o fn e Hbase Ho) as [[Hall Hres] | Hrep].
      * rewrite Hres in Hc1.
        apply (overrideInbounds_fixed c1 o fn e (length (Config.InboundConfigs c)) Ho);
          rewrite Hc1.
        -- rewrite lookup_app_r by lia. rewrite Nat.sub_diag. reflexivity.
        -- rewrite take_app_length. exact Hall.
      * rewrite <- Hc1 in Hrep.
        destruct (replacesFirst_holds _ _ _ _ Hrep) as (i & Hi & Hbefore).
        exact (overrideInbounds_fixed c1 o fn e i Ho Hi Hbefore).
  - assert (Hres : forall d, (Config.overrideInbounds d o fn).1 = Config.InboundConfigs o).
    { intros d. unfold Config.overrideInbounds. rewrite Ho. cbn [length Nat.eqb].
      rewrite andb_false_r. reflexivity. }
    rewrite Hres in Hc1. rewrite Hres. symmetry. exact Hc1.
Qed.

Lemma overrideOutbounds_idempotent (c c1 o : Config.t) (fn : string) :
  Config.OutboundConfigs c1 = (Config.overrideOutbounds c o fn).1 ->
  (Config.overrideOutbounds c1 o fn).1 = Config.OutboundConfigs c1.
Proof.
  intros Hc1.
  destruct (Config.OutboundConfigs o) as [| e [| e' rest]] eqn:Ho.
  - unfold Config.overrideOutbounds. rewrite Ho. reflexivity.
  - assert (Hcases : Config.OutboundConfigs c = [] \/ Config.OutboundConfigs c <> []).
    { destruct (Config.OutboundConfigs c); [left; reflexivity | right; discriminate]. }
    destruct Hcases as [Hnil | Hbase].
    + unfold Config.overrideOutbounds in Hc1. rewrite Ho, Hnil in Hc1. cbn in Hc1.
      apply (overrideOutbounds_fixed c1 o fn e 0 Ho); rewrite Hc1;
        [reflexivity | constructor].
    + destruct (overrideOutbounds_single c o fn e Hbase Ho) as [[Hall Hres] | Hrep].
      * rewrite Hres in Hc1. destruct (Go.Contains (Go.ToLower fn) "tail").
        -- apply (overrideOutbounds_fixed c1 o fn e
                    (length (Config.OutboundConfigs c)) Ho); rewrite Hc1.
           ++ rewrite lookup_app_r by lia. rewrite Nat.sub_diag. reflexivity.
           ++ rewrite take_app_length. exact Hall.
        -- apply (overrideOutbounds_fixed c1 o fn e 0 Ho); rewrite Hc1;
             [reflexivity | constructor].
      * rewrite <- Hc1 in Hrep.
        destruct (replacesFirst_holds _ _ _ _ Hrep) as (i & Hi & Hbefore).
        exact (overrideOutbounds_fixed c1 o fn e i Ho Hi Hbefore).
  - assert (Hres : forall d, (Config.overrideOutbounds d o fn).1 = Config.OutboundConfigs o).
    { intros d. unfold Config.overrideOutbounds. rewrite Ho. cbn [length Nat.eqb].
      rewrite andb_false_r. reflexivity. }
    rewrite Hres in Hc1. rewrite Hres. symmetry. exact Hc1.
Qed.

(** X20. Merging the same override document twice leaves the document
    that merging it once leaves: the entry that the first merge wrote,
    appended or put in front is found by its tag and written over itself
    by the second. *)
Theorem Override_idempotent (c o : Config.t) (fn : string) :
  (Config.Override (Config.Override c o fn).1 o fn).1 = (Config.Override c o fn).1.
Proof.
  rewrite (Override_fields (Config.Override c o fn).1 o fn).
  rewrite (overrideInbounds_idempotent c (Config.Override c o fn).1 o fn)
    by apply Override_InboundConfigs.
  rewrite (overrideOutbounds_idempotent c (Config.Override c o fn).1 o fn)
    by apply Override_OutboundConfigs.
  rewrite (Override_fields c o fn). cbn.
  rewrite !orKeep_idempotent. reflexivity.
Qed.

(** X21. The lists are replaced wholesale in two cases: an override list
    of two entries or more becomes the list of the document whatever the
    tags, and so does a non-empty override list when the base list is
    empty; an empty override list leaves the base list as it is. This
    holds of the inbounds and of the outbounds, and none of these cases
    writes a log line. *)
Theorem Override_replaces_list_wholesale (c o : Config.t) (fn : string) :
  ((2 <= length (Config.InboundConfigs o))%nat
   \/ (Config.InboundConfigs c = [] /\ Config.InboundConfigs o <> []) ->
   Config.overrideInbounds c o fn = (Config.InboundConfigs o, [])
   /\ Config.InboundConfigs (Config.Override c o fn).1 = Config.InboundConfigs o)
  /\ (Config.InboundConfigs o = [] ->
      Config.overrideInbounds c o fn = (Config.InboundConfigs c, [])
      /\ Config.InboundConfigs (Config.Override c o fn).1 = Config.InboundConfigs c)
  /\ ((2 <= length (Config.OutboundConfigs o))%nat
      \/ (Config.OutboundConfigs c = [] /\ Config.OutboundConfigs o <> []) ->
      Config.overrideOutbounds c o fn = (Config.OutboundConfigs o, [])
      /\ Config.OutboundConfigs (Config.Override c o fn).1 = Config.OutboundConfigs o)
  /\ (Config.OutboundConfigs o = [] ->
      Config.overrideOutbounds c o fn = (Config.OutboundConfigs c, [])
      /\ Config.OutboundConfigs (Config.Override c o fn).1 = Config.OutboundConfigs c).
Proof.
  rewrite Override_InboundConfigs, Override_OutboundConfigs.
  split; [| split; [| split]]; intros Hcase.
  - assert (E : Config.overrideInbounds c o fn = (Config.InboundConfigs o, [])).
    { unfold Config.overrideInbounds. destruct Hcase as [Hlen | [Hnil Hne]].
      - destruct (Config.InboundConfigs o) as [| e [| e' rest]]; cbn in Hlen; try lia.
        cbn [length Nat.eqb]. rewrite andb_false_r. reflexivity.
      - rewrite Hnil. destruct (Config.InboundConfigs o); [congruence | reflexivity]. }
    rewrite E. split; reflexivity.
  - assert (E : Config.overrideInbounds c o fn = (Config.InboundConfigs c, [])).
    { unfold Config.overrideInbounds. rewrite Hcase. reflexivity. }
    rewrite E. split; reflexivity.
  - assert (E : Config.overrideOutbounds c o fn = (Config.OutboundConfigs o, [])).
    { unfold Config.overrideOutbounds. destruct Hcase as [Hlen | [Hnil Hne]].
      - destruct (Config.OutboundConfigs o) as [| e [| e' rest]]; cbn in Hlen; try lia.
        cbn [length Nat.eqb]. rewrite andb_false_r. reflexivity.
      - rewrite Hnil. destruct (Config.OutboundConfigs o); [congruence | reflexivity]. }
    rewrite E. split; reflexivity.
  - assert (E : Config.overrideOutbounds c o fn = (Config.OutboundConfigs c, [])).
    { unfold Config.overrideOutbounds. rewrite Hcase. reflexivity. }
    rewrite E. split; reflexivity.
Qed.

End OverrideMore.


(** ** More on the top-level compiler *)

Section TopLevelMore.
Context `{O : Opaque} {Co : Collaborators} {Mb : Config.ModuleBuilders}
  {U : Go.Unicode}.

Lemma forEach_Ok {A B : Type} (f : A -> result B) (l : list A) (ys : list B) :
  forEach f l = Ok ys <-> Forall2 (fun x y => f x = Ok y) l ys.
Proof.
  revert ys. induction l as [| x l IH]; intros ys; cbn.
  - split.
    + intros Hys. injection Hys as <-. constructor.
    + intros Hall. inversion Hall. reflexivity.
  - split.
    + intros Hys. apply bind_Ok in Hys as (y & Hy & Hys).
      apply bind_Ok in Hys as (ys' & Hys' & Hys). injection Hys as <-.
      constructor; [exact Hy | apply IH; exact Hys'].
    + intros Hall. inversion Hall as [| x' y l' ys' Hy Hrest]; subst.
      rewrite Hy. cbn. apply IH in Hrest. rewrite Hrest. reflexivity.
Qed.

Lemma forEach_first_error {A B : Type} (f : A -> result B) (pre : list A) (x : A)
    (post : list A) (e : error) :
  Forall (fun a => isOk (f a) = true) pre ->
  f x = Err e ->
  forEach f (pre ++ x :: post) = Err e.
Proof.
  intros Hpre Hx. induction Hpre as [| a pre Ha _ IH]; cbn.
  - rewrite Hx. reflexivity.
  - destruct (f a); try discriminate. cbn. rewrite IH. reflexivity.
Qed.

Lemma forEach_isOk {A B : Type} (f : A -> result B) (l : list A) :
  isOk (forEach f l) = true <-> Forall (fun a => isOk (f a) = true) l.
Proof.
  induction l as [| x l IH]; cbn.
  - split; [constructor | reflexivity].
  - split.
    + intros Hok. destruct (f x) eqn:Hx; try discriminate. cbn in Hok.
      destruct (forEach f l); try discriminate.
      constructor; [rewrite Hx; reflexivity | apply IH; reflexivity].
    + intros Hall. inversion Hall as [| x' l' Hx Hrest]; subst.
      apply IH in Hrest. destruct (f x); try discriminate. cbn.
      destruct (forEach f l); try discriminate. reflexivity.
Qed.

(** The collected lists against the lists of the document. *)
Lemma collectInbounds_all (c : Config.t) :
  Config.collectInbounds c
  = match allInbounds c with
    | i0 :: rest =>
        match InboundDetourConfig.PortList i0 with
        | None =>
            if (0 <? Config.Port c)%Z
            then InboundDetourConfig.setPortList
                   (Some (legacyPortList (Config.Port c))) i0 :: rest
            else i0 :: rest
        | Some _ => i0 :: rest
        end
    | [] => []
    end.
Proof.
  unfold Config.collectInbounds, allInbounds.
  destruct (Config.InboundConfig c) as [i |], (Config.InboundDetours c) as [l |];
    simpl;
    repeat match goal with
           | |- context [match ?x with _ => _ end] => destruct x
           end;
    reflexivity.
Qed.

Lemma collectOutbounds_all (c : Config.t) :
  Config.collectOutbounds c = allOutbounds c.
Proof.
  unfold Config.collectOutbounds, allOutbounds.
  destruct (Config.OutboundConfig c), (Config.OutboundDetours c); reflexivity.
Qed.

(** X22. The deprecated top-level port reaches the first inbound only,
    and only when that inbound has no port list and the port is not 0:
    the collected inbounds are the deprecated single inbound, the
    deprecated detours and the inbounds, in this order and as many; every
    one after the first is unchanged; the first is unchanged too, unless
    it has no port list and the port is positive, in which case its port
    list becomes the range from the port to the port. *)
Theorem collectInbounds_legacy_port (c : Config.t) :
  length (Config.collectInbounds c) = length (allInbounds c)
  /\ (forall (j : nat) i, (0 < j)%nat -> allInbounds c !! j = Some i ->
        Config.collectInbounds c !! j = Some i)
  /\ (forall i, allInbounds c !! 0%nat = Some i ->
        Config.collectInbounds c !! 0%nat
        = Some match InboundDetourConfig.PortList i with
               | None =>
                   if (0 <? Config.Port c)%Z
                   then InboundDetourConfig.setPortList
                          (Some (legacyPortList (Config.Port c))) i
                   else i
               | Some _ => i
               end).
Proof.
  rewrite collectInbounds_all.
  destruct (allInbounds c) as [| i0 rest].
  - repeat split; intros; discriminate.
  - split; [| split].
    + destruct (InboundDetourConfig.PortList i0); [reflexivity |].
      destruct (0 <? Config.Port c)%Z; reflexivity.
    + intros j i Hj Hi. destruct j as [| j]; [lia |].
      destruct (InboundDetourConfig.PortList i0); [exact Hi |].
      destruct (0 <? Config.Port c)%Z; exact Hi.
    + intros i Hi. injection Hi as <-.
      destruct (InboundDetourConfig.PortList i0); [reflexivity |].
      destruct (0 <? Config.Port c)%Z; reflexivity.
Qed.

Lemma collectInbounds_tags (c : Config.t) :
  map InboundDetourConfig.Tag (Config.collectInbounds c)
  = map InboundDetourConfig.Tag (allInbounds c).
Proof.
  rewrite collectInbounds_all.
  destruct (allInbounds c) as [| i0 rest]; [reflexivity |].
  destruct (InboundDetourConfig.PortList i0); [reflexivity |].
  destruct (0 <? Config.Port c)%Z; reflexivity.
Qed.

Lemma Inbound_Build_tag (spec : InboundDetourConfig.t)
    (h : core.InboundHandlerConfig) :
  InboundDetourConfig.Build spec = Ok h ->
  core.InboundTag h = InboundDetourConfig.Tag spec.
Proof.
  intros Hh. destruct (Build_steps spec h Hh) as (rs0 & rs1 & _ & _ & H2).
  apply buildSettings_output in H2
    as (stream & sniffing & override & raw & _ & _ & _ & _ & _ & Htag & _).
  exact Htag.
Qed.

Lemma Outbound_Build_tag (spec : OutboundDetourConfig.t)
    (h : core.OutboundHandlerConfig) :
  OutboundDetourConfig.Build spec = Ok h ->
  core.OutboundTag h = OutboundDetourConfig.Tag spec.
Proof.
  intros Hh. destruct (Outbound_Build_steps spec h Hh) as (raw & _ & _ & _ & Htag).
  exact Htag.
Qed.

(** The parts of a successful [Build]. *)
Lemma Config_Build_steps (c : Config.t) (out : core.Config) :
  Config.Build c = Ok out ->
  exists c',
    Config.PostProcessConfigureFile c = Ok c'
    /\ Config.buildApp c' = Ok (core.App out)
    /\ forEach (fun spec => InboundDetourConfig.Build (inboundWithTransport c' spec))
         (Config.collectInbounds c') = Ok (core.Inbound out)
    /\ forEach (fun spec => OutboundDetourConfig.Build (outboundWithTransport c' spec))
         (Config.collectOutbounds c') = Ok (core.Outbound out).
Proof.
  unfold Config.Build. intros Hout.
  apply bind_Ok in Hout as (c' & Hc' & Hout).
  apply bind_Ok in Hout as (app & Happ & Hout).
  apply bind_Ok in Hout as (inb & Hin & Hout).
  apply bind_Ok in Hout as (outb & Hob & Hout).
  injection Hout as <-. exists c'. repeat split; assumption.
Qed.

(** X23. A compiled document has one inbound handler per inbound spec
    and one outbound handler per outbound spec, in the order of the
    specs: the deprecated single entry first, then the deprecated
    detours, then the entries of the list. Each handler is what the
    compiler returns for its spec with the transport defaults laid over
    it, and carries the tag of its spec. The document is read as the
    post-processing stage leaves it. *)
Theorem Build_handlers_in_order (c : Config.t) (out : core.Config) :
  Config.Build c = Ok out ->
  exists c',
    Config.PostProcessConfigureFile c = Ok c'
    /\ Forall2 (fun spec h =>
                  InboundDetourConfig.Build (inboundWithTransport c' spec) = Ok h)
         (Config.collectInbounds c') (core.Inbound out)
    /\ Forall2 (fun spec h =>
                  OutboundDetourConfig.Build (outboundWithTransport c' spec) = Ok h)
         (allOutbounds c') (core.Outbound out)
    /\ map core.InboundTag (core.Inbound out)
       = map InboundDetourConfig.Tag (allInbounds c')
    /\ map core.OutboundTag (core.Outbound out)
       = map OutboundDetourConfig.Tag (allOutbounds c').
Proof.
  intros Hout. destruct (Config_Build_steps c out Hout) as (c' & Hc' & _ & Hin & Hob).
  apply forEach_Ok in Hin. apply forEach_Ok in Hob.
  rewrite collectOutbounds_all in Hob.
  exists c'. repeat split; try assumption.
  - rewrite <- collectInbounds_tags.
    induction Hin as [| spec h specs hs Hh _ IH]; cbn; [reflexivity |].
    rewrite IH. f_equal. apply Inbound_Build_tag in Hh. exact Hh.
  - induction Hob as [| spec h specs hs Hh _ IH]; cbn; [reflexivity |].
    rewrite IH. f_equal. apply Outbound_Build_tag in Hh. exact Hh.
Qed.

(** X24. No partial output: once the post-processing stage and the
    module builders have succeeded, the error of the first inbound that
    does not compile is the error of [Build], whatever follows it; and
    when every inbound compiles, the same holds of the first outbound
    that does not. *)
Theorem Build_first_failure (c c' : Config.t) (app : list core.TypedMessage)
    (e : error) :
  Config.PostProcessConfigureFile c = Ok c' ->
  Config.buildApp c' = Ok app ->
  (forall pre x post,
     Config.collectInbounds c' = (pre ++ x :: post)%list ->
     Forall (fun s => isOk (InboundDetourConfig.Build (inboundWithTransport c' s)) = true)
       pre ->
     InboundDetourConfig.Build (inboundWithTransport c' x) = Err e ->
     Config.Build c = Err e)
  /\ (forall pre x post,
       Forall (fun s => isOk (InboundDetourConfig.Build (inboundWithTransport c' s)) = true)
         (Config.collectInbounds c') ->
       allOutbounds c' = (pre ++ x :: post)%list ->
       Forall (fun s => isOk (OutboundDetourConfig.Build (outboundWithTransport c' s)) = true)
         pre ->
       OutboundDetourConfig.Build (outboundWithTransport c' x) = Err e ->
       Config.Build c = Err e).
Proof.
  intros Hc' Happ. split.
  - intros pre x post Hsplit Hpre Hx. unfold Config.Build.
    rewrite Hc'. cbn. rewrite Happ. cbn.
    change (forEach _ (Config.collectInbounds c'))
      with (forEach (fun spec => InboundDetourConfig.Build (inboundWithTransport c' spec))
              (Config.collectInbounds c')).
    rewrite Hsplit, (forEach_first_error _ pre x post e Hpre Hx). reflexivity.
  - intros pre x post Hin Hsplit Hpre Hx. unfold Config.Build.
    rewrite Hc'. cbn. rewrite Happ. cbn.
    change (forEach _ (Config.collectInbounds c'))
      with (forEach (fun spec => InboundDetourConfig.Build (inboundWithTransport c' spec))
              (Config.collectInbounds c')).
    apply forEach_isOk in Hin.
    destruct (forEach _ (Config.collectInbounds c')) as [hs | |]; try discriminate.
    cbn.
    change (forEach _ (Config.collectOutbounds c'))
      with (forEach (fun spec => OutboundDetourConfig.Build (outboundWithTransport c' spec))
              (Config.collectOutbounds c')).
    rewrite collectOutbounds_all, Hsplit,
      (forEach_first_error _ pre x post e Hpre Hx). reflexivity.
Qed.

Lemma isOk_bind {A B : Type} (r : result A) (f : A -> result B) :
  isOk (r ≫= f) = true <-> exists a, r = Ok a /\ isOk (f a) = true.
Proof.
  destruct r as [a | e |]; cbn.
  - split; [eauto | intros (a' & Ha & Hf); injection Ha as <-; exact Hf].
  - split; [discriminate | intros (a' & Ha & _); discriminate].
  - split; [discriminate | intros (a' & Ha & _); discriminate].
Qed.

Lemma isOk_wrap {A : Type} (ctx : string) (r : result A) : isOk (wrap ctx r) = isOk r.
Proof. destruct r; reflexivity. Qed.

Lemma appendApp_accepts {A : Type} (x : option A) (build : A -> result Message)
    (k : core.AppKind) (app : list core.TypedMessage) :
  (exists app', Config.appendApp x build k app = Ok app') <-> accepts build x.
Proof.
  unfold Config.appendApp, accepts. destruct x as [a |].
  - split.
    + intros (app' & Happ) a' Ha'. injection Ha' as <-.
      destruct (build a); [reflexivity | discriminate | discriminate].
    + intros Hacc. specialize (Hacc a eq_refl).
      destruct (build a) as [m | |]; try discriminate. cbn. eauto.
  - split; [intros _ a Ha; discriminate | eauto].
Qed.

(** The module list is built exactly when every configured module is
    accepted by its builder. *)
Lemma buildApp_isOk (c : Config.t) :
  isOk (Config.buildApp c) = true <->
  accepts Config.APIConfig_Build (Config.API c)
  /\ accepts Config.MetricsConfig_Build (Config.Metrics c)
  /\ accepts Config.RouterConfig_Build (Config.RouterConfig c)
  /\ accepts Config.DNSConfig_Build (Config.DNSConfig c)
  /\ accepts Config.PolicyConfig_Build (Config.Policy c)
  /\ accepts Config.ReverseConfig_Build (Config.Reverse c)
  /\ accepts Config.FakeDNSConfig_Build (Config.FakeDNS c)
  /\ accepts Config.ObservatoryConfig_Build (Config.Observatory c)
  /\ accepts Config.TunConfig_Build (Config.Tun c).
Proof.
  assert (Hdns : forall x : option external.DNSConfig,
             accepts (fun d => wrap "failed to parse DNS config" (Config.DNSConfig_Build d)) x
             <-> accepts Config.DNSConfig_Build x).
  { intros x. unfold accepts. split; intros Hacc a Ha; specialize (Hacc a Ha).
    - rewrite isOk_wrap in Hacc. exact Hacc.
    - rewrite isOk_wrap. exact Hacc. }
  assert (Hfake : forall app,
             (exists app',
                match Config.FakeDNS c with
                | Some f =>
                    r ← Config.FakeDNSConfig_Build f;
                    Ok ([Config.ToTypedMessage core.App_FakeDNS (Some r)] ++ app)%list
                | None => Ok app
                end = Ok app')
             <-> accepts Config.FakeDNSConfig_Build (Config.FakeDNS c)).
  { intros app. unfold accepts. destruct (Config.FakeDNS c) as [f |].
    - split.
      + intros (app' & Happ) a Ha. injection Ha as <-.
        destruct (Config.FakeDNSConfig_Build f); [reflexivity | discriminate | discriminate].
      + intros Hacc. specialize (Hacc f eq_refl).
        destruct (Config.FakeDNSConfig_Build f); try discriminate. cbn. eauto.
    - split; [intros _ a Ha; discriminate | eauto]. }
  unfold Config.buildApp. split.
  - intros Hok.
    apply isOk_bind in Hok as (a1 & H1 & Hok).
    apply isOk_bind in Hok as (a2 & H2 & Hok).
    apply isOk_bind in Hok as (a3 & H3 & Hok).
    apply isOk_bind in Hok as (a4 & H4 & Hok).
    apply isOk_bind in Hok as (a5 & H5 & Hok).
    apply isOk_bind in Hok as (a6 & H6 & Hok).
    apply isOk_bind in Hok as (a7 & H7 & Hok).
    apply isOk_bind in Hok as (a8 & H8 & Hok).
    apply isOk_bind in Hok as (a9 & H9 & Hok).
    destruct (Config.appendApp (Config.Tun c) Config.TunConfig_Build core.App_Tun a9)
      as [a10 | |] eqn:H10; try discriminate.
    repeat split.
    + eapply appendApp_accepts; eauto.
    + eapply appendApp_accepts; eauto.
    + eapply appendApp_accepts; eauto.
    + apply Hdns. eapply appendApp_accepts; eauto.
    + eapply appendApp_accepts; eauto.
    + eapply appendApp_accepts; eauto.
    + eapply Hfake; eauto.
    + eapply appendApp_accepts; eauto.
    + eapply appendApp_accepts; eauto.
  - intros (Hapi & Hmet & Hrou & Hd & Hpol & Hrev & Hfk & Hobs & Htun).
    apply Hdns in Hd.
    repeat (cbv zeta; apply isOk_bind;
            first
              [ match goal with
                | |- exists a, Config.appendApp ?x ?f ?k ?app = Ok a /\ _ =>
                    let a := fresh "a" in
                    let E := fresh "E" in
                    assert (exists a, Config.appendApp x f k app = Ok a) as (a & E)
                      by (apply appendApp_accepts; assumption);
                    exists a; split; [exact E |]
                end
              | match goal with
                | |- exists a, match Config.Stats c with _ => _ end = Ok a /\ _ =>
                    destruct (Config.Stats c); (eexists; split; [reflexivity |])
                end
              | match goal with
                | |- exists a, match Config.FakeDNS c with
                               | Some _ => _
                               | None => Ok ?app
                               end = Ok a /\ _ =>
                    let a := fresh "a" in
                    let E := fresh "E" in
                    destruct (proj2 (Hfake app) Hfk) as (a & E);
                    exists a; split; [exact E |]
                end ]).
    cbv zeta.
    all: match goal with
         | |- isOk (Config.appendApp ?x ?f ?k ?app) = true =>
             let a := fresh "a" in
             let E := fresh "E" in
             assert (exists a, Config.appendApp x f k app = Ok a) as (a & E)
               by (apply appendApp_accepts; assumption);
             rewrite E; reflexivity
         end.
Qed.

(** X25. [Build] succeeds exactly when the post-processing stage
    succeeds and, on the document it leaves, every configured module is
    accepted by its builder, every collected inbound compiles and every
    outbound compiles, each with the transport defaults laid over it.
    The log and stats modules never make it fail. *)
Theorem Build_succeeds_iff (c : Config.t) :
  isOk (Config.Build c) = true <->
  exists c',
    Config.PostProcessConfigureFile c = Ok c'
    /\ (accepts Config.APIConfig_Build (Config.API c')
        /\ accepts Config.MetricsConfig_Build (Config.Metrics c')
        /\ accepts Config.RouterConfig_Build (Config.RouterConfig c')
        /\ accepts Config.DNSConfig_Build (Config.DNSConfig c')
        /\ accepts Config.PolicyConfig_Build (Config.Policy c')
        /\ accepts Config.ReverseConfig_Build (Config.Reverse c')
        /\ accepts Config.FakeDNSConfig_Build (Config.FakeDNS c')
        /\ accepts Config.ObservatoryConfig_Build (Config.Observatory c')
        /\ accepts Config.TunConfig_Build (Config.Tun c'))
    /\ Forall (fun s => isOk (InboundDetourConfig.Build (inboundWithTransport c' s)) = true)
         (Config.collectInbounds c')
    /\ Forall (fun s => isOk (OutboundDetourConfig.Build (outboundWithTransport c' s)) = true)
         (allOutbounds c').
Proof.
  unfold Config.Build. rewrite isOk_bind. split.
  - intros (c' & Hc' & Hok). exists c'. split; [exact Hc' |].
    apply isOk_bind in Hok as (app & Happ & Hok).
    apply isOk_bind in Hok as (inb & Hin & Hok).
    apply isOk_bind in Hok as (outb & Hob & _).
    split; [apply buildApp_isOk; rewrite Happ; reflexivity |].
    split.
    + apply forEach_isOk.
      change (isOk (forEach (fun s => InboundDetourConfig.Build (inboundWithTransport c' s))
                      (Config.collectInbounds c')) = true).
      unfold inboundWithTransport. rewrite Hin. reflexivity.
    + rewrite <- collectOutbounds_all. apply forEach_isOk.
      unfold outboundWithTransport. rewrite Hob. reflexivity.
  - intros (c' & Hc' & Happ & Hin & Hob). exists c'. split; [exact Hc' |].
    apply buildApp_isOk in Happ.
    destruct (Config.buildApp c') as [app | |]; try discriminate. cbn.
    apply forEach_isOk in Hin. unfold inboundWithTransport in Hin.
    destruct (forEach _ (Config.collectInbounds c')) as [inb | |]; try discriminate.
    cbn. rewrite <- collectOutbounds_all in Hob.
    apply forEach_isOk in Hob. unfold outboundWithTransport in Hob.
    destruct (forEach _ (Config.collectOutbounds c')) as [outb | |]; try discriminate.
    reflexivity.
Qed.

End TopLevelMore.

(** ** The outcomes of the listen step *)

Section ListenOutcome.
Context `{Collaborators} {U : Go.Unicode}.

(** X9. On every listen address but the empty domain name the listen
    step returns, and each outcome has one cause: success on the three
    admitted combinations (no address with ports, an IP or [localhost]
    with ports, the path of a domain socket); the two missing-port
    errors when there is no address, or an IP or [localhost], and no
    ports; the unsupported-address error, carrying the name, on a domain
    that is neither [localhost] nor the path of a socket. *)
Theorem buildListen_outcome (c : InboundDetourConfig.t) :
  InboundDetourConfig.ListenOn c <> Some (DomainAddress "") ->
  match InboundDetourConfig.buildListen c with
  | Ok _ =>
      (InboundDetourConfig.ListenOn c = None
       /\ InboundDetourConfig.PortList c <> None)
      \/ (exists a, InboundDetourConfig.ListenOn c = Some a
                    /\ isIPOrLocalhost a = true
                    /\ InboundDetourConfig.PortList c <> None)
      \/ (exists a, InboundDetourConfig.ListenOn c = Some a
                    /\ isIPOrLocalhost a = false
                    /\ isSocketPath a = true)
  | Err e =>
      (e = ErrAnyIPNoPort
       /\ InboundDetourConfig.ListenOn c = None
       /\ InboundDetourConfig.PortList c = None)
      \/ (e = ErrSpecificIPNoPort
          /\ InboundDetourConfig.PortList c = None
          /\ exists a, InboundDetourConfig.ListenOn c = Some a
                       /\ isIPOrLocalhost a = true)
      \/ (exists d, e = ErrListenOnDomain d
                    /\ InboundDetourConfig.ListenOn c = Some (DomainAddress d)
                    /\ isIPOrLocalhost (DomainAddress d) = false
                    /\ isSocketPath (DomainAddress d) = false)
  | Panic => False
  end.
Proof.
  intros Hne. rewrite buildListen_classes.
  destruct (InboundDetourConfig.ListenOn c) as [[ip | ip | [| b rest]] |];
    destruct (InboundDetourConfig.PortList c) as [pl |];
    try (exfalso; apply Hne; reflexivity); cbn -[String.eqb];
    try destruct ((String b rest =? "localhost")%string) eqn:Hlocal;
    try destruct (Ascii.eqb b "/" || Ascii.eqb b "@") eqn:Hpath;
    cbn -[String.eqb];
    first
      [ left; split; [reflexivity | discriminate]
      | left; repeat split; reflexivity
      | right; left; eexists; split; [reflexivity |]; cbn -[String.eqb]; split;
        [first [reflexivity | exact Hlocal] | discriminate]
      | right; left; split; [reflexivity |]; split; [reflexivity |];
        eexists; split; [reflexivity |]; cbn -[String.eqb];
        first [reflexivity | exact Hlocal]
      | right; right; eexists; split; [reflexivity |]; cbn -[String.eqb]; split;
        [exact Hlocal | exact Hpath]
      | right; right; eexists; split; [reflexivity |]; split; [reflexivity |];
        cbn -[String.eqb]; split; [exact Hlocal | exact Hpath] ].
Qed.

End ListenOutcome.

(** ** The further properties on concrete documents *)

Section FurtherExamples.
#[local] Existing Instance demo.unicode.
#[local] Existing Instance demo.opaque.
#[local] Existing Instance demo.collaborators.
#[local] Existing Instance demo.builders.

(** The name [gopher] after two known names. *)
Lemma toProtocolList_first_unknown_witness :
  toProtocolList ["HTTP"; "Tls"; "gopher"; "ftp"] = Err (ErrUnknownProtocol "gopher").
Proof.
  apply (toProtocolList_first_unknown ["HTTP"; "Tls"] "gopher" ["ftp"]);
    [repeat constructor | reflexivity | reflexivity].
Defined.

(** Sniffing settings written in mixed case. *)
Lemma SniffingConfig_Build_normalizes_witness :
  exists out,
    SniffingConfig.Build demo.sniffing = Ok out
    /\ proxyman.DestinationOverride out = ["http"; "tls"; "quic"]
    /\ proxyman.DomainsExcluded out = ["example.com"]
    /\ Forall (fun k => k ∈ sniffingKeywords) (proxyman.DestinationOverride out).
Proof.
  eexists. split; [reflexivity |]. split; [reflexivity |]. split; [reflexivity |].
  apply (SniffingConfig_Build_normalizes demo.sniffing). reflexivity.
Defined.

(** The same settings, built and built again. *)
Lemma SniffingConfig_Build_fixed_point_witness :
  Forall (fun d => Go.isASCII d = true) ["Example.COM"]
  /\ SniffingConfig.Build
       {| SniffingConfig.Enabled := true;
          SniffingConfig.DestOverride := Some ["http"; "tls"; "quic"];
          SniffingConfig.DomainsExcluded := Some ["example.com"];
          SniffingConfig.MetadataOnly := false;
          SniffingConfig.RouteOnly := true |}
     = SniffingConfig.Build demo.sniffing.
Proof.
  assert (Hascii : Forall (fun d => Go.isASCII d = true) ["Example.COM"])
    by (repeat constructor).
  split; [exact Hascii |].
  exact (SniffingConfig_Build_fixed_point demo.sniffing _ Hascii eq_refl).
Defined.

(** [RANDOM] and [random] with the same concurrency. *)
Lemma Allocation_Build_case_insensitive_witness :
  InboundDetourAllocationConfig.Build (demo.allocate "RANDOM" (Some 3))
  = Ok {| proxyman.Type_ := proxyman.AllocationStrategy_Random;
          proxyman.AllocationConcurrency := Some 3;
          proxyman.Refresh := None |}.
Proof.
  apply (Allocation_Build_case_insensitive (demo.allocate "random" (Some 3))
           (demo.allocate "RANDOM" (Some 3))); reflexivity.
Defined.

(** The listen step on [localhost] with ports and on a plain domain. *)
Lemma buildListen_outcome_witness :
  isOk (InboundDetourConfig.buildListen demo.http8080) = true
  /\ match InboundDetourConfig.buildListen demo.http8080 with
     | Ok _ =>
         (InboundDetourConfig.ListenOn demo.http8080 = None
          /\ InboundDetourConfig.PortList demo.http8080 <> None)
         \/ (exists a, InboundDetourConfig.ListenOn demo.http8080 = Some a
                       /\ isIPOrLocalhost a = true
                       /\ InboundDetourConfig.PortList demo.http8080 <> None)
         \/ (exists a, InboundDetourConfig.ListenOn demo.http8080 = Some a
                       /\ isIPOrLocalhost a = false
                       /\ isSocketPath a = true)
     | Err e =>
         (e = ErrAnyIPNoPort
          /\ InboundDetourConfig.ListenOn demo.http8080 = None
          /\ InboundDetourConfig.PortList demo.http8080 = None)
         \/ (e = ErrSpecificIPNoPort
             /\ InboundDetourConfig.PortList demo.http8080 = None
             /\ exists a, InboundDetourConfig.ListenOn demo.http8080 = Some a
                          /\ isIPOrLocalhost a = true)
         \/ (exists d, e = ErrListenOnDomain d
                       /\ InboundDetourConfig.ListenOn demo.http8080
                          = Some (DomainAddress d)
                       /\ isIPOrLocalhost (DomainAddress d) = false
                       /\ isSocketPath (DomainAddress d) = false)
     | Panic => False
     end.
Proof.
  split; [reflexivity |].
  apply (buildListen_outcome demo.http8080). discriminate.
Defined.

(** A transparent-proxy inbound on 127.0.0.1, and a socket inbound with
    a port list. *)
Lemma Build_receiver_address_witness :
  exists out out',
    InboundDetourConfig.Build demo.transparent = Ok out
    /\ core.InboundTag out = "tproxy"
    /\ proxyman.PortList (core.ReceiverSettings out) = Some (demo.ports 1000 1002)
    /\ InboundDetourConfig.Build demo.socketInbound = Ok out'
    /\ proxyman.Listen (core.ReceiverSettings out') = Some (DomainAddress "@xray")
    /\ proxyman.PortList (core.ReceiverSettings out') = None.
Proof.
  eexists _, _.
  split; [vm_compute; reflexivity |].
  split; [apply (Build_receiver_address demo.transparent); reflexivity |].
  split; [apply (Build_receiver_address demo.transparent); reflexivity |].
  split; [vm_compute; reflexivity |].
  split; apply (Build_receiver_address demo.socketInbound); reflexivity.
Defined.

(** Random allocation on the three ports 1000-1002: concurrency 2 is
    compiled, concurrency 3 is refused. *)
Lemma Build_random_capacity_witness :
  InboundDetourConfig.Build
    (demo.inbound "in" None (Some (demo.ports 1000 1002))
       (Some (demo.allocate "random" (Some 3))))
  = Err (ErrNotEnoughPorts 3 [(1000, 1002)])
  /\ exists out,
       InboundDetourConfig.Build demo.transparent = Ok out
       /\ 2 < capacity (demo.ports 1000 1002).
Proof.
  assert (Hwf : wellFormedPorts (demo.ports 1000 1002)).
  { split; [repeat constructor; cbn; lia | vm_compute; reflexivity]. }
  split.
  - apply (proj1 (Build_random_capacity
                    (demo.inbound "in" None (Some (demo.ports 1000 1002))
                       (Some (demo.allocate "random" (Some 3))))
                    (demo.allocate "random" (Some 3)) (demo.ports 1000 1002) 3
                    eq_refl eq_refl eq_refl eq_refl ltac:(lia) Hwf));
      [vm_compute; discriminate | reflexivity].
  - eexists. split; [vm_compute; reflexivity |].
    eapply (proj2 (Build_random_capacity demo.transparent
                     (demo.allocate "random" (Some 2)) (demo.ports 1000 1002) 2
                     eq_refl eq_refl eq_refl eq_refl ltac:(lia) Hwf)).
    vm_compute; reflexivity.
Defined.

Lemma Build_protocol_settings_witness :
  exists out,
    InboundDetourConfig.Build demo.transparent = Ok out
    /\ exists raw,
         inboundConfigLoader_LoadWithID "{}" "dokodemo-door" = Ok raw
         /\ Buildable_Build raw = Ok (core.InboundProxySettings out)
         /\ proxyman.ReceiveOriginalDestination (core.ReceiverSettings out)
            = default false (asDokodemoConfig raw).
Proof.
  eexists. split; [vm_compute; reflexivity |].
  apply (Build_protocol_settings demo.transparent). reflexivity.
Defined.

Lemma Build_receiver_parts_witness :
  exists out,
    InboundDetourConfig.Build demo.transparent = Ok out
    /\ toProtocolList ["http"; "TLS"]
       = Ok (proxyman.DomainOverride (core.ReceiverSettings out))
    /\ SniffingConfig.Build demo.sniffing
       = Ok (default {| proxyman.Enabled := false;
                         proxyman.DestinationOverride := [];
                         proxyman.DomainsExcluded := [];
                         proxyman.MetadataOnly := false;
                         proxyman.RouteOnly := false |}
               (proxyman.SniffingSettings (core.ReceiverSettings out))).
Proof.
  assert (Hout : exists out, InboundDetourConfig.Build demo.transparent = Ok out)
    by (eexists; vm_compute; reflexivity).
  destruct Hout as (out & Hout). exists out. split; [exact Hout |].
  destruct (Build_receiver_parts demo.transparent out Hout)
    as (_ & _ & (s & Hs & Hsn) & Hov).
  split; [exact Hov |]. rewrite Hsn. exact Hs.
Defined.

(** An outbound bound to a domain name, and the same bound to an IP. *)
Lemma Build_rejects_domain_bind_witness :
  OutboundDetourConfig.Build (demo.boundOutbound (DomainAddress "example.com"))
  = Err (ErrSendThrough (DomainAddress "example.com")).
Proof.
  apply (Build_rejects_domain_bind
           (demo.boundOutbound (DomainAddress "example.com")) "example.com");
    reflexivity.
Defined.

Lemma Build_sender_output_witness :
  exists out,
    OutboundDetourConfig.Build (demo.boundOutbound (IPv4Address [10; 0; 0; 1])) = Ok out
    /\ core.OutboundTag out = "direct"
    /\ proxyman.Via (core.SenderSettings out) = Some (IPv4Address [10; 0; 0; 1])
    /\ exists ms, MuxConfig.Build demo.mux = Ok ms
                  /\ proxyman.MultiplexSettings (core.SenderSettings out) = Some ms.
Proof.
  assert (Hout : exists out,
             OutboundDetourConfig.Build (demo.boundOutbound (IPv4Address [10; 0; 0; 1]))
             = Ok out)
    by (eexists; vm_compute; reflexivity).
  destruct Hout as (out & Hout). exists out. split; [exact Hout |].
  destruct (Build_sender_output
              (demo.boundOutbound (IPv4Address [10; 0; 0; 1])) out Hout)
    as (Htag & Hvia & _ & Hmux & _).
  split; [exact Htag |]. split; [exact Hvia |]. exact Hmux.
Defined.

Lemma Build_chain_proxy_kept_witness :
  exists out,
    OutboundDetourConfig.Build (demo.boundOutbound (IPv4Address [10; 0; 0; 1])) = Ok out
    /\ exists ps,
         ProxyConfig_Build
           {| ProxyConfig.Tag := "next"; ProxyConfig.TransportLayerProxy := false |}
         = Ok ps
         /\ (internet.TransportLayerProxy ps = false ->
             proxyman.ProxySettings (core.SenderSettings out) = Some ps
             /\ exists b, StreamConfig_Build (demo.streamWithDialer "") = Ok b
                          /\ proxyman.SenderStreamSettings (core.SenderSettings out)
                             = Some b).
Proof.
  eexists. split; [vm_compute; reflexivity |].
  apply (Build_chain_proxy_kept (demo.boundOutbound (IPv4Address [10; 0; 0; 1]))).
  reflexivity.
Defined.

Lemma Build_transport_layer_frame_witness :
  exists out ss sk,
    OutboundDetourConfig.Build demo.chainedOverStream = Ok out
    /\ proxyman.SenderStreamSettings (core.SenderSettings out) = Some ss
    /\ internet.SocketSettings ss = Some sk
    /\ exists b, StreamConfig_Build (demo.streamWithDialer "") = Ok b
                 /\ internet.StreamOther ss = internet.StreamOther b
                 /\ internet.SocketOther sk
                    = match internet.SocketSettings b with
                      | Some k => internet.SocketOther k
                      | None => None
                      end.
Proof.
  assert (Hout : exists out, OutboundDetourConfig.Build demo.chainedOverStream = Ok out)
    by (eexists; vm_compute; reflexivity).
  destruct Hout as (out & Hout).
  pose proof (Build_transport_layer_frame demo.chainedOverStream
                {| ProxyConfig.Tag := "next"; ProxyConfig.TransportLayerProxy := true |}
                {| internet.Tag := "next"; internet.TransportLayerProxy := true |}
                out) as Hframe.
  specialize (Hframe eq_refl eq_refl eq_refl Hout).
  destruct Hframe as (ss & sk & Hss & Hsk & Hframe).
  exists out, ss, sk. split; [exact Hout |]. split; [exact Hss |].
  split; [exact Hsk | exact Hframe].
Defined.

(** Two override entries replace three inbounds; none keeps them. *)
Lemma Override_replaces_list_wholesale_witness :
  Config.InboundConfigs
    (Config.Override
       (demo.document [demo.tagged "a" 1; demo.tagged "b" 2; demo.tagged "c" 3] [])
       (demo.document [demo.tagged "b" 8; demo.tagged "z" 9] []) "conf.json").1
  = [demo.tagged "b" 8; demo.tagged "z" 9]
  /\ Config.InboundConfigs
       (Config.Override (demo.document [demo.tagged "a" 1] [])
          (demo.document [] [demo.outbound "o" None None]) "conf.json").1
     = [demo.tagged "a" 1].
Proof.
  split.
  - apply (proj1 (Override_replaces_list_wholesale
                    (demo.document [demo.tagged "a" 1; demo.tagged "b" 2;
                                    demo.tagged "c" 3] [])
                    (demo.document [demo.tagged "b" 8; demo.tagged "z" 9] [])
                    "conf.json")).
    left. cbn. lia.
  - apply (proj1 (proj2 (Override_replaces_list_wholesale
                           (demo.document [demo.tagged "a" 1] [])
                           (demo.document [] [demo.outbound "o" None None])
                           "conf.json"))).
    reflexivity.
Defined.

(** The deprecated document: three inbounds and two outbounds, in the
    order of their sources, the first inbound on port 1080. *)
Lemma Build_handlers_in_order_witness :
  exists out,
    Config.Build demo.legacyDocument = Ok out
    /\ map core.InboundTag (core.Inbound out) = ["first"; "detour"; "modern"]
    /\ map core.OutboundTag (core.Outbound out) = ["direct"; "block"].
Proof.
  assert (Hout : exists out, Config.Build demo.legacyDocument = Ok out)
    by (eexists; vm_compute; reflexivity).
  destruct Hout as (out & Hout). exists out. split; [exact Hout |].
  destruct (Build_handlers_in_order demo.legacyDocument out Hout)
    as (c' & Hc' & _ & _ & Hin & Hob).
  injection Hc' as <-. split; [exact Hin | exact Hob].
Defined.

(** The second of three inbounds has neither address nor ports. *)
Lemma Build_first_failure_witness :
  Config.Build
    (demo.document
       [demo.tagged "a" 1; demo.inbound "b" None None None; demo.tagged "c" 3] [])
  = Err ErrAnyIPNoPort.
Proof.
  pose proof (Build_first_failure
                (demo.document
                   [demo.tagged "a" 1; demo.inbound "b" None None None;
                    demo.tagged "c" 3] [])
                (demo.document
                   [demo.tagged "a" 1; demo.inbound "b" None None None;
                    demo.tagged "c" 3] [])) as Hfirst.
  assert (Happ : exists app,
             Config.buildApp
               (demo.document
                  [demo.tagged "a" 1; demo.inbound "b" None None None;
                   demo.tagged "c" 3] []) = Ok app)
    by (eexists; vm_compute; reflexivity).
  destruct Happ as (app & Happ).
  apply (proj1 (Hfirst app ErrAnyIPNoPort eq_refl Happ)
           [demo.tagged "a" 1] (demo.inbound "b" None None None) [demo.tagged "c" 3]).
  - reflexivity.
  - repeat constructor.
  - reflexivity.
Defined.

End FurtherExamples.

(** ** The transport defaults in the loops of the top-level compiler *)

Section OverlayInBuild.
Context `{Opaque} {U : Go.Unicode}.

(** X26. In the two loops of [Build], a document without transport
    defaults leaves the stream settings of an entry as they are, absent
    ones included; with transport defaults every entry gets stream
    settings, in which each of the five per-transport blocks is the
    entry's own when it has one and the default otherwise, and the socket
    options and the remaining fields are the entry's own. An entry
    without stream settings gets exactly the defaults. *)
Theorem overlay_entry_wins (c : Config.t) (s : option StreamConfig.t) :
  (Config.Transport c = None -> Config.overlay c s = s)
  /\ (forall t, Config.Transport c = Some t ->
        exists s',
          Config.overlay c s = Some s'
          /\ StreamConfig.TCPSettings s'
             = Config.orKeep (s ≫= StreamConfig.TCPSettings) (TransportConfig.TCPConfig t)
          /\ StreamConfig.KCPSettings s'
             = Config.orKeep (s ≫= StreamConfig.KCPSettings) (TransportConfig.KCPConfig t)
          /\ StreamConfig.WSSettings s'
             = Config.orKeep (s ≫= StreamConfig.WSSettings) (TransportConfig.WSConfig t)
          /\ StreamConfig.HTTPSettings s'
             = Config.orKeep (s ≫= StreamConfig.HTTPSettings) (TransportConfig.HTTPConfig t)
          /\ StreamConfig.DSSettings s'
             = Config.orKeep (s ≫= StreamConfig.DSSettings) (TransportConfig.DSConfig t)
          /\ StreamConfig.SocketSettings s' = s ≫= StreamConfig.SocketSettings
          /\ StreamConfig.Other s' = s ≫= StreamConfig.Other).
Proof.
  unfold Config.overlay. split.
  - intros Hnone. rewrite Hnone. reflexivity.
  - intros t Ht. rewrite Ht. eexists. split; [reflexivity |].
    destruct s as [[tcp kcp ws http ds sock other] |]; cbn;
      repeat split;
      try (destruct tcp; reflexivity); try (destruct kcp; reflexivity);
      try (destruct ws; reflexivity); try (destruct http; reflexivity);
      try (destruct ds; reflexivity).
Qed.

End OverlayInBuild.
